(** * libnvme, src/nvme/json.c: the JSON configuration bridge

    A shallow embedding of [json.c]: the importer ([json_read_config] and
    the [json_parse_*] walk, with [json_update_attributes] and
    [json_import_nvme_tls_key]), the config exporter ([json_update_config]
    with [json_update_subsys] and [json_update_port]), and the controller
    record of the diagnostic dump ([json_dump_ctrl]).

    What [json.c] calls but does not define is kept at its interface:
    json-c's tokener and serializer, the keyring functions of [linux.c],
    and the find-or-create resolvers of [tree.c] are class methods. *)

From Stdlib Require Import ZArith String Ascii List Bool Lia Permutation DecimalString.
From stdpp Require Import base option list.

Import ListNotations.
Local Open Scope string_scope.
Local Open Scope list_scope.
Local Open Scope Z_scope.

(** ** C strings *)

(** [strcmp]: only its sign is ever looked at; [json.c] tests [!strcmp(a, b)]
    (equal) and [strcmp(a, b)] (different). *)
Definition strcmp (a b : string) : Z :=
  match String.compare a b with
  | Eq => 0
  | Lt => -1
  | Gt => 1
  end.

(** ** json-c values

    A [struct json_object *] is a tree of typed nodes; the NULL pointer is
    the JSON value [null].  Object fields keep their insertion order, which
    is the order [json_object_object_foreach] visits them in.  Floating-point
    numbers are left out: no field of the configuration schema is one. *)
#[warnings="-register-all"]
Inductive json_object : Type :=
| json_null
| json_boolean (b : bool)
| json_int (i : Z)
| json_string (s : string)
| json_array (elems : list json_object)
| json_obj (fields : list (string * json_object)).

Definition INT32_MIN : Z := - 2147483648.
Definition INT32_MAX : Z := 2147483647.

Definition clamp_int32 (i : Z) : Z :=
  if i <=? INT32_MIN then INT32_MIN
  else if INT32_MAX <=? i then INT32_MAX
  else i.

(** The part of json-c that stays abstract: the number parser behind
    [json_object_get_int] on a string, the serializer behind
    [json_object_get_string] on a value that is not a string, and the
    tokener in strict mode. *)
Class JsonC : Type := {
  json_parse_int64 : string -> option Z;
  json_object_to_json_string : json_object -> string;
  json_tokener_parse_ex : string -> option json_object
}.

Section JsonAccessors.
Context {JC : JsonC}.

Definition json_object_get_int (jso : json_object) : Z :=
  match jso with
  | json_null => 0
  | json_int i => clamp_int32 i
  | json_boolean b => if b then 1 else 0
  | json_string s =>
      match json_parse_int64 s with
      | Some i => clamp_int32 i
      | None => 0
      end
  | json_array _ | json_obj _ => 0
  end.

Definition json_object_get_boolean (jso : json_object) : bool :=
  match jso with
  | json_null => false
  | json_boolean b => b
  | json_int i => negb (i =? 0)
  | json_string s => negb (Nat.eqb (String.length s) 0)
  | json_array _ | json_obj _ => false
  end.

(** [None] is the NULL [const char *]. *)
Definition json_object_get_string (jso : json_object) : option string :=
  match jso with
  | json_null => None
  | json_string s => Some s
  | _ => Some (json_object_to_json_string jso)
  end.

End JsonAccessors.

Definition is_null (jso : json_object) : bool :=
  match jso with
  | json_null => true
  | _ => false
  end.

Fixpoint lh_table_lookup (fields : list (string * json_object)) (key : string)
  : option json_object :=
  match fields with
  | [] => None
  | (k, v) :: rest => if String.eqb k key then Some v else lh_table_lookup rest key
  end.

(** [json_object_object_get]: NULL ([None]) when [jso] is not an object,
    when the key is absent, and when the stored value is [null]. *)
Definition json_object_object_get (jso : json_object) (key : string)
  : option json_object :=
  match jso with
  | json_obj fields =>
      match lh_table_lookup fields key with
      | Some v => if is_null v then None else Some v
      | None => None
      end
  | _ => None
  end.

(** The entries [json_object_object_foreach] walks.  Its only user,
    [json_update_attributes], is reached with an object (see
    [json_object_object_get_is_object] below). *)
Definition json_object_get_object (jso : json_object)
  : list (string * json_object) :=
  match jso with
  | json_obj fields => fields
  | _ => []
  end.

(** [json_object_object_add]: an existing key keeps its place and gets the
    new value, a new key goes last. *)
Fixpoint lh_table_insert (fields : list (string * json_object)) (key : string)
    (val : json_object) : list (string * json_object) :=
  match fields with
  | [] => [(key, val)]
  | (k, v) :: rest =>
      if String.eqb k key then (k, val) :: rest
      else (k, v) :: lh_table_insert rest key val
  end.

Definition json_object_object_add (obj : list (string * json_object))
    (key : string) (val : json_object) : list (string * json_object) :=
  lh_table_insert obj key val.

Definition has_key (obj : list (string * json_object)) (key : string) : bool :=
  match lh_table_lookup obj key with
  | Some _ => true
  | None => false
  end.

(** ** struct nvme_fabrics_config *)

Record nvme_fabrics_config : Type := {
  nr_io_queues : Z;
  nr_write_queues : Z;
  nr_poll_queues : Z;
  queue_size : Z;
  keep_alive_tmo : Z;
  reconnect_delay : Z;
  ctrl_loss_tmo : Z;
  fast_io_fail_tmo : Z;
  tos : Z;
  keyring : Z;
  tls_key : Z;
  duplicate_connect : bool;
  disable_sqflow : bool;
  hdr_digest : bool;
  data_digest : bool;
  tls : bool;
  concat : bool
}.

Definition set_nr_io_queues (v : Z) (c : nvme_fabrics_config) :=
  {| nr_io_queues := v; nr_write_queues := nr_write_queues c;
     nr_poll_queues := nr_poll_queues c; queue_size := queue_size c;
     keep_alive_tmo := keep_alive_tmo c; reconnect_delay := reconnect_delay c;
     ctrl_loss_tmo := ctrl_loss_tmo c; fast_io_fail_tmo := fast_io_fail_tmo c;
     tos := tos c; keyring := keyring c; tls_key := tls_key c;
     duplicate_connect := duplicate_connect c; disable_sqflow := disable_sqflow c;
     hdr_digest := hdr_digest c; data_digest := data_digest c; tls := tls c;
     concat := concat c |}.

Definition set_nr_write_queues (v : Z) (c : nvme_fabrics_config) :=
  {| nr_io_queues := nr_io_queues c; nr_write_queues := v;
     nr_poll_queues := nr_poll_queues c; queue_size := queue_size c;
     keep_alive_tmo := keep_alive_tmo c; reconnect_delay := reconnect_delay c;
     ctrl_loss_tmo := ctrl_loss_tmo c; fast_io_fail_tmo := fast_io_fail_tmo c;
     tos := tos c; keyring := keyring c; tls_key := tls_key c;
     duplicate_connect := duplicate_connect c; disable_sqflow := disable_sqflow c;
     hdr_digest := hdr_digest c; data_digest := data_digest c; tls := tls c;
     concat := concat c |}.

Definition set_nr_poll_queues (v : Z) (c : nvme_fabrics_config) :=
  {| nr_io_queues := nr_io_queues c; nr_write_queues := nr_write_queues c;
     nr_poll_queues := v; queue_size := queue_size c;
     keep_alive_tmo := keep_alive_tmo c; reconnect_delay := reconnect_delay c;
     ctrl_loss_tmo := ctrl_loss_tmo c; fast_io_fail_tmo := fast_io_fail_tmo c;
     tos := tos c; keyring := keyring c; tls_key := tls_key c;
     duplicate_connect := duplicate_connect c; disable_sqflow := disable_sqflow c;
     hdr_digest := hdr_digest c; data_digest := data_digest c; tls := tls c;
     concat := concat c |}.

Definition set_queue_size (v : Z) (c : nvme_fabrics_config) :=
  {| nr_io_queues := nr_io_queues c; nr_write_queues := nr_write_queues c;
     nr_poll_queues := nr_poll_queues c; queue_size := v;
     keep_alive_tmo := keep_alive_tmo c; reconnect_delay := reconnect_delay c;
     ctrl_loss_tmo := ctrl_loss_tmo c; fast_io_fail_tmo := fast_io_fail_tmo c;
     tos := tos c; keyring := keyring c; tls_key := tls_key c;
     duplicate_connect := duplicate_connect c; disable_sqflow := disable_sqflow c;
     hdr_digest := hdr_digest c; data_digest := data_digest c; tls := tls c;
     concat := concat c |}.

Definition set_keep_alive_tmo (v : Z) (c : nvme_fabrics_config) :=
  {| nr_io_queues := nr_io_queues c; nr_write_queues := nr_write_queues c;
     nr_poll_queues := nr_poll_queues c; queue_size := queue_size c;
     keep_alive_tmo := v; reconnect_delay := reconnect_delay c;
     ctrl_loss_tmo := ctrl_loss_tmo c; fast_io_fail_tmo := fast_io_fail_tmo c;
     tos := tos c; keyring := keyring c; tls_key := tls_key c;
     duplicate_connect := duplicate_connect c; disable_sqflow := disable_sqflow c;
     hdr_digest := hdr_digest c; data_digest := data_digest c; tls := tls c;
     concat := concat c |}.

Definition set_reconnect_delay (v : Z) (c : nvme_fabrics_config) :=
  {| nr_io_queues := nr_io_queues c; nr_write_queues := nr_write_queues c;
     nr_poll_queues := nr_poll_queues c; queue_size := queue_size c;
     keep_alive_tmo := keep_alive_tmo c; reconnect_delay := v;
     ctrl_loss_tmo := ctrl_loss_tmo c; fast_io_fail_tmo := fast_io_fail_tmo c;
     tos := tos c; keyring := keyring c; tls_key := tls_key c;
     duplicate_connect := duplicate_connect c; disable_sqflow := disable_sqflow c;
     hdr_digest := hdr_digest c; data_digest := data_digest c; tls := tls c;
     concat := concat c |}.

Definition set_ctrl_loss_tmo (v : Z) (c : nvme_fabrics_config) :=
  {| nr_io_queues := nr_io_queues c; nr_write_queues := nr_write_queues c;
     nr_poll_queues := nr_poll_queues c; queue_size := queue_size c;
     keep_alive_tmo := keep_alive_tmo c; reconnect_delay := reconnect_delay c;
     ctrl_loss_tmo := v; fast_io_fail_tmo := fast_io_fail_tmo c;
     tos := tos c; keyring := keyring c; tls_key := tls_key c;
     duplicate_connect := duplicate_connect c; disable_sqflow := disable_sqflow c;
     hdr_digest := hdr_digest c; data_digest := data_digest c; tls := tls c;
     concat := concat c |}.

Definition set_fast_io_fail_tmo (v : Z) (c : nvme_fabrics_config) :=
  {| nr_io_queues := nr_io_queues c; nr_write_queues := nr_write_queues c;
     nr_poll_queues := nr_poll_queues c; queue_size := queue_size c;
     keep_alive_tmo := keep_alive_tmo c; reconnect_delay := reconnect_delay c;
     ctrl_loss_tmo := ctrl_loss_tmo c; fast_io_fail_tmo := v;
     tos := tos c; keyring := keyring c; tls_key := tls_key c;
     duplicate_connect := duplicate_connect c; disable_sqflow := disable_sqflow c;
     hdr_digest := hdr_digest c; data_digest := data_digest c; tls := tls c;
     concat := concat c |}.

Definition set_tos (v : Z) (c : nvme_fabrics_config) :=
  {| nr_io_queues := nr_io_queues c; nr_write_queues := nr_write_queues c;
     nr_poll_queues := nr_poll_queues c; queue_size := queue_size c;
     keep_alive_tmo := keep_alive_tmo c; reconnect_delay := reconnect_delay c;
     ctrl_loss_tmo := ctrl_loss_tmo c; fast_io_fail_tmo := fast_io_fail_tmo c;
     tos := v; keyring := keyring c; tls_key := tls_key c;
     duplicate_connect := duplicate_connect c; disable_sqflow := disable_sqflow c;
     hdr_digest := hdr_digest c; data_digest := data_digest c; tls := tls c;
     concat := concat c |}.

Definition set_keyring (v : Z) (c : nvme_fabrics_config) :=
  {| nr_io_queues := nr_io_queues c; nr_write_queues := nr_write_queues c;
     nr_poll_queues := nr_poll_queues c; queue_size := queue_size c;
     keep_alive_tmo := keep_alive_tmo c; reconnect_delay := reconnect_delay c;
     ctrl_loss_tmo := ctrl_loss_tmo c; fast_io_fail_tmo := fast_io_fail_tmo c;
     tos := tos c; keyring := v; tls_key := tls_key c;
     duplicate_connect := duplicate_connect c; disable_sqflow := disable_sqflow c;
     hdr_digest := hdr_digest c; data_digest := data_digest c; tls := tls c;
     concat := concat c |}.

Definition set_tls_key (v : Z) (c : nvme_fabrics_config) :=
  {| nr_io_queues := nr_io_queues c; nr_write_queues := nr_write_queues c;
     nr_poll_queues := nr_poll_queues c; queue_size := queue_size c;
     keep_alive_tmo := keep_alive_tmo c; reconnect_delay := reconnect_delay c;
     ctrl_loss_tmo := ctrl_loss_tmo c; fast_io_fail_tmo := fast_io_fail_tmo c;
     tos := tos c; keyring := keyring c; tls_key := v;
     duplicate_connect := duplicate_connect c; disable_sqflow := disable_sqflow c;
     hdr_digest := hdr_digest c; data_digest := data_digest c; tls := tls c;
     concat := concat c |}.

Definition set_duplicate_connect (v : bool) (c : nvme_fabrics_config) :=
  {| nr_io_queues := nr_io_queues c; nr_write_queues := nr_write_queues c;
     nr_poll_queues := nr_poll_queues c; queue_size := queue_size c;
     keep_alive_tmo := keep_alive_tmo c; reconnect_delay := reconnect_delay c;
     ctrl_loss_tmo := ctrl_loss_tmo c; fast_io_fail_tmo := fast_io_fail_tmo c;
     tos := tos c; keyring := keyring c; tls_key := tls_key c;
     duplicate_connect := v; disable_sqflow := disable_sqflow c;
     hdr_digest := hdr_digest c; data_digest := data_digest c; tls := tls c;
     concat := concat c |}.

Definition set_disable_sqflow (v : bool) (c : nvme_fabrics_config) :=
  {| nr_io_queues := nr_io_queues c; nr_write_queues := nr_write_queues c;
     nr_poll_queues := nr_poll_queues c; queue_size := queue_size c;
     keep_alive_tmo := keep_alive_tmo c; reconnect_delay := reconnect_delay c;
     ctrl_loss_tmo := ctrl_loss_tmo c; fast_io_fail_tmo := fast_io_fail_tmo c;
     tos := tos c; keyring := keyring c; tls_key := tls_key c;
     duplicate_connect := duplicate_connect c; disable_sqflow := v;
     hdr_digest := hdr_digest c; data_digest := data_digest c; tls := tls c;
     concat := concat c |}.

Definition set_hdr_digest (v : bool) (c : nvme_fabrics_config) :=
  {| nr_io_queues := nr_io_queues c; nr_write_queues := nr_write_queues c;
     nr_poll_queues := nr_poll_queues c; queue_size := queue_size c;
     keep_alive_tmo := keep_alive_tmo c; reconnect_delay := reconnect_delay c;
     ctrl_loss_tmo := ctrl_loss_tmo c; fast_io_fail_tmo := fast_io_fail_tmo c;
     tos := tos c; keyring := keyring c; tls_key := tls_key c;
     duplicate_connect := duplicate_connect c; disable_sqflow := disable_sqflow c;
     hdr_digest := v; data_digest := data_digest c; tls := tls c;
     concat := concat c |}.

Definition set_data_digest (v : bool) (c : nvme_fabrics_config) :=
  {| nr_io_queues := nr_io_queues c; nr_write_queues := nr_write_queues c;
     nr_poll_queues := nr_poll_queues c; queue_size := queue_size c;
     keep_alive_tmo := keep_alive_tmo c; reconnect_delay := reconnect_delay c;
     ctrl_loss_tmo := ctrl_loss_tmo c; fast_io_fail_tmo := fast_io_fail_tmo c;
     tos := tos c; keyring := keyring c; tls_key := tls_key c;
     duplicate_connect := duplicate_connect c; disable_sqflow := disable_sqflow c;
     hdr_digest := hdr_digest c; data_digest := v; tls := tls c;
     concat := concat c |}.

Definition set_tls (v : bool) (c : nvme_fabrics_config) :=
  {| nr_io_queues := nr_io_queues c; nr_write_queues := nr_write_queues c;
     nr_poll_queues := nr_poll_queues c; queue_size := queue_size c;
     keep_alive_tmo := keep_alive_tmo c; reconnect_delay := reconnect_delay c;
     ctrl_loss_tmo := ctrl_loss_tmo c; fast_io_fail_tmo := fast_io_fail_tmo c;
     tos := tos c; keyring := keyring c; tls_key := tls_key c;
     duplicate_connect := duplicate_connect c; disable_sqflow := disable_sqflow c;
     hdr_digest := hdr_digest c; data_digest := data_digest c; tls := v;
     concat := concat c |}.

Definition set_concat (v : bool) (c : nvme_fabrics_config) :=
  {| nr_io_queues := nr_io_queues c; nr_write_queues := nr_write_queues c;
     nr_poll_queues := nr_poll_queues c; queue_size := queue_size c;
     keep_alive_tmo := keep_alive_tmo c; reconnect_delay := reconnect_delay c;
     ctrl_loss_tmo := ctrl_loss_tmo c; fast_io_fail_tmo := fast_io_fail_tmo c;
     tos := tos c; keyring := keyring c; tls_key := tls_key c;
     duplicate_connect := duplicate_connect c; disable_sqflow := disable_sqflow c;
     hdr_digest := hdr_digest c; data_digest := data_digest c; tls := tls c;
     concat := v |}.

(** ** Constants of fabrics.h and types.h

    [json.c] names them, their values are defined elsewhere. *)
Class Fabrics : Type := {
  NVMF_DEF_CTRL_LOSS_TMO : Z;
  NVME_DISC_SUBSYS_NAME : string
}.

(** ** The secret store (linux.c), at its interface

    [keystore] is the state of the kernel keyrings.  [None] for a
    [const char *] argument is NULL. *)
Class SecretStore : Type := {
  keystore : Type;
  nvme_lookup_keyring : keystore -> option string -> Z;
  nvme_set_keyring : keystore -> Z -> keystore;
  (** decodes the interchange format: key bytes, key length, HMAC id *)
  nvme_import_tls_key : string -> option (list Byte.byte * Z * Z);
  nvme_insert_tls_key_versioned :
    keystore -> option string -> string -> string -> string ->
    Z -> Z -> list Byte.byte -> Z -> keystore * Z;
  nvme_read_key : keystore -> Z -> Z -> option (list Byte.byte * Z);
  nvme_export_tls_key : list Byte.byte -> Z -> option string;
  nvme_describe_key_serial : keystore -> Z -> option string;
  (** Modelled from the spec: the "insert" primitive of the store, through
      which a host's DH-CHAP key goes in as it is (spec 4.5); [json.c]
      reaches it through [nvme_host_set_dhchap_key] only. *)
  nvme_insert_key : keystore -> option string -> keystore
}.

(** ** Controllers

    Modelled from the spec: [struct nvme_ctrl] is declared in private.h,
    which is not part of the sources at hand.  The fields are the ones
    [json.c] reaches through the [nvme_ctrl_get_*] / [nvme_ctrl_set_*]
    accessors and through [nvme_ctrl_get_config]; the spec's data model
    lists the same attributes for an Endpoint. *)
Record nvme_ctrl : Type := {
  c_name : option string;
  transport : string;
  traddr : option string;
  host_traddr : option string;
  host_iface : option string;
  trsvcid : option string;
  dhchap_key : option string;
  dhchap_ctrl_key : option string;
  cfg : nvme_fabrics_config;
  discovery_ctrl : bool;
  persistent : bool
}.

Definition with_cfg (f : nvme_fabrics_config -> nvme_fabrics_config)
    (c : nvme_ctrl) : nvme_ctrl :=
  {| c_name := c_name c; transport := transport c; traddr := traddr c;
     host_traddr := host_traddr c; host_iface := host_iface c;
     trsvcid := trsvcid c; dhchap_key := dhchap_key c;
     dhchap_ctrl_key := dhchap_ctrl_key c; cfg := f (cfg c);
     discovery_ctrl := discovery_ctrl c; persistent := persistent c |}.

Definition nvme_ctrl_is_persistent (c : nvme_ctrl) : bool := persistent c.
Definition nvme_ctrl_is_discovery_ctrl (c : nvme_ctrl) : bool := discovery_ctrl c.

Definition nvme_ctrl_set_persistent (v : bool) (c : nvme_ctrl) : nvme_ctrl :=
  {| c_name := c_name c; transport := transport c; traddr := traddr c;
     host_traddr := host_traddr c; host_iface := host_iface c;
     trsvcid := trsvcid c; dhchap_key := dhchap_key c;
     dhchap_ctrl_key := dhchap_ctrl_key c; cfg := cfg c;
     discovery_ctrl := discovery_ctrl c; persistent := v |}.

Definition nvme_ctrl_set_discovery_ctrl (v : bool) (c : nvme_ctrl) : nvme_ctrl :=
  {| c_name := c_name c; transport := transport c; traddr := traddr c;
     host_traddr := host_traddr c; host_iface := host_iface c;
     trsvcid := trsvcid c; dhchap_key := dhchap_key c;
     dhchap_ctrl_key := dhchap_ctrl_key c; cfg := cfg c;
     discovery_ctrl := v; persistent := persistent c |}.

(** [nvme_ctrl_get_dhchap_host_key] / [nvme_ctrl_set_dhchap_host_key]: the
    host-side key, document field "dhchap_key". *)
Definition nvme_ctrl_get_dhchap_host_key (c : nvme_ctrl) := dhchap_key c.
Definition nvme_ctrl_set_dhchap_host_key (v : option string) (c : nvme_ctrl) :=
  {| c_name := c_name c; transport := transport c; traddr := traddr c;
     host_traddr := host_traddr c; host_iface := host_iface c;
     trsvcid := trsvcid c; dhchap_key := v;
     dhchap_ctrl_key := dhchap_ctrl_key c; cfg := cfg c;
     discovery_ctrl := discovery_ctrl c; persistent := persistent c |}.

(** [nvme_ctrl_get_dhchap_key] / [nvme_ctrl_set_dhchap_key]: the
    controller-side key, document field "dhchap_ctrl_key". *)
Definition nvme_ctrl_get_dhchap_key (c : nvme_ctrl) := dhchap_ctrl_key c.
Definition nvme_ctrl_set_dhchap_key (v : option string) (c : nvme_ctrl) :=
  {| c_name := c_name c; transport := transport c; traddr := traddr c;
     host_traddr := host_traddr c; host_iface := host_iface c;
     trsvcid := trsvcid c; dhchap_key := dhchap_key c;
     dhchap_ctrl_key := v; cfg := cfg c;
     discovery_ctrl := discovery_ctrl c; persistent := persistent c |}.

(** ** Import of the controller attributes *)

Section ImportAttributes.
Context {JC : JsonC} {FB : Fabrics} {SS : SecretStore}.

(** [JSON_UPDATE_INT_OPTION(c, k, a, o)]:
    [if (!strcmp(# a, k) && !c->a) c->a = json_object_get_int(o);] *)
Definition JSON_UPDATE_INT_OPTION (a : string)
    (get : nvme_fabrics_config -> Z)
    (set : Z -> nvme_fabrics_config -> nvme_fabrics_config)
    (k : string) (o : json_object) (c : nvme_fabrics_config)
  : nvme_fabrics_config :=
  if (strcmp a k =? 0) && (get c =? 0)
  then set (json_object_get_int o) c else c.

(** [JSON_UPDATE_BOOL_OPTION(c, k, a, o)]:
    [if (!strcmp(# a, k) && !c->a) c->a = json_object_get_boolean(o);] *)
Definition JSON_UPDATE_BOOL_OPTION (a : string)
    (get : nvme_fabrics_config -> bool)
    (set : bool -> nvme_fabrics_config -> nvme_fabrics_config)
    (k : string) (o : json_object) (c : nvme_fabrics_config)
  : nvme_fabrics_config :=
  if (strcmp a k =? 0) && negb (get c)
  then set (json_object_get_boolean o) c else c.

(** [json_import_nvme_tls_key].  [hostnqn] is
    [nvme_host_get_hostnqn(c->s->h)] and [subsysnqn] is
    [nvme_ctrl_get_subsysnqn(c)]: the caller reads them from the nodes above
    [c].  The log messages are not modelled. *)
Definition json_import_nvme_tls_key (hostnqn subsysnqn : option string)
    (c : nvme_ctrl) (keyring_str : option string) (encoded_key : string)
    (ks : keystore) : nvme_ctrl * keystore :=
  match hostnqn, subsysnqn with
  | Some hostnqn, Some subsysnqn =>
      match nvme_import_tls_key encoded_key with
      | None => (c, ks)
      | Some (key_data, key_len, hmac) =>
          let '(ks, key_id) :=
            nvme_insert_tls_key_versioned ks keyring_str "psk"
              hostnqn subsysnqn 0 hmac key_data key_len in
          if key_id <=? 0 then (c, ks)
          else (with_cfg (fun cfg => set_tls true (set_tls_key key_id cfg)) c, ks)
      end
  | _, _ => (c, ks)
  end.

(** The variables [json_update_attributes] carries through its loop: the
    controller behind [c] (and [cfg], which points into it), the keyrings,
    and the two locals [keyring_str] and [encoded_key]. *)
Record scan : Type := {
  sc_ctrl : nvme_ctrl;
  sc_keys : keystore;
  keyring_str : option string;
  encoded_key : option string
}.

Definition on_cfg (f : nvme_fabrics_config -> nvme_fabrics_config)
    (st : scan) : scan :=
  {| sc_ctrl := with_cfg f (sc_ctrl st); sc_keys := sc_keys st;
     keyring_str := keyring_str st; encoded_key := encoded_key st |}.

Definition on_ctrl (f : nvme_ctrl -> nvme_ctrl) (st : scan) : scan :=
  {| sc_ctrl := f (sc_ctrl st); sc_keys := sc_keys st;
     keyring_str := keyring_str st; encoded_key := encoded_key st |}.

Definition sc_cfg (st : scan) : nvme_fabrics_config := cfg (sc_ctrl st).

(** The [if (!strcmp("keyring", key_str) && cfg->keyring == 0)] block. *)
Definition update_keyring (key_str : string) (val_obj : json_object)
    (st : scan) : scan :=
  if (strcmp "keyring" key_str =? 0) && (keyring (sc_cfg st) =? 0) then
    let keyring_str := json_object_get_string val_obj in
    let keyring := nvme_lookup_keyring (sc_keys st) keyring_str in
    if negb (keyring =? 0) then
      {| sc_ctrl := with_cfg (set_keyring keyring) (sc_ctrl st);
         sc_keys := nvme_set_keyring (sc_keys st) keyring;
         keyring_str := keyring_str; encoded_key := encoded_key st |}
    else
      {| sc_ctrl := sc_ctrl st; sc_keys := sc_keys st;
         keyring_str := keyring_str; encoded_key := encoded_key st |}
  else st.

(** The [if (!strcmp("tls_key", key_str) && cfg->tls_key == 0)] line. *)
Definition update_tls_key (key_str : string) (val_obj : json_object)
    (st : scan) : scan :=
  if (strcmp "tls_key" key_str =? 0) && (tls_key (sc_cfg st) =? 0) then
    {| sc_ctrl := sc_ctrl st; sc_keys := sc_keys st;
       keyring_str := keyring_str st;
       encoded_key := json_object_get_string val_obj |}
  else st.

(** The [if (!strcmp("ctrl_loss_tmo", key_str) && cfg->ctrl_loss_tmo !=
    NVMF_DEF_CTRL_LOSS_TMO)] statement. *)
Definition update_ctrl_loss_tmo (key_str : string) (val_obj : json_object)
    (st : scan) : scan :=
  if (strcmp "ctrl_loss_tmo" key_str =? 0)
     && negb (ctrl_loss_tmo (sc_cfg st) =? NVMF_DEF_CTRL_LOSS_TMO)
  then on_cfg (set_ctrl_loss_tmo (json_object_get_int val_obj)) st
  else st.

(** The [if (!strcmp("tos", key_str) && cfg->tos != -1)] statement. *)
Definition update_tos (key_str : string) (val_obj : json_object)
    (st : scan) : scan :=
  if (strcmp "tos" key_str =? 0) && negb (tos (sc_cfg st) =? -1)
  then on_cfg (set_tos (json_object_get_int val_obj)) st
  else st.

(** The [if (!strcmp("persistent", key_str) && !nvme_ctrl_is_persistent(c))]
    statement. *)
Definition update_persistent (key_str : string) (val_obj : json_object)
    (st : scan) : scan :=
  if (strcmp "persistent" key_str =? 0)
     && negb (nvme_ctrl_is_persistent (sc_ctrl st))
  then on_ctrl (nvme_ctrl_set_persistent true) st
  else st.

(** The [if (!strcmp("discovery", key_str) &&
    !nvme_ctrl_is_discovery_ctrl(c))] statement. *)
Definition update_discovery (key_str : string) (val_obj : json_object)
    (st : scan) : scan :=
  if (strcmp "discovery" key_str =? 0)
     && negb (nvme_ctrl_is_discovery_ctrl (sc_ctrl st))
  then on_ctrl (nvme_ctrl_set_discovery_ctrl true) st
  else st.

(** One turn of the [json_object_object_foreach] loop, statement by
    statement. *)
Definition update_attribute (key_str : string) (val_obj : json_object)
    (st : scan) : scan :=
  let st := on_cfg (JSON_UPDATE_INT_OPTION "nr_io_queues"
                      nr_io_queues set_nr_io_queues key_str val_obj) st in
  let st := on_cfg (JSON_UPDATE_INT_OPTION "nr_write_queues"
                      nr_write_queues set_nr_write_queues key_str val_obj) st in
  let st := on_cfg (JSON_UPDATE_INT_OPTION "nr_poll_queues"
                      nr_poll_queues set_nr_poll_queues key_str val_obj) st in
  let st := on_cfg (JSON_UPDATE_INT_OPTION "queue_size"
                      queue_size set_queue_size key_str val_obj) st in
  let st := on_cfg (JSON_UPDATE_INT_OPTION "keep_alive_tmo"
                      keep_alive_tmo set_keep_alive_tmo key_str val_obj) st in
  let st := on_cfg (JSON_UPDATE_INT_OPTION "reconnect_delay"
                      reconnect_delay set_reconnect_delay key_str val_obj) st in
  let st := update_ctrl_loss_tmo key_str val_obj st in
  let st := on_cfg (JSON_UPDATE_INT_OPTION "fast_io_fail_tmo"
                      fast_io_fail_tmo set_fast_io_fail_tmo key_str val_obj) st in
  let st := update_tos key_str val_obj st in
  let st := on_cfg (JSON_UPDATE_BOOL_OPTION "duplicate_connect"
                      duplicate_connect set_duplicate_connect key_str val_obj) st in
  let st := on_cfg (JSON_UPDATE_BOOL_OPTION "disable_sqflow"
                      disable_sqflow set_disable_sqflow key_str val_obj) st in
  let st := on_cfg (JSON_UPDATE_BOOL_OPTION "hdr_digest"
                      hdr_digest set_hdr_digest key_str val_obj) st in
  let st := on_cfg (JSON_UPDATE_BOOL_OPTION "data_digest"
                      data_digest set_data_digest key_str val_obj) st in
  let st := on_cfg (JSON_UPDATE_BOOL_OPTION "tls"
                      tls set_tls key_str val_obj) st in
  let st := on_cfg (JSON_UPDATE_BOOL_OPTION "concat"
                      concat set_concat key_str val_obj) st in
  let st := update_persistent key_str val_obj st in
  let st := update_discovery key_str val_obj st in
  let st := update_keyring key_str val_obj st in
  update_tls_key key_str val_obj st.

(** The loop: the entries in document order. *)
Definition scan_attributes (fields : list (string * json_object)) (st : scan)
  : scan :=
  fold_left (fun st kv => update_attribute (fst kv) (snd kv) st) fields st.

(** [json_update_attributes]: the scan, then the deferred key import. *)
Definition json_update_attributes (hostnqn subsysnqn : option string)
    (c : nvme_ctrl) (ctrl_obj : json_object) (ks : keystore)
  : nvme_ctrl * keystore :=
  let st := scan_attributes (json_object_get_object ctrl_obj)
              {| sc_ctrl := c; sc_keys := ks;
                 keyring_str := None; encoded_key := None |} in
  match encoded_key st with
  | Some encoded_key =>
      json_import_nvme_tls_key hostnqn subsysnqn (sc_ctrl st)
        (keyring_str st) encoded_key (sc_keys st)
  | None => (sc_ctrl st, sc_keys st)
  end.

End ImportAttributes.

(** ** Runs that leave defined behaviour

    [json.c] passes some pointers on without testing them.  A callee that
    dereferences NULL, and json-c's [assert] on the type of an array, end
    the run: [Fault]. *)
Inductive outcome (A : Type) : Type :=
| Ret (a : A)
| Fault.
Arguments Ret {A} a.
Arguments Fault {A}.

#[global] Instance outcome_ret : MRet outcome := @Ret.
#[global] Instance outcome_bind : MBind outcome := fun A B f m =>
  match m with
  | Ret a => f a
  | Fault => Fault
  end.

(** A loop over a list, each turn in [outcome]. *)
Fixpoint for_each {A S : Type} (body : A -> S -> outcome S) (l : list A) (s : S)
  : outcome S :=
  match l with
  | [] => Ret s
  | x :: rest => s' ← body x s; for_each body rest s'
  end.

(** [json_object_array_length] asserts that its argument is an array. *)
Definition json_object_array_elems (jso : json_object)
  : outcome (list json_object) :=
  match jso with
  | json_array elems => Ret elems
  | _ => Fault
  end.

(** [for (i = 0; i < json_object_array_length(a); i++) {
       o = json_object_array_get_idx(a, i); if (o) body(o); }] *)
Definition array_for_each {S : Type} (body : json_object -> S -> outcome S)
    (a : json_object) (s : S) : outcome S :=
  elems ← json_object_array_elems a;
  for_each (fun o s => if is_null o then Ret s else body o s) elems s.

(** ** The topology

    Modelled from the spec: [struct nvme_root], [struct nvme_host] and
    [struct nvme_subsystem] are declared in private.h.  The spec's data model
    gives a Host its NQN, host id, DH-CHAP key, symbolic name, the tri-state
    persistent-discovery flag (a value and its validity bit) and an ordered
    set of Subsystems; a Subsystem its NQN, application tag and an ordered
    set of Endpoints.  The NQNs are [char *] in C, so they can be NULL. *)
Record nvme_subsystem : Type := {
  subsysnqn : option string;
  application : option string;
  ctrls : list nvme_ctrl
}.

Record nvme_host : Type := {
  hostnqn : option string;
  hostid : option string;
  host_dhchap_key : option string;
  hostsymname : option string;
  pdc_enabled : bool;
  pdc_enabled_valid : bool;
  subsystems : list nvme_subsystem
}.

Record nvme_root : Type := {
  hosts : list nvme_host
}.

(** Node pointers: a host is its position under the root, a subsystem a
    host and a position under it, a controller a subsystem and a position
    under it.  [None] is NULL. *)
Definition nvme_host_t : Type := nat.
Definition nvme_subsystem_t : Type := (nat * nat)%type.
Definition nvme_ctrl_t : Type := (nat * nat * nat)%type.

Definition host_at (r : nvme_root) (h : nvme_host_t) : option nvme_host :=
  hosts r !! h.

Definition subsys_at (r : nvme_root) (s : nvme_subsystem_t)
  : option nvme_subsystem :=
  hst ← host_at r (fst s); subsystems hst !! snd s.

Definition ctrl_at (r : nvme_root) (c : nvme_ctrl_t) : option nvme_ctrl :=
  ss ← subsys_at r (fst c); ctrls ss !! snd c.

Definition with_subsystems (f : list nvme_subsystem -> list nvme_subsystem)
    (hst : nvme_host) : nvme_host :=
  {| hostnqn := hostnqn hst; hostid := hostid hst;
     host_dhchap_key := host_dhchap_key hst; hostsymname := hostsymname hst;
     pdc_enabled := pdc_enabled hst; pdc_enabled_valid := pdc_enabled_valid hst;
     subsystems := f (subsystems hst) |}.

Definition with_ctrls (f : list nvme_ctrl -> list nvme_ctrl)
    (ss : nvme_subsystem) : nvme_subsystem :=
  {| subsysnqn := subsysnqn ss; application := application ss;
     ctrls := f (ctrls ss) |}.

Definition update_host (f : nvme_host -> nvme_host) (h : nvme_host_t)
    (r : nvme_root) : nvme_root :=
  {| hosts := alter f h (hosts r) |}.

Definition update_subsys (f : nvme_subsystem -> nvme_subsystem)
    (s : nvme_subsystem_t) (r : nvme_root) : nvme_root :=
  update_host (with_subsystems (alter f (snd s))) (fst s) r.

Definition update_ctrl (f : nvme_ctrl -> nvme_ctrl) (c : nvme_ctrl_t)
    (r : nvme_root) : nvme_root :=
  update_subsys (with_ctrls (alter f (snd c))) (fst c) r.

(** Modelled from the spec: the host and subsystem setters of tree.c.  Each
    stores its argument in the node it is given, so it needs a node: on
    NULL, or on a pointer to no node, the run ends in [Fault]. *)
Definition host_store (f : nvme_host -> nvme_host) (h : option nvme_host_t)
    (r : nvme_root) : outcome nvme_root :=
  match h with
  | None => Fault
  | Some h =>
      match host_at r h with
      | None => Fault
      | Some _ => Ret (update_host f h r)
      end
  end.

(** Modelled from the spec: [nvme_host_set_dhchap_key] of tree.c.  The
    data model gives a Host its DH-CHAP key as an attribute, and
    [json_update_config] reads it back from the node with
    [nvme_host_get_dhchap_key]; spec 4.5 has the key of a host record go
    "as-is via the store's insert primitive".  So the setter stores its
    argument in the node and hands it to the store: it works on the
    topology and on the keyrings. *)
Definition nvme_host_set_dhchap_key {SS : SecretStore}
    (h : option nvme_host_t) (key : option string)
    (r : nvme_root) (ks : keystore) : outcome (nvme_root * keystore) :=
  r ← host_store (fun hst =>
         {| hostnqn := hostnqn hst; hostid := hostid hst;
            host_dhchap_key := key; hostsymname := hostsymname hst;
            pdc_enabled := pdc_enabled hst;
            pdc_enabled_valid := pdc_enabled_valid hst;
            subsystems := subsystems hst |}) h r;
  Ret (r, nvme_insert_key ks key).

Definition nvme_host_set_hostsymname (h : option nvme_host_t)
    (name : option string) : nvme_root -> outcome nvme_root :=
  host_store (fun hst =>
    {| hostnqn := hostnqn hst; hostid := hostid hst;
       host_dhchap_key := host_dhchap_key hst; hostsymname := name;
       pdc_enabled := pdc_enabled hst;
       pdc_enabled_valid := pdc_enabled_valid hst;
       subsystems := subsystems hst |}) h.

(** Sets the flag and marks it valid. *)
Definition nvme_host_set_pdc_enabled (h : option nvme_host_t)
    (enabled : bool) : nvme_root -> outcome nvme_root :=
  host_store (fun hst =>
    {| hostnqn := hostnqn hst; hostid := hostid hst;
       host_dhchap_key := host_dhchap_key hst; hostsymname := hostsymname hst;
       pdc_enabled := enabled; pdc_enabled_valid := true;
       subsystems := subsystems hst |}) h.

Definition nvme_subsystem_set_application (s : nvme_subsystem_t)
    (a : option string) (r : nvme_root) : outcome nvme_root :=
  match subsys_at r s with
  | None => Fault
  | Some _ =>
      Ret (update_subsys (fun ss =>
             {| subsysnqn := subsysnqn ss; application := a;
                ctrls := ctrls ss |}) s r)
  end.

(** The find-or-create resolvers of tree.c, at their interface: the
    topology they leave and the node, or NULL.  [json_parse_host] passes its
    host pointer to [nvme_lookup_subsystem] whatever it is, so that one takes
    a nullable pointer and may end the run. *)
Class Resolver : Type := {
  nvme_lookup_host :
    nvme_root -> option string -> option string ->
    nvme_root * option nvme_host_t;
  nvme_lookup_subsystem :
    nvme_root -> option nvme_host_t -> option string -> option string ->
    outcome (nvme_root * option nvme_subsystem_t);
  nvme_lookup_ctrl :
    nvme_root -> nvme_subsystem_t -> option string -> option string ->
    option string -> option string -> option string ->
    nvme_root * option nvme_ctrl_t
}.

(** ** Files *)

(** What the successive [read] calls on a descriptor return: the chunks,
    then 0 (end of file) or -1. *)
Record file : Type := {
  f_reads : list string;
  f_read_error : bool
}.

(** [open(config_file, O_RDONLY)]: the errno of the failure, or the file;
    whether [realloc] serves a request of a given size and
    [json_tokener_new_ex] returns a tokener. *)
Class Posix : Type := {
  sys_open : string -> Z + file;
  realloc_ok : nat -> bool;
  json_tokener_new_ex_ok : bool;
  (** the writers of json-c: negative on failure *)
  json_object_to_fd : Z -> json_object -> Z;
  json_object_to_file_ext : string -> json_object -> Z
}.

Definition EPROTO : Z := 71.
Definition EIO : Z := 5.

(** ** The importer *)

Section Importer.
Context {JC : JsonC} {FB : Fabrics} {SS : SecretStore} {RS : Resolver}
        {PX : Posix}.

(** The state an import works on: the topology, the keyrings, [errno]. *)
Record world : Type := {
  w_root : nvme_root;
  w_keys : keystore;
  w_errno : Z
}.

Definition set_root (r : nvme_root) (w : world) : world :=
  {| w_root := r; w_keys := w_keys w; w_errno := w_errno w |}.

Definition set_errno (e : Z) (w : world) : world :=
  {| w_root := w_root w; w_keys := w_keys w; w_errno := e |}.

Definition on_root (f : nvme_root -> outcome nvme_root) (w : world)
  : outcome world :=
  r ← f (w_root w); Ret (set_root r w).

Definition on_root_and_keys
    (f : nvme_root -> keystore -> outcome (nvme_root * keystore))
    (w : world) : outcome world :=
  '(r, ks) ← f (w_root w) (w_keys w);
  Ret {| w_root := r; w_keys := ks; w_errno := w_errno w |}.

(** [json_object_object_get] followed by [json_object_get_string] when the
    field is there. *)
Definition get_string_field (obj : json_object) (key : string) : option string :=
  attr_obj ← json_object_object_get obj key; json_object_get_string attr_obj.

Definition json_parse_port (s : nvme_subsystem_t) (port_obj : json_object)
    (w : world) : outcome world :=
  match json_object_object_get port_obj "transport" with
  | None => Ret w
  | Some attr_obj =>
      let transport := json_object_get_string attr_obj in
      let traddr := get_string_field port_obj "traddr" in
      let host_traddr := get_string_field port_obj "host_traddr" in
      let host_iface := get_string_field port_obj "host_iface" in
      let trsvcid := get_string_field port_obj "trsvcid" in
      let '(r, c) := nvme_lookup_ctrl (w_root w) s transport traddr
                       host_traddr host_iface trsvcid in
      match c with
      | None => Ret (set_root r w)
      | Some c =>
          match ctrl_at r c with
          | None => Fault
          | Some node =>
              let hostnqn := hst ← host_at r (fst (fst c)); hostnqn hst in
              let subsysnqn := ss ← subsys_at r (fst c); subsysnqn ss in
              let '(node, ks) :=
                json_update_attributes hostnqn subsysnqn node port_obj
                  (w_keys w) in
              let node :=
                match json_object_object_get port_obj "dhchap_key" with
                | Some attr_obj =>
                    nvme_ctrl_set_dhchap_host_key
                      (json_object_get_string attr_obj) node
                | None => node
                end in
              let node :=
                match json_object_object_get port_obj "dhchap_ctrl_key" with
                | Some attr_obj =>
                    nvme_ctrl_set_dhchap_key
                      (json_object_get_string attr_obj) node
                | None => node
                end in
              Ret {| w_root := update_ctrl (fun _ => node) c r;
                     w_keys := ks; w_errno := w_errno w |}
          end
      end
  end.

Definition json_parse_subsys (h : option nvme_host_t) (subsys_obj : json_object)
    (w : world) : outcome world :=
  match json_object_object_get subsys_obj "nqn" with
  | None => Ret w
  | Some nqn_obj =>
      let nqn := json_object_get_string nqn_obj in
      '(r, s) ← nvme_lookup_subsystem (w_root w) h None nqn;
      let w := set_root r w in
      match s with
      | None => Ret w
      | Some s =>
          w ← match json_object_object_get subsys_obj "application" with
              | Some app_obj =>
                  on_root (nvme_subsystem_set_application s
                             (json_object_get_string app_obj)) w
              | None => Ret w
              end;
          match json_object_object_get subsys_obj "ports" with
          | None => Ret w
          | Some port_array => array_for_each (json_parse_port s) port_array w
          end
      end
  end.

Definition json_parse_host (host_obj : json_object) (w : world)
  : outcome world :=
  match json_object_object_get host_obj "hostnqn" with
  | None => Ret w
  | Some attr_obj =>
      let hostnqn := json_object_get_string attr_obj in
      let hostid := get_string_field host_obj "hostid" in
      let '(r, h) := nvme_lookup_host (w_root w) hostnqn hostid in
      let w := set_root r w in
      w ← match json_object_object_get host_obj "dhchap_key" with
          | Some attr_obj =>
              on_root_and_keys (nvme_host_set_dhchap_key h
                         (json_object_get_string attr_obj)) w
          | None => Ret w
          end;
      w ← match json_object_object_get host_obj "hostsymname" with
          | Some attr_obj =>
              on_root (nvme_host_set_hostsymname h
                         (json_object_get_string attr_obj)) w
          | None => Ret w
          end;
      w ← match json_object_object_get host_obj "persistent_discovery_ctrl" with
          | Some attr_obj =>
              on_root (nvme_host_set_pdc_enabled h
                         (json_object_get_boolean attr_obj)) w
          | None => Ret w
          end;
      match json_object_object_get host_obj "subsystems" with
      | None => Ret w
      | Some subsys_array => array_for_each (json_parse_subsys h) subsys_array w
      end
  end.

(** The [read] loop of [parse_json]: [None] when [realloc] fails, else the
    last return value of [read] and the bytes gathered. *)
Fixpoint read_all (reads : list string) (read_error : bool) (str : string)
  : option (Z * string) :=
  match reads with
  | [] => Some (if read_error then -1 else 0, str)
  | buf :: rest =>
      if (0 <? String.length buf)%nat then
        if realloc_ok (String.length str + String.length buf)
        then read_all rest read_error (str ++ buf)%string
        else None
      else Some (0, str)
  end.

Definition parse_json (fd : file) : option json_object :=
  match read_all (f_reads fd) (f_read_error fd) "" with
  | None => None
  | Some (ret, str) =>
      if (ret <? 0) || (String.length str =? 0)%nat then None
      else if negb json_tokener_new_ex_ok then None
      else json_tokener_parse_ex str
  end.

Definition json_object_is_array (jso : json_object) : bool :=
  match jso with
  | json_array _ => true
  | _ => false
  end.

(** [json_read_config]: the value returned and the state left. *)
Definition json_read_config (w : world) (config_file : string)
  : outcome (Z * world) :=
  match sys_open config_file with
  | inl e => Ret (-1, set_errno e w)
  | inr fd =>
      match parse_json fd with
      | None => Ret (-1, set_errno EPROTO w)
      | Some json_root =>
          if negb (json_object_is_array json_root)
          then Ret (-1, set_errno EPROTO w)
          else
            w ← array_for_each json_parse_host json_root w;
            Ret (0, w)
      end
  end.

End Importer.

(** ** The exporters *)

Section Exporter.
Context {FB : Fabrics} {SS : SecretStore} {PX : Posix}.

Local Abbreviation json_fields := (list (string * json_object)).

(** [value = getter(c); if (value) json_object_object_add(obj, key,
    json_object_new_string(value));] and the like. *)
Definition add_string_if_set (obj : json_fields) (key : string)
    (value : option string) : json_fields :=
  match value with
  | Some value => json_object_object_add obj key (json_string value)
  | None => obj
  end.

(** [JSON_INT_OPTION(c, p, o, d)]: [v] is [(c)->o]. *)
Definition JSON_INT_OPTION (v : Z) (p : json_fields) (o : string) (d : Z)
  : json_fields :=
  if negb (v =? d) then json_object_object_add p o (json_int v) else p.

(** [JSON_BOOL_OPTION(c, p, o)]: [v] is [(c)->o]. *)
Definition JSON_BOOL_OPTION (v : bool) (p : json_fields) (o : string)
  : json_fields :=
  if v then json_object_object_add p o (json_boolean v) else p.

Definition json_export_nvme_tls_key (ks : keystore) (keyring_id tls_key : Z)
    (obj : json_fields) : json_fields :=
  match nvme_read_key ks keyring_id tls_key with
  | Some (key_data, key_len) =>
      match nvme_export_tls_key key_data key_len with
      | Some tls_str => json_object_object_add obj "tls_key" (json_string tls_str)
      | None => obj
      end
  | None => obj
  end.

(** The record [json_update_port] builds for a controller that is not on
    "pcie". *)
Definition port_record (ks : keystore) (c : nvme_ctrl) : json_fields :=
  let cfg := cfg c in
  let transport := transport c in
  let port_obj := [] in
  let port_obj := json_object_object_add port_obj "transport"
                    (json_string transport) in
  let port_obj := add_string_if_set port_obj "traddr" (traddr c) in
  let port_obj := add_string_if_set port_obj "host_traddr" (host_traddr c) in
  let port_obj := add_string_if_set port_obj "host_iface" (host_iface c) in
  let port_obj := add_string_if_set port_obj "trsvcid" (trsvcid c) in
  let port_obj := add_string_if_set port_obj "dhchap_key"
                    (nvme_ctrl_get_dhchap_host_key c) in
  let port_obj := add_string_if_set port_obj "dhchap_ctrl_key"
                    (nvme_ctrl_get_dhchap_key c) in
  let port_obj := JSON_INT_OPTION (nr_io_queues cfg) port_obj "nr_io_queues" 0 in
  let port_obj := JSON_INT_OPTION (nr_write_queues cfg) port_obj "nr_write_queues" 0 in
  let port_obj := JSON_INT_OPTION (nr_poll_queues cfg) port_obj "nr_poll_queues" 0 in
  let port_obj := JSON_INT_OPTION (queue_size cfg) port_obj "queue_size" 0 in
  let port_obj := JSON_INT_OPTION (keep_alive_tmo cfg) port_obj "keep_alive_tmo" 0 in
  let port_obj := JSON_INT_OPTION (reconnect_delay cfg) port_obj "reconnect_delay" 0 in
  let port_obj :=
    if negb (strcmp transport "loop" =? 0) then
      let port_obj := JSON_INT_OPTION (ctrl_loss_tmo cfg) port_obj
                        "ctrl_loss_tmo" NVMF_DEF_CTRL_LOSS_TMO in
      JSON_INT_OPTION (fast_io_fail_tmo cfg) port_obj "fast_io_fail_tmo" 0
    else port_obj in
  let port_obj := JSON_INT_OPTION (tos cfg) port_obj "tos" (-1) in
  let port_obj := JSON_BOOL_OPTION (duplicate_connect cfg) port_obj "duplicate_connect" in
  let port_obj := JSON_BOOL_OPTION (disable_sqflow cfg) port_obj "disable_sqflow" in
  let port_obj := JSON_BOOL_OPTION (hdr_digest cfg) port_obj "hdr_digest" in
  let port_obj := JSON_BOOL_OPTION (data_digest cfg) port_obj "data_digest" in
  let port_obj := JSON_BOOL_OPTION (tls cfg) port_obj "tls" in
  let port_obj := JSON_BOOL_OPTION (concat cfg) port_obj "concat" in
  let port_obj :=
    if nvme_ctrl_is_persistent c
    then json_object_object_add port_obj "persistent" (json_boolean true)
    else port_obj in
  let port_obj :=
    if nvme_ctrl_is_discovery_ctrl c
    then json_object_object_add port_obj "discovery" (json_boolean true)
    else port_obj in
  let port_obj :=
    if negb (keyring cfg =? 0) then
      let desc := nvme_describe_key_serial ks (keyring cfg) in
      add_string_if_set port_obj "keyring" desc
    else port_obj in
  let port_obj :=
    if negb (tls_key cfg =? 0)
    then json_export_nvme_tls_key ks (keyring cfg) (tls_key cfg) port_obj
    else port_obj in
  port_obj.

(** [json_update_port]: the array it leaves. *)
Definition json_update_port (ks : keystore) (ctrl_array : list json_object)
    (c : nvme_ctrl) : list json_object :=
  if strcmp (transport c) "pcie" =? 0 then ctrl_array
  else ctrl_array ++ [json_obj (port_record ks c)].

(** The record [json_dump_ctrl] builds. *)
Definition ctrl_record (ks : keystore) (c : nvme_ctrl) : json_fields :=
  let cfg := cfg c in
  let ctrl_obj := [] in
  let ctrl_obj :=
    match c_name c with
    | Some name =>
        if negb (String.length name =? 0)%nat
        then json_object_object_add ctrl_obj "name" (json_string name)
        else ctrl_obj
    | None => ctrl_obj
    end in
  let transport := transport c in
  let ctrl_obj := json_object_object_add ctrl_obj "transport"
                    (json_string transport) in
  let ctrl_obj := add_string_if_set ctrl_obj "traddr" (traddr c) in
  let ctrl_obj := add_string_if_set ctrl_obj "host_traddr" (host_traddr c) in
  let ctrl_obj := add_string_if_set ctrl_obj "host_iface" (host_iface c) in
  let ctrl_obj := add_string_if_set ctrl_obj "trsvcid" (trsvcid c) in
  let ctrl_obj := add_string_if_set ctrl_obj "dhchap_key"
                    (nvme_ctrl_get_dhchap_host_key c) in
  let ctrl_obj := add_string_if_set ctrl_obj "dhchap_ctrl_key"
                    (nvme_ctrl_get_dhchap_key c) in
  let ctrl_obj := JSON_INT_OPTION (nr_io_queues cfg) ctrl_obj "nr_io_queues" 0 in
  let ctrl_obj := JSON_INT_OPTION (nr_write_queues cfg) ctrl_obj "nr_write_queues" 0 in
  let ctrl_obj := JSON_INT_OPTION (nr_poll_queues cfg) ctrl_obj "nr_poll_queues" 0 in
  let ctrl_obj := JSON_INT_OPTION (queue_size cfg) ctrl_obj "queue_size" 0 in
  let ctrl_obj := JSON_INT_OPTION (keep_alive_tmo cfg) ctrl_obj "keep_alive_tmo" 0 in
  let ctrl_obj := JSON_INT_OPTION (reconnect_delay cfg) ctrl_obj "reconnect_delay" 0 in
  let ctrl_obj :=
    if negb (strcmp transport "loop" =? 0) then
      let ctrl_obj := JSON_INT_OPTION (ctrl_loss_tmo cfg) ctrl_obj
                        "ctrl_loss_tmo" NVMF_DEF_CTRL_LOSS_TMO in
      JSON_INT_OPTION (fast_io_fail_tmo cfg) ctrl_obj "fast_io_fail_tmo" 0
    else ctrl_obj in
  let ctrl_obj := JSON_INT_OPTION (tos cfg) ctrl_obj "tos" (-1) in
  let ctrl_obj := JSON_BOOL_OPTION (duplicate_connect cfg) ctrl_obj "duplicate_connect" in
  let ctrl_obj := JSON_BOOL_OPTION (disable_sqflow cfg) ctrl_obj "disable_sqflow" in
  let ctrl_obj := JSON_BOOL_OPTION (hdr_digest cfg) ctrl_obj "hdr_digest" in
  let ctrl_obj := JSON_BOOL_OPTION (data_digest cfg) ctrl_obj "data_digest" in
  let ctrl_obj :=
    if strcmp transport "tcp" =? 0 then
      let ctrl_obj := JSON_BOOL_OPTION (tls cfg) ctrl_obj "tls" in
      if negb (tls_key cfg =? 0)
      then json_export_nvme_tls_key ks (keyring cfg) (tls_key cfg) ctrl_obj
      else ctrl_obj
    else ctrl_obj in
  let ctrl_obj := JSON_BOOL_OPTION (concat cfg) ctrl_obj "concat" in
  let ctrl_obj :=
    if nvme_ctrl_is_persistent c
    then json_object_object_add ctrl_obj "persistent" (json_boolean true)
    else ctrl_obj in
  let ctrl_obj :=
    if nvme_ctrl_is_discovery_ctrl c
    then json_object_object_add ctrl_obj "discovery" (json_boolean true)
    else ctrl_obj in
  ctrl_obj.

(** [json_dump_ctrl]: the array it leaves. *)
Definition json_dump_ctrl (ks : keystore) (ctrl_array : list json_object)
    (c : nvme_ctrl) : list json_object :=
  ctrl_array ++ [json_obj (ctrl_record ks c)].

(** [json_update_subsys]: the array it leaves.  [strcmp] and
    [json_object_new_string] read through the NQN. *)
Definition json_update_subsys (ks : keystore) (subsys_array : list json_object)
    (s : nvme_subsystem) : outcome (list json_object) :=
  match subsysnqn s with
  | None => Fault
  | Some subsysnqn =>
      if strcmp subsysnqn NVME_DISC_SUBSYS_NAME =? 0 then Ret subsys_array
      else
        let subsys_obj := [] in
        let subsys_obj := json_object_object_add subsys_obj "nqn"
                            (json_string subsysnqn) in
        let subsys_obj := add_string_if_set subsys_obj "application"
                            (application s) in
        let port_array := fold_left (json_update_port ks) (ctrls s) [] in
        if negb (length port_array =? 0)%nat then
          let subsys_obj := json_object_object_add subsys_obj "ports"
                              (json_array port_array) in
          Ret (subsys_array ++ [json_obj subsys_obj])
        else Ret subsys_array
  end.

(** One turn of the [nvme_for_each_host] loop of [json_update_config]. *)
Definition json_update_host (ks : keystore) (h : nvme_host)
    (json_root : list json_object) : outcome (list json_object) :=
  match hostnqn h with
  | None => Fault
  | Some hostnqn =>
      let host_obj := [] in
      let host_obj := json_object_object_add host_obj "hostnqn"
                        (json_string hostnqn) in
      let host_obj := add_string_if_set host_obj "hostid" (hostid h) in
      let host_obj := add_string_if_set host_obj "dhchap_key"
                        (host_dhchap_key h) in
      let host_obj := add_string_if_set host_obj "hostsymname"
                        (hostsymname h) in
      let host_obj :=
        if pdc_enabled_valid h
        then json_object_object_add host_obj "persistent_discovery_ctrl"
               (json_boolean (pdc_enabled h))
        else host_obj in
      subsys_array ← for_each (fun s arr => json_update_subsys ks arr s)
                        (subsystems h) [];
      if negb (length subsys_array =? 0)%nat then
        let host_obj := json_object_object_add host_obj "subsystems"
                          (json_array subsys_array) in
        Ret (json_root ++ [json_obj host_obj])
      else Ret json_root
  end.

(** The document [json_update_config] builds. *)
Definition json_update_config_root (ks : keystore) (r : nvme_root)
  : outcome (list json_object) :=
  for_each (json_update_host ks) (hosts r) [].

(** [json_update_config]: the value returned, [errno], and the document
    handed to the writer.  [None] for [config_file] is NULL: standard
    output. *)
Definition json_update_config (ks : keystore) (r : nvme_root) (errno : Z)
    (config_file : option string) : outcome (Z * Z * json_object) :=
  json_root ← json_update_config_root ks r;
  let json_root := json_array json_root in
  let ret :=
    match config_file with
    | None => json_object_to_fd 1 json_root
    | Some config_file => json_object_to_file_ext config_file json_root
    end in
  if ret <? 0 then Ret (-1, EIO, json_root) else Ret (ret, errno, json_root).

End Exporter.

(** ** Documents and resolvers the walk gets through

    The walk of the importer ends in [Fault] on a "subsystems" or "ports"
    field that is not an array, and on a host that [nvme_lookup_host] does
    not deliver.  [shaped_host] says of a host record that its arrays are
    arrays; [resolver_sound] says of the resolvers that they return nodes
    of the topology they leave, keep the nodes that were there, and always
    deliver a host. *)
Definition shaped_subsys (subsys_obj : json_object) : bool :=
  match json_object_object_get subsys_obj "ports" with
  | Some (json_array _) | None => true
  | Some _ => false
  end.

Definition shaped_host (host_obj : json_object) : bool :=
  match json_object_object_get host_obj "subsystems" with
  | Some (json_array subsys_array) => forallb shaped_subsys subsys_array
  | None => true
  | Some _ => false
  end.

Record resolver_sound {RS : Resolver} : Prop := {
  lookup_host_sound :
    forall r nqn id, exists r' h,
      nvme_lookup_host r (Some nqn) id = (r', Some h)
      /\ is_Some (host_at r' h);
  lookup_subsystem_sound :
    forall r h nqn, is_Some (host_at r h) ->
      exists r' s,
        nvme_lookup_subsystem r (Some h) None nqn = Ret (r', s)
        /\ (forall h', is_Some (host_at r h') -> is_Some (host_at r' h'))
        /\ (forall s0, s = Some s0 -> is_Some (subsys_at r' s0));
  lookup_ctrl_sound :
    forall r s tr ta hta hif ts r' c,
      nvme_lookup_ctrl r s tr ta hta hif ts = (r', c) ->
      (forall h, is_Some (host_at r h) -> is_Some (host_at r' h))
      /\ (forall s', is_Some (subsys_at r s') -> is_Some (subsys_at r' s'))
      /\ (forall c0, c = Some c0 -> is_Some (ctrl_at r' c0))
}.
Arguments resolver_sound RS : clear implicits.

(** ** What the config export persists, in the words of the spec

    "Per Host, per non-discovery Subsystem, per Endpoint whose transport is
    not the local (PCIe) transport.  A Subsystem with zero persisted
    endpoints is dropped entirely; a Host with zero persisted subsystems is
    dropped entirely."  The functions below say this with [filter] and
    [map]; [json_update_config_root] is compared with them further down. *)
Definition is_set {A : Type} (o : option A) : bool :=
  match o with
  | Some _ => true
  | None => false
  end.

Definition string_field (key : string) (value : option string)
  : list (string * json_object) :=
  match value with
  | Some value => [(key, json_string value)]
  | None => []
  end.

Section Persisted.
Context {FB : Fabrics} {SS : SecretStore}.

Definition ctrl_persisted (c : nvme_ctrl) : bool :=
  negb (String.eqb (transport c) "pcie").

Definition persisted_ports (ks : keystore) (s : nvme_subsystem)
  : list json_object :=
  map (fun c => json_obj (port_record ks c))
    (List.filter ctrl_persisted (ctrls s)).

Definition subsys_persisted (s : nvme_subsystem) : bool :=
  match subsysnqn s with
  | Some nqn =>
      negb (String.eqb nqn NVME_DISC_SUBSYS_NAME)
      && existsb ctrl_persisted (ctrls s)
  | None => false
  end.

Definition subsys_record (ks : keystore) (s : nvme_subsystem) : json_object :=
  json_obj (string_field "nqn" (subsysnqn s)
            ++ string_field "application" (application s)
            ++ [("ports", json_array (persisted_ports ks s))]).

Definition persisted_subsystems (ks : keystore) (h : nvme_host)
  : list json_object :=
  map (subsys_record ks) (List.filter subsys_persisted (subsystems h)).

Definition host_persisted (h : nvme_host) : bool :=
  existsb subsys_persisted (subsystems h).

Definition host_record (ks : keystore) (h : nvme_host) : json_object :=
  json_obj (string_field "hostnqn" (hostnqn h)
            ++ string_field "hostid" (hostid h)
            ++ string_field "dhchap_key" (host_dhchap_key h)
            ++ string_field "hostsymname" (hostsymname h)
            ++ (if pdc_enabled_valid h
                then [("persistent_discovery_ctrl",
                       json_boolean (pdc_enabled h))]
                else [])
            ++ [("subsystems", json_array (persisted_subsystems ks h))]).

Definition persisted_config (ks : keystore) (r : nvme_root)
  : list json_object :=
  map (host_record ks) (List.filter host_persisted (hosts r)).

End Persisted.

(** Every host and every subsystem has its NQN. *)
Definition all_named (r : nvme_root) : bool :=
  forallb (fun h =>
             is_set (hostnqn h)
             && forallb (fun s => is_set (subsysnqn s)) (subsystems h))
    (hosts r).

(** ** The attribute table

    The loop body of [json_update_attributes] tests the key against one
    name after the other.  Read as a table, it has one row per name:
    [apply_attribute] is what a turn of the loop does when the key is the
    name of that row ([update_attribute_dispatch] below). *)
Inductive attribute : Type :=
| Nr_io_queues | Nr_write_queues | Nr_poll_queues | Queue_size
| Keep_alive_tmo | Reconnect_delay | Ctrl_loss_tmo | Fast_io_fail_tmo | Tos
| Duplicate_connect | Disable_sqflow | Hdr_digest | Data_digest | Tls | Concat
| Persistent | Discovery | Keyring | Tls_key.

Definition attribute_name (a : attribute) : string :=
  match a with
  | Nr_io_queues => "nr_io_queues"
  | Nr_write_queues => "nr_write_queues"
  | Nr_poll_queues => "nr_poll_queues"
  | Queue_size => "queue_size"
  | Keep_alive_tmo => "keep_alive_tmo"
  | Reconnect_delay => "reconnect_delay"
  | Ctrl_loss_tmo => "ctrl_loss_tmo"
  | Fast_io_fail_tmo => "fast_io_fail_tmo"
  | Tos => "tos"
  | Duplicate_connect => "duplicate_connect"
  | Disable_sqflow => "disable_sqflow"
  | Hdr_digest => "hdr_digest"
  | Data_digest => "data_digest"
  | Tls => "tls"
  | Concat => "concat"
  | Persistent => "persistent"
  | Discovery => "discovery"
  | Keyring => "keyring"
  | Tls_key => "tls_key"
  end.

Definition all_attributes : list attribute :=
  [Nr_io_queues; Nr_write_queues; Nr_poll_queues; Queue_size;
   Keep_alive_tmo; Reconnect_delay; Ctrl_loss_tmo; Fast_io_fail_tmo; Tos;
   Duplicate_connect; Disable_sqflow; Hdr_digest; Data_digest; Tls; Concat;
   Persistent; Discovery; Keyring; Tls_key].

Definition attribute_of_key (key_str : string) : option attribute :=
  List.find (fun a => String.eqb (attribute_name a) key_str) all_attributes.

Section AttributeTable.
Context {JC : JsonC} {FB : Fabrics} {SS : SecretStore}.

Definition fill_int (get : nvme_fabrics_config -> Z)
    (set : Z -> nvme_fabrics_config -> nvme_fabrics_config)
    (val_obj : json_object) (st : scan) : scan :=
  if get (sc_cfg st) =? 0
  then on_cfg (set (json_object_get_int val_obj)) st else st.

Definition fill_bool (get : nvme_fabrics_config -> bool)
    (set : bool -> nvme_fabrics_config -> nvme_fabrics_config)
    (val_obj : json_object) (st : scan) : scan :=
  if negb (get (sc_cfg st))
  then on_cfg (set (json_object_get_boolean val_obj)) st else st.

Definition apply_attribute (a : attribute) (val_obj : json_object)
    (st : scan) : scan :=
  match a with
  | Nr_io_queues => fill_int nr_io_queues set_nr_io_queues val_obj st
  | Nr_write_queues => fill_int nr_write_queues set_nr_write_queues val_obj st
  | Nr_poll_queues => fill_int nr_poll_queues set_nr_poll_queues val_obj st
  | Queue_size => fill_int queue_size set_queue_size val_obj st
  | Keep_alive_tmo => fill_int keep_alive_tmo set_keep_alive_tmo val_obj st
  | Reconnect_delay => fill_int reconnect_delay set_reconnect_delay val_obj st
  | Ctrl_loss_tmo =>
      if negb (ctrl_loss_tmo (sc_cfg st) =? NVMF_DEF_CTRL_LOSS_TMO)
      then on_cfg (set_ctrl_loss_tmo (json_object_get_int val_obj)) st
      else st
  | Fast_io_fail_tmo => fill_int fast_io_fail_tmo set_fast_io_fail_tmo val_obj st
  | Tos =>
      if negb (tos (sc_cfg st) =? -1)
      then on_cfg (set_tos (json_object_get_int val_obj)) st
      else st
  | Duplicate_connect =>
      fill_bool duplicate_connect set_duplicate_connect val_obj st
  | Disable_sqflow => fill_bool disable_sqflow set_disable_sqflow val_obj st
  | Hdr_digest => fill_bool hdr_digest set_hdr_digest val_obj st
  | Data_digest => fill_bool data_digest set_data_digest val_obj st
  | Tls => fill_bool tls set_tls val_obj st
  | Concat => fill_bool concat set_concat val_obj st
  | Persistent =>
      if negb (nvme_ctrl_is_persistent (sc_ctrl st))
      then on_ctrl (nvme_ctrl_set_persistent true) st else st
  | Discovery =>
      if negb (nvme_ctrl_is_discovery_ctrl (sc_ctrl st))
      then on_ctrl (nvme_ctrl_set_discovery_ctrl true) st else st
  | Keyring => update_keyring "keyring" val_obj st
  | Tls_key => update_tls_key "tls_key" val_obj st
  end.

(** A statement of the loop body fires on its own key only. *)
Definition on_key (name key_str : string) (f : scan -> scan) (st : scan)
  : scan :=
  if String.eqb name key_str then f st else st.

End AttributeTable.

(** From [c] to [c'], each of the seven integers that was set kept its
    value. *)
Definition set_integers_kept (c c' : nvme_fabrics_config) : Prop :=
  (nr_io_queues c <> 0 -> nr_io_queues c' = nr_io_queues c) /\
  (nr_write_queues c <> 0 -> nr_write_queues c' = nr_write_queues c) /\
  (nr_poll_queues c <> 0 -> nr_poll_queues c' = nr_poll_queues c) /\
  (queue_size c <> 0 -> queue_size c' = queue_size c) /\
  (keep_alive_tmo c <> 0 -> keep_alive_tmo c' = keep_alive_tmo c) /\
  (reconnect_delay c <> 0 -> reconnect_delay c' = reconnect_delay c) /\
  (fast_io_fail_tmo c <> 0 -> fast_io_fail_tmo c' = fast_io_fail_tmo c).


(** ** A small system to run the code on

    Stand-ins for what [json.c] links against, small enough to evaluate:
    a keyring store that hands out serial numbers, resolvers that find a
    node by identity or append a fresh one, and a file system of three
    files. *)
Module Demo.

Definition digit_of (c : Ascii.ascii) : option Z :=
  let n := Z.of_nat (Ascii.nat_of_ascii c) in
  if (48 <=? n) && (n <=? 57) then Some (n - 48) else None.

Fixpoint parse_digits (s : string) (acc : Z) : option Z :=
  match s with
  | EmptyString => Some acc
  | String c rest =>
      match digit_of c with
      | Some d => parse_digits rest (10 * acc + d)
      | None => None
      end
  end.

Definition parse_int64 (s : string) : option Z :=
  match s with
  | EmptyString => None
  | String (Ascii.Ascii true false true true false true false false) rest =>
      match rest with
      | EmptyString => None
      | _ => option_map Z.opp (parse_digits rest 0)
      end
  | _ => parse_digits s 0
  end.

Definition to_json_string (jso : json_object) : string :=
  match jso with
  | json_null => "null"
  | json_boolean true => "true"
  | json_boolean false => "false"
  | json_int i => DecimalString.NilZero.string_of_int (Z.to_int i)
  | json_string s => s
  | json_array _ => "[ ]"
  | json_obj _ => "{ }"
  end.

Definition host1_nqn : string := "nqn.2014-08.org.nvmexpress:uuid:host1".
Definition subsys1_nqn : string := "nqn.2019-08.org.example:subsys1".
Definition subsys3_nqn : string := "nqn.2019-08.org.example:subsys3".

(** A port record with "tls_key" ahead of "keyring". *)
Definition port_doc : json_object :=
  json_obj [("transport", json_string "tcp");
            ("traddr", json_string "192.168.1.10");
            ("trsvcid", json_string "4420");
            ("queue_size", json_int 128);
            ("tls_key", json_string "NVMeTLSkey-1:01:c2VjcmV0");
            ("persistent", json_boolean false);
            ("keyring", json_string ".nvme")].

(** Three subsystem records, the second without "nqn". *)
Definition config_hosts : list json_object :=
    [json_obj
       [("hostnqn", json_string host1_nqn);
        ("hostsymname", json_string "alpha");
        ("subsystems",
         json_array
           [json_obj [("nqn", json_string subsys1_nqn);
                      ("ports", json_array [port_doc])];
            json_obj [("application", json_string "lost");
                      ("ports", json_array [port_doc])];
            json_obj [("nqn", json_string subsys3_nqn);
                      ("application", json_string "backup")]])]].

Definition config_doc : json_object := json_array config_hosts.

(** The tokener knows the texts of the three files. *)
Definition tokener_parse (s : string) : option json_object :=
  if String.eqb s "CONFIG" then Some config_doc
  else if String.eqb s "{}" then Some (json_obj [])
  else None.

#[export] Instance json : JsonC := {|
  json_parse_int64 := parse_int64;
  json_object_to_json_string := to_json_string;
  json_tokener_parse_ex := tokener_parse
|}.

#[export] Instance fabrics : Fabrics := {|
  NVMF_DEF_CTRL_LOSS_TMO := 600;
  NVME_DISC_SUBSYS_NAME := "nqn.2014-08.org.nvmexpress.discovery"
|}.

(** The keys held, newest first, each under its serial number. *)
Definition key_store : Type := list (Z * list Byte.byte).

Definition psk_prefix : string := "NVMeTLSkey-1:".

Definition import_tls_key (encoded : string)
  : option (list Byte.byte * Z * Z) :=
  if String.prefix psk_prefix encoded then
    let body := String.substring (String.length psk_prefix)
                  (String.length encoded - String.length psk_prefix) encoded in
    Some (list_byte_of_string body, Z.of_nat (String.length body), 1)
  else None.

Definition insert_tls_key (ks : key_store) (keyring : option string)
    (key_type hostnqn subsysnqn : string) (version hmac : Z)
    (key_data : list Byte.byte) (key_len : Z) : key_store * Z :=
  if key_len =? 0 then (ks, -1)
  else
    let id := 1000 + Z.of_nat (length ks) in
    ((id, key_data) :: ks, id).

Fixpoint read_key (ks : key_store) (id : Z) : option (list Byte.byte * Z) :=
  match ks with
  | [] => None
  | (i, d) :: rest =>
      if i =? id then Some (d, Z.of_nat (length d)) else read_key rest id
  end.

#[export] Instance store : SecretStore := {|
  keystore := key_store;
  nvme_lookup_keyring := fun _ desc =>
    match desc with
    | Some d => if String.eqb d ".nvme" then 77 else 0
    | None => 77
    end;
  nvme_set_keyring := fun ks _ => ks;
  nvme_import_tls_key := import_tls_key;
  nvme_insert_tls_key_versioned := insert_tls_key;
  nvme_read_key := fun ks _ id => read_key ks id;
  nvme_export_tls_key := fun d _ => Some (psk_prefix ++ string_of_list_byte d)%string;
  nvme_describe_key_serial := fun _ id =>
    if id =? 77 then Some ".nvme" else None;
  nvme_insert_key := fun ks key =>
    match key with
    | Some k => (1000 + Z.of_nat (length ks), list_byte_of_string k) :: ks
    | None => ks
    end
|}.

Definition opt_eqb (a b : option string) : bool :=
  match a, b with
  | Some a, Some b => String.eqb a b
  | None, None => true
  | _, _ => false
  end.

Fixpoint find_index {A : Type} (p : A -> bool) (l : list A) : option nat :=
  match l with
  | [] => None
  | x :: rest => if p x then Some O else option_map S (find_index p rest)
  end.

Definition default_config : nvme_fabrics_config :=
  {| nr_io_queues := 0; nr_write_queues := 0; nr_poll_queues := 0;
     queue_size := 0; keep_alive_tmo := 0; reconnect_delay := 0;
     ctrl_loss_tmo := 600; fast_io_fail_tmo := 0; tos := -1;
     keyring := 0; tls_key := 0;
     duplicate_connect := false; disable_sqflow := false;
     hdr_digest := false; data_digest := false; tls := false;
     concat := false |}.

Definition new_ctrl (transport : string)
    (traddr host_traddr host_iface trsvcid : option string) : nvme_ctrl :=
  {| c_name := None; transport := transport; traddr := traddr;
     host_traddr := host_traddr; host_iface := host_iface;
     trsvcid := trsvcid; dhchap_key := None; dhchap_ctrl_key := None;
     cfg := default_config; discovery_ctrl := false; persistent := false |}.

Definition lookup_host (r : nvme_root) (nqn id : option string)
  : nvme_root * option nvme_host_t :=
  match nqn with
  | None => (r, None)
  | Some _ =>
      match find_index (fun h => opt_eqb (hostnqn h) nqn) (hosts r) with
      | Some i => (r, Some i)
      | None =>
          ({| hosts := hosts r ++
                [{| hostnqn := nqn; hostid := id;
                    host_dhchap_key := None; hostsymname := None;
                    pdc_enabled := false; pdc_enabled_valid := false;
                    subsystems := [] |}] |},
           Some (length (hosts r)))
      end
  end.

Definition lookup_subsystem (r : nvme_root) (h : option nvme_host_t)
    (name nqn : option string)
  : outcome (nvme_root * option nvme_subsystem_t) :=
  match h with
  | None => Fault
  | Some h =>
      match host_at r h with
      | None => Fault
      | Some hst =>
          match find_index (fun s => opt_eqb (subsysnqn s) nqn)
                  (subsystems hst) with
          | Some i => Ret (r, Some (h, i))
          | None =>
              Ret (update_host
                     (with_subsystems (fun l =>
                        l ++ [{| subsysnqn := nqn; application := None;
                                 ctrls := [] |}])) h r,
                   Some (h, length (subsystems hst)))
          end
      end
  end.

Definition same_ctrl (tr : string)
    (ta hta hif ts : option string) (c : nvme_ctrl) : bool :=
  String.eqb (transport c) tr && opt_eqb (traddr c) ta
  && opt_eqb (host_traddr c) hta && opt_eqb (host_iface c) hif
  && opt_eqb (trsvcid c) ts.

(** No controller without a transport, and none off the "loop" and "pcie"
    transports without a target address. *)
Definition lookup_ctrl (r : nvme_root) (s : nvme_subsystem_t)
    (tr ta hta hif ts : option string) : nvme_root * option nvme_ctrl_t :=
  match tr, subsys_at r s with
  | Some tr, Some ss =>
      if negb (String.eqb tr "loop") && negb (String.eqb tr "pcie")
         && negb (is_set ta)
      then (r, None)
      else
        match find_index (same_ctrl tr ta hta hif ts) (ctrls ss) with
        | Some i => (r, Some (s, i))
        | None =>
            (update_subsys
               (with_ctrls (fun l => l ++ [new_ctrl tr ta hta hif ts])) s r,
             Some (s, length (ctrls ss)))
        end
  | _, _ => (r, None)
  end.

#[export] Instance resolver : Resolver := {|
  nvme_lookup_host := lookup_host;
  nvme_lookup_subsystem := lookup_subsystem;
  nvme_lookup_ctrl := lookup_ctrl
|}.

(** The resolvers of a process that is out of memory: no host can be
    created. *)
Definition resolver_enomem : Resolver := {|
  nvme_lookup_host := fun r _ _ => (r, None);
  nvme_lookup_subsystem := lookup_subsystem;
  nvme_lookup_ctrl := lookup_ctrl
|}.

Definition ENOENT : Z := 2.

Definition config_file : file :=
  {| f_reads := ["CON"; "FIG"]; f_read_error := false |}.
Definition object_file : file :=
  {| f_reads := ["{}"]; f_read_error := false |}.
Definition garbage_file : file :=
  {| f_reads := ["[,"]; f_read_error := false |}.

#[export] Instance posix : Posix := {|
  sys_open := fun path =>
    if String.eqb path "/etc/nvme/config.json" then inr config_file
    else if String.eqb path "/etc/nvme/object.json" then inr object_file
    else if String.eqb path "/etc/nvme/garbage.json" then inr garbage_file
    else inl ENOENT;
  realloc_ok := fun _ => true;
  json_tokener_new_ex_ok := true;
  json_object_to_fd := fun _ _ => 0;
  json_object_to_file_ext := fun _ _ => 0
|}.

Definition empty_world : world :=
  {| w_root := {| hosts := [] |}; w_keys := []; w_errno := 0 |}.

Definition tcp_ctrl : nvme_ctrl :=
  new_ctrl "tcp" (Some "192.168.1.10") None None (Some "4420").

Definition pcie_ctrl : nvme_ctrl :=
  new_ctrl "pcie" (Some "0000:01:00.0") None None None.

(** An "rdma" controller with TLS state: the flag, and a key that is in
    the keyring. *)
Definition rdma_ctrl : nvme_ctrl :=
  with_cfg (fun c => set_tls true (set_tls_key 1000 (set_keyring 77 c)))
    (new_ctrl "rdma" (Some "192.168.1.11") None None (Some "4420")).

(** A "loop" controller with both timeouts set. *)
Definition loop_ctrl : nvme_ctrl :=
  with_cfg (fun c => set_fast_io_fail_tmo 5 (set_ctrl_loss_tmo 100 c))
    (new_ctrl "loop" None None None None).

Definition one_key : key_store := [(1000, list_byte_of_string "01:c2VjcmV0")].

Definition new_host (nqn : string) (l : list nvme_subsystem) : nvme_host :=
  {| hostnqn := Some nqn; hostid := None; host_dhchap_key := None;
     hostsymname := None; pdc_enabled := false; pdc_enabled_valid := false;
     subsystems := l |}.

Definition new_subsys (nqn : string) (l : list nvme_ctrl) : nvme_subsystem :=
  {| subsysnqn := Some nqn; application := None; ctrls := l |}.

(** Two hosts: the first has a discovery subsystem with a "tcp"
    controller, a subsystem with a "pcie" and a "tcp" controller and a
    subsystem with a "pcie" controller only; the second has a discovery
    subsystem only. *)
Definition export_root : nvme_root :=
  {| hosts :=
       [new_host host1_nqn
          [new_subsys "nqn.2014-08.org.nvmexpress.discovery" [tcp_ctrl];
           new_subsys subsys1_nqn [pcie_ctrl; tcp_ctrl];
           new_subsys subsys3_nqn [pcie_ctrl]];
        new_host "nqn.2014-08.org.nvmexpress:uuid:host2"
          [new_subsys "nqn.2014-08.org.nvmexpress.discovery" [tcp_ctrl]]] |}.

End Demo.


(** ** The diagnostic dump *)

Section Dump.
Context {FB : Fabrics} {SS : SecretStore} {PX : Posix}.

(** [nvme_subsystem_get_name] is tree.c's: the name sysfs gives a
    subsystem, NULL for one that was never connected. *)
Variable nvme_subsystem_get_name : nvme_subsystem -> option string.

(** [json_dump_subsys]: the array it leaves.  [json_object_new_string]
    reads through the name and the NQN. *)
Definition json_dump_subsys (ks : keystore) (subsys_array : list json_object)
    (s : nvme_subsystem) : outcome (list json_object) :=
  match nvme_subsystem_get_name s, subsysnqn s with
  | Some name, Some nqn =>
      let subsys_obj := [] in
      let subsys_obj := json_object_object_add subsys_obj "name"
                          (json_string name) in
      let subsys_obj := json_object_object_add subsys_obj "nqn"
                          (json_string nqn) in
      let ctrl_array := fold_left (json_dump_ctrl ks) (ctrls s) [] in
      let subsys_obj :=
        if negb (length ctrl_array =? 0)%nat
        then json_object_object_add subsys_obj "controllers"
               (json_array ctrl_array)
        else subsys_obj in
      Ret (subsys_array ++ [json_obj subsys_obj])
  | _, _ => Fault
  end.

(** One turn of the [nvme_for_each_host] loop of [json_dump_tree]. *)
Definition json_dump_host (ks : keystore) (h : nvme_host)
    (host_array : list json_object) : outcome (list json_object) :=
  match hostnqn h with
  | None => Fault
  | Some hostnqn =>
      let host_obj := [] in
      let host_obj := json_object_object_add host_obj "hostnqn"
                        (json_string hostnqn) in
      let host_obj := add_string_if_set host_obj "hostid" (hostid h) in
      let host_obj := add_string_if_set host_obj "dhchap_key"
                        (host_dhchap_key h) in
      let host_obj :=
        if pdc_enabled_valid h
        then json_object_object_add host_obj "persistent_discovery_ctrl"
               (json_boolean (pdc_enabled h))
        else host_obj in
      subsys_array ← for_each (fun s arr => json_dump_subsys ks arr s)
                        (subsystems h) [];
      let host_obj :=
        if negb (length subsys_array =? 0)%nat
        then json_object_object_add host_obj "subsystems"
               (json_array subsys_array)
        else host_obj in
      Ret (host_array ++ [json_obj host_obj])
  end.

(** The document [json_dump_tree] builds. *)
Definition json_dump_tree_root (ks : keystore) (r : nvme_root)
  : outcome json_object :=
  host_array ← for_each (json_dump_host ks) (hosts r) [];
  Ret (json_obj (json_object_object_add [] "hosts" (json_array host_array))).

(** [json_dump_tree]: the value returned, [errno], and the document handed
    to [json_object_to_fd]; [log_fd] is [r->log.fd]. *)
Definition json_dump_tree (ks : keystore) (r : nvme_root) (errno : Z)
    (log_fd : Z) : outcome (Z * Z * json_object) :=
  json_root ← json_dump_tree_root ks r;
  let ret := json_object_to_fd log_fd json_root in
  if ret <? 0 then Ret (-1, EIO, json_root) else Ret (ret, errno, json_root).

(** The dump as a map over the topology: no host, subsystem or controller
    is left out; an array that would be empty is. *)
Definition dumped_subsys (ks : keystore) (s : nvme_subsystem) : json_object :=
  json_obj (string_field "name" (nvme_subsystem_get_name s)
            ++ string_field "nqn" (subsysnqn s)
            ++ match ctrls s with
               | [] => []
               | _ => [("controllers",
                        json_array (map (fun c => json_obj (ctrl_record ks c))
                                      (ctrls s)))]
               end).

Definition dumped_host (ks : keystore) (h : nvme_host) : json_object :=
  json_obj (string_field "hostnqn" (hostnqn h)
            ++ string_field "hostid" (hostid h)
            ++ string_field "dhchap_key" (host_dhchap_key h)
            ++ (if pdc_enabled_valid h
                then [("persistent_discovery_ctrl",
                       json_boolean (pdc_enabled h))]
                else [])
            ++ match subsystems h with
               | [] => []
               | _ => [("subsystems",
                        json_array (map (dumped_subsys ks) (subsystems h)))]
               end).

(** Every subsystem has a name. *)
Definition all_subsystems_named (r : nvme_root) : bool :=
  forallb (fun h => forallb (fun s => is_set (nvme_subsystem_get_name s))
                      (subsystems h))
    (hosts r).

End Dump.

(** ** Words for the properties of the importer and the exporters *)

(** The range of a C [int]. *)
Definition is_int (v : Z) : Prop := INT32_MIN <= v <= INT32_MAX.

(** The integers of a configuration that the export writes are C [int]s. *)
Definition integers_are_int (c : nvme_fabrics_config) : Prop :=
  is_int (nr_io_queues c) /\ is_int (nr_write_queues c) /\
  is_int (nr_poll_queues c) /\ is_int (queue_size c) /\
  is_int (keep_alive_tmo c) /\ is_int (reconnect_delay c) /\
  is_int (fast_io_fail_tmo c).

(** A controller none of whose fill-only-if-unset attributes is set. *)
Definition attributes_unset (c : nvme_ctrl) : Prop :=
  nr_io_queues (cfg c) = 0 /\ nr_write_queues (cfg c) = 0 /\
  nr_poll_queues (cfg c) = 0 /\ queue_size (cfg c) = 0 /\
  keep_alive_tmo (cfg c) = 0 /\ reconnect_delay (cfg c) = 0 /\
  fast_io_fail_tmo (cfg c) = 0 /\
  duplicate_connect (cfg c) = false /\ disable_sqflow (cfg c) = false /\
  hdr_digest (cfg c) = false /\ data_digest (cfg c) = false /\
  tls (cfg c) = false /\ concat (cfg c) = false /\
  persistent c = false /\ discovery_ctrl c = false.

(** What names a controller, and its DH-CHAP keys: all of it but [cfg] and
    the two classification flags. *)
Definition same_identity (c c' : nvme_ctrl) : Prop :=
  c_name c' = c_name c /\ transport c' = transport c /\
  traddr c' = traddr c /\ host_traddr c' = host_traddr c /\
  host_iface c' = host_iface c /\ trsvcid c' = trsvcid c /\
  dhchap_key c' = dhchap_key c /\ dhchap_ctrl_key c' = dhchap_ctrl_key c.

(** The attribute a row of the table writes, as the document would hold
    it. *)
Definition attribute_value (a : attribute) (c : nvme_ctrl) : json_object :=
  match a with
  | Nr_io_queues => json_int (nr_io_queues (cfg c))
  | Nr_write_queues => json_int (nr_write_queues (cfg c))
  | Nr_poll_queues => json_int (nr_poll_queues (cfg c))
  | Queue_size => json_int (queue_size (cfg c))
  | Keep_alive_tmo => json_int (keep_alive_tmo (cfg c))
  | Reconnect_delay => json_int (reconnect_delay (cfg c))
  | Ctrl_loss_tmo => json_int (ctrl_loss_tmo (cfg c))
  | Fast_io_fail_tmo => json_int (fast_io_fail_tmo (cfg c))
  | Tos => json_int (tos (cfg c))
  | Duplicate_connect => json_boolean (duplicate_connect (cfg c))
  | Disable_sqflow => json_boolean (disable_sqflow (cfg c))
  | Hdr_digest => json_boolean (hdr_digest (cfg c))
  | Data_digest => json_boolean (data_digest (cfg c))
  | Tls => json_boolean (tls (cfg c))
  | Concat => json_boolean (concat (cfg c))
  | Persistent => json_boolean (persistent c)
  | Discovery => json_boolean (discovery_ctrl c)
  | Keyring => json_int (keyring (cfg c))
  | Tls_key => json_int (tls_key (cfg c))
  end.

Definition is_object (jso : json_object) : bool :=
  match jso with
  | json_obj _ => true
  | _ => false
  end.

(** From [c] to [c'], each boolean option and flag that was set is still
    set. *)
Definition booleans_kept (c c' : nvme_ctrl) : Prop :=
  Bool.le (duplicate_connect (cfg c)) (duplicate_connect (cfg c')) /\
  Bool.le (disable_sqflow (cfg c)) (disable_sqflow (cfg c')) /\
  Bool.le (hdr_digest (cfg c)) (hdr_digest (cfg c')) /\
  Bool.le (data_digest (cfg c)) (data_digest (cfg c')) /\
  Bool.le (tls (cfg c)) (tls (cfg c')) /\
  Bool.le (concat (cfg c)) (concat (cfg c')) /\
  Bool.le (persistent c) (persistent c') /\
  Bool.le (discovery_ctrl c) (discovery_ctrl c').

Section Replaced.
Context {JC : JsonC}.

(** What the walk leaves of a string attribute: a field that is there
    replaces it, an absent field keeps what was there. *)
Definition replaced_by (obj : json_object) (key : string)
    (old : option string) : option string :=
  match json_object_object_get obj key with
  | Some attr_obj => json_object_get_string attr_obj
  | None => old
  end.

End Replaced.

(** ** More of the small system *)
Module Samples.

(** A file whose second [read] fails, and an empty file. *)
Definition broken_file : file :=
  {| f_reads := ["[{"]; f_read_error := true |}.
Definition empty_file : file :=
  {| f_reads := []; f_read_error := false |}.

(** A file whose text is an array with no record in it. *)
Definition scalars_file : file :=
  {| f_reads := ["[1, null, "; "[]]"]; f_read_error := false |}.

Definition scalars_doc : list json_object :=
  [json_int 1; json_null; json_array []].

(** A file whose text is an array of one host record, with a number where
    the subsystems go. *)
Definition misshaped_file : file :=
  {| f_reads := ["MISSHAPED"]; f_read_error := false |}.

Definition misshaped_doc : list json_object :=
  [json_obj [("hostnqn", json_string Demo.host1_nqn);
             ("subsystems", json_int 5)]].

Definition json : JsonC := {|
  json_parse_int64 := Demo.parse_int64;
  json_object_to_json_string := Demo.to_json_string;
  json_tokener_parse_ex := fun s =>
    if String.eqb s "[1, null, []]" then Some (json_array scalars_doc)
    else if String.eqb s "MISSHAPED" then Some (json_array misshaped_doc)
    else Demo.tokener_parse s
|}.

Definition posix : Posix := {|
  sys_open := fun path =>
    if String.eqb path "/etc/nvme/broken.json" then inr broken_file
    else if String.eqb path "/etc/nvme/empty.json" then inr empty_file
    else if String.eqb path "/etc/nvme/scalars.json" then inr scalars_file
    else if String.eqb path "/etc/nvme/misshaped.json" then inr misshaped_file
    else @sys_open Demo.posix path;
  realloc_ok := fun _ => true;
  json_tokener_new_ex_ok := true;
  json_object_to_fd := fun _ _ => 0;
  json_object_to_file_ext := fun _ _ => 0
|}.

(** The same files in a process that is granted four bytes and no more. *)
Definition posix_low_memory : Posix := {|
  sys_open := @sys_open posix;
  realloc_ok := fun n => (n <=? 4)%nat;
  json_tokener_new_ex_ok := true;
  json_object_to_fd := fun _ _ => 0;
  json_object_to_file_ext := fun _ _ => 0
|}.

(** A controller with every attribute the export writes set. *)
Definition busy_config : nvme_fabrics_config :=
  {| nr_io_queues := 4; nr_write_queues := 2; nr_poll_queues := 1;
     queue_size := 64; keep_alive_tmo := 30; reconnect_delay := 10;
     ctrl_loss_tmo := 100; fast_io_fail_tmo := 5; tos := 8;
     keyring := 0; tls_key := 0;
     duplicate_connect := true; disable_sqflow := true;
     hdr_digest := true; data_digest := true; tls := true;
     concat := true |}.

Definition busy_ctrl : nvme_ctrl :=
  {| c_name := Some "nvme1"; transport := "tcp";
     traddr := Some "192.168.1.12"; host_traddr := Some "192.168.1.1";
     host_iface := Some "eth0"; trsvcid := Some "4420";
     dhchap_key := Some "DHHC-1:00:aG9zdA==:";
     dhchap_ctrl_key := Some "DHHC-1:00:Y3RybA==:";
     cfg := busy_config; discovery_ctrl := true; persistent := true |}.

Definition subsys_name (s : nvme_subsystem) : option string :=
  match subsysnqn s with
  | Some nqn => Some ("nvme-subsys:" ++ nqn)%string
  | None => None
  end.

End Samples.


(** * Properties *)

(** ** Strings and json-c objects *)

Lemma compare_refl (a : string) : String.compare a a = Eq.
Proof.
  pose proof (String.compare_antisym a a) as H.
  destruct (String.compare a a); simpl in H; congruence.
Qed.

Lemma strcmp_eqb (a b : string) : (strcmp a b =? 0) = String.eqb a b.
Proof.
  unfold strcmp.
  destruct (String.eqb_spec a b) as [->|Hne].
  - now rewrite compare_refl.
  - destruct (String.compare a b) eqn:E; try reflexivity.
    apply String.compare_eq_iff in E. contradiction.
Qed.

Lemma json_object_object_get_is_object (jso : json_object) (key : string)
    (v : json_object) :
  json_object_object_get jso key = Some v ->
  exists fields, jso = json_obj fields.
Proof. destruct jso; simpl; try discriminate. eauto. Qed.

Lemma lh_table_lookup_insert (obj : list (string * json_object))
    (k k' : string) (v : json_object) :
  lh_table_lookup (json_object_object_add obj k' v) k =
  if String.eqb k' k then Some v else lh_table_lookup obj k.
Proof.
  unfold json_object_object_add.
  induction obj as [|[k0 v0] obj IH]; simpl.
  - reflexivity.
  - destruct (String.eqb_spec k0 k') as [->|Hne]; simpl.
    + destruct (String.eqb k' k); reflexivity.
    + rewrite IH. destruct (String.eqb_spec k0 k) as [->|]; [|reflexivity].
      destruct (String.eqb_spec k' k) as [->|]; [congruence|reflexivity].
Qed.

(** ** The loop body as a table *)

(** ** Tactics *)

Ltac open_scan st :=
  let c := fresh "c" in
  destruct st as [c ? ? ?]; destruct c as [? ? ? ? ? ? ? ? c ? ?];
  destruct c.

Ltac run_keys :=
  cbn [fold_left all_attributes on_key attribute_name String.eqb Ascii.eqb
       Bool.eqb].

Ltac unfold_rows :=
  unfold apply_attribute, fill_int, fill_bool, update_keyring, update_tls_key,
    on_cfg, on_ctrl, with_cfg, sc_cfg, nvme_ctrl_is_persistent,
    nvme_ctrl_is_discovery_ctrl, nvme_ctrl_set_persistent,
    nvme_ctrl_set_discovery_ctrl.

Ltac split_ifs :=
  repeat match goal with
  | |- context [if ?b then _ else _] => destruct b eqn:?
  end.

(** Case analysis on a test that has no test inside. *)
Ltac inner_if :=
  match goal with
  | |- context [if ?b then _ else _] =>
      lazymatch b with
      | context [if _ then _ else _] => fail
      | _ => destruct b eqn:?
      end
  end.

Ltac zero_or_not :=
  repeat match goal with
  | H : (?x =? ?y) = true |- _ => apply Z.eqb_eq in H
  | H : (?x =? ?y) = false |- _ => apply Z.eqb_neq in H
  end.

Section ImportFacts.
Context {JC : JsonC} {FB : Fabrics} {SS : SecretStore}.

Lemma attribute_of_key_name (a : attribute) :
  attribute_of_key (attribute_name a) = Some a.
Proof. destruct a; reflexivity. Qed.

Lemma attribute_of_key_Some (k : string) (a : attribute) :
  attribute_of_key k = Some a -> k = attribute_name a.
Proof.
  unfold attribute_of_key. intros H.
  apply List.find_some in H as [_ H].
  apply String.eqb_eq in H. congruence.
Qed.

Lemma attribute_of_key_None (k : string) (a : attribute) :
  attribute_of_key k = None -> String.eqb (attribute_name a) k = false.
Proof.
  unfold attribute_of_key. intros H.
  apply (List.find_none _ _ H a). destruct a; simpl; tauto.
Qed.

Lemma on_cfg_id (st : scan) : on_cfg (fun c => c) st = st.
Proof. now open_scan st. Qed.

Lemma int_option_on_key (n k : string) get set (v : json_object) (st : scan) :
  on_cfg (JSON_UPDATE_INT_OPTION n get set k v) st
  = on_key n k (fill_int get set v) st.
Proof.
  unfold on_key, fill_int, JSON_UPDATE_INT_OPTION, sc_cfg.
  rewrite strcmp_eqb.
  destruct (String.eqb n k); simpl; [|apply on_cfg_id].
  open_scan st; unfold on_cfg, with_cfg; simpl. now destruct (get _ =? 0).
Qed.

Lemma bool_option_on_key (n k : string) get set (v : json_object) (st : scan) :
  on_cfg (JSON_UPDATE_BOOL_OPTION n get set k v) st
  = on_key n k (fill_bool get set v) st.
Proof.
  unfold on_key, fill_bool, JSON_UPDATE_BOOL_OPTION, sc_cfg.
  rewrite strcmp_eqb.
  destruct (String.eqb n k); simpl; [|apply on_cfg_id].
  open_scan st; unfold on_cfg, with_cfg; simpl. now destruct (get _).
Qed.

Lemma ctrl_loss_tmo_on_key (k : string) (v : json_object) (st : scan) :
  update_ctrl_loss_tmo k v st
  = on_key "ctrl_loss_tmo" k (apply_attribute Ctrl_loss_tmo v) st.
Proof.
  unfold update_ctrl_loss_tmo, on_key. rewrite strcmp_eqb.
  now destruct (String.eqb _ k).
Qed.

Lemma tos_on_key (k : string) (v : json_object) (st : scan) :
  update_tos k v st = on_key "tos" k (apply_attribute Tos v) st.
Proof.
  unfold update_tos, on_key. rewrite strcmp_eqb.
  now destruct (String.eqb _ k).
Qed.

Lemma persistent_on_key (k : string) (v : json_object) (st : scan) :
  update_persistent k v st
  = on_key "persistent" k (apply_attribute Persistent v) st.
Proof.
  unfold update_persistent, on_key. rewrite strcmp_eqb.
  now destruct (String.eqb _ k).
Qed.

Lemma discovery_on_key (k : string) (v : json_object) (st : scan) :
  update_discovery k v st
  = on_key "discovery" k (apply_attribute Discovery v) st.
Proof.
  unfold update_discovery, on_key. rewrite strcmp_eqb.
  now destruct (String.eqb _ k).
Qed.

Lemma keyring_on_key (k : string) (v : json_object) (st : scan) :
  update_keyring k v st = on_key "keyring" k (apply_attribute Keyring v) st.
Proof.
  unfold on_key. destruct (String.eqb_spec "keyring" k) as [<-|Hne].
  - reflexivity.
  - unfold update_keyring. rewrite strcmp_eqb.
    now rewrite (proj2 (String.eqb_neq _ _) Hne).
Qed.

Lemma tls_key_on_key (k : string) (v : json_object) (st : scan) :
  update_tls_key k v st = on_key "tls_key" k (apply_attribute Tls_key v) st.
Proof.
  unfold on_key. destruct (String.eqb_spec "tls_key" k) as [<-|Hne].
  - reflexivity.
  - unfold update_tls_key. rewrite strcmp_eqb.
    now rewrite (proj2 (String.eqb_neq _ _) Hne).
Qed.

(** The loop body in table form: nineteen guarded rows in a row. *)
Lemma update_attribute_rows (k : string) (v : json_object) (st : scan) :
  update_attribute k v st
  = fold_left (fun st a => on_key (attribute_name a) k (apply_attribute a v) st)
      all_attributes st.
Proof.
  unfold update_attribute. cbv zeta.
  rewrite !int_option_on_key, !bool_option_on_key, ctrl_loss_tmo_on_key,
    tos_on_key, persistent_on_key, discovery_on_key, keyring_on_key,
    tls_key_on_key.
  reflexivity.
Qed.

Lemma update_attribute_name (a : attribute) (v : json_object) (st : scan) :
  update_attribute (attribute_name a) v st = apply_attribute a v st.
Proof. rewrite update_attribute_rows. destruct a; run_keys; reflexivity. Qed.

Lemma update_attribute_other (k : string) (v : json_object) (st : scan) :
  attribute_of_key k = None -> update_attribute k v st = st.
Proof.
  intros H. rewrite update_attribute_rows.
  assert (Hrow : forall a s, on_key (attribute_name a) k (apply_attribute a v) s = s).
  { intros a s. unfold on_key. now rewrite (attribute_of_key_None k a H). }
  unfold all_attributes. cbn [fold_left]. now rewrite !Hrow.
Qed.

Lemma update_attribute_dispatch (k : string) (v : json_object) (st : scan) :
  update_attribute k v st =
  match attribute_of_key k with
  | Some a => apply_attribute a v st
  | None => st
  end.
Proof.
  destruct (attribute_of_key k) as [a|] eqn:E.
  - apply attribute_of_key_Some in E. subst. apply update_attribute_name.
  - now apply update_attribute_other.
Qed.

(** ** The scan, step by step *)

Lemma scan_attributes_app (l1 l2 : list (string * json_object)) (st : scan) :
  scan_attributes (l1 ++ l2) st = scan_attributes l2 (scan_attributes l1 st).
Proof. apply fold_left_app. Qed.

Lemma scan_attributes_cons (k : string) (v : json_object)
    (l : list (string * json_object)) (st : scan) :
  scan_attributes ((k, v) :: l) st = scan_attributes l (update_attribute k v st).
Proof. reflexivity. Qed.

(** What every turn keeps, the whole loop keeps. *)
Lemma scan_attributes_ind (R : scan -> scan -> Prop) :
  (forall st, R st st) ->
  (forall a b c, R a b -> R b c -> R a c) ->
  (forall k v st, R st (update_attribute k v st)) ->
  forall l st, R st (scan_attributes l st).
Proof.
  intros Hrefl Htrans Hstep l.
  induction l as [|[k v] l IH]; intros st; simpl.
  - apply Hrefl.
  - eapply Htrans; [apply Hstep|apply IH].
Qed.

(** ** json_import_nvme_tls_key *)

Lemma json_import_nvme_tls_key_cfg (hn sn : option string) (c : nvme_ctrl)
    (kr : option string) (enc : string) (ks : keystore) :
  let c' := fst (json_import_nvme_tls_key hn sn c kr enc ks) in
  c' = c \/
  exists id, 0 < id /\
    c' = with_cfg (fun cfg => set_tls true (set_tls_key id cfg)) c.
Proof.
  unfold json_import_nvme_tls_key.
  destruct hn as [h|], sn as [s|]; simpl; auto.
  destruct (nvme_import_tls_key enc) as [[[data len] hmac]|]; simpl; auto.
  destruct (nvme_insert_tls_key_versioned _ _ _ _ _ _ _ _ _) as [ks' id].
  destruct (Z.leb_spec id 0); simpl; auto.
  right. exists id. split; [lia|reflexivity].
Qed.

(** C8: importing a TLS key succeeds completely or changes nothing.  When
    the decode succeeds and the insertion returns a positive id, the
    controller is the old one with [tls_key] set to that id and [tls] set
    to true; when an NQN is missing, the decode fails, or the insertion
    returns an id that is not positive, the controller is unchanged. *)
Theorem json_import_nvme_tls_key_all_or_nothing
    (hn sn : option string) (c : nvme_ctrl) (kr : option string)
    (enc : string) (ks : keystore) :
  (forall h s data len hmac ks' id,
      hn = Some h -> sn = Some s ->
      nvme_import_tls_key enc = Some (data, len, hmac) ->
      nvme_insert_tls_key_versioned ks kr "psk" h s 0 hmac data len = (ks', id) ->
      0 < id ->
      let c' := fst (json_import_nvme_tls_key hn sn c kr enc ks) in
      tls_key (cfg c') = id /\ tls (cfg c') = true /\
      c' = with_cfg (fun cfg => set_tls true (set_tls_key id cfg)) c)
  /\ (hn = None \/ sn = None ->
      fst (json_import_nvme_tls_key hn sn c kr enc ks) = c)
  /\ (nvme_import_tls_key enc = None ->
      fst (json_import_nvme_tls_key hn sn c kr enc ks) = c)
  /\ (forall h s data len hmac ks' id,
      hn = Some h -> sn = Some s ->
      nvme_import_tls_key enc = Some (data, len, hmac) ->
      nvme_insert_tls_key_versioned ks kr "psk" h s 0 hmac data len = (ks', id) ->
      id <= 0 ->
      fst (json_import_nvme_tls_key hn sn c kr enc ks) = c).
Proof.
  unfold json_import_nvme_tls_key. split; [|split; [|split]].
  - intros h s data len hmac ks' id -> -> -> -> Hid.
    destruct (Z.leb_spec id 0); [lia|]. now repeat split.
  - intros [->| ->]; [reflexivity|]. now destruct hn.
  - intros ->. now destruct hn, sn.
  - intros h s data len hmac ks' id -> -> -> -> Hid.
    destruct (Z.leb_spec id 0); [reflexivity|lia].
Qed.

(** ** Fill-only-if-unset for the integers whose sentinel is 0 *)

Lemma set_integers_kept_refl (c : nvme_fabrics_config) : set_integers_kept c c.
Proof. unfold set_integers_kept. tauto. Qed.

Lemma set_integers_kept_trans (a b c : nvme_fabrics_config) :
  set_integers_kept a b -> set_integers_kept b c -> set_integers_kept a c.
Proof.
  unfold set_integers_kept.
  intros (A1 & A2 & A3 & A4 & A5 & A6 & A7) (B1 & B2 & B3 & B4 & B5 & B6 & B7).
  repeat split; intros H.
  - rewrite <- (A1 H) in H |- *. auto.
  - rewrite <- (A2 H) in H |- *. auto.
  - rewrite <- (A3 H) in H |- *. auto.
  - rewrite <- (A4 H) in H |- *. auto.
  - rewrite <- (A5 H) in H |- *. auto.
  - rewrite <- (A6 H) in H |- *. auto.
  - rewrite <- (A7 H) in H |- *. auto.
Qed.

Lemma apply_attribute_keeps_set_integers (a : attribute) (v : json_object)
    (st : scan) :
  set_integers_kept (sc_cfg st) (sc_cfg (apply_attribute a v st)).
Proof.
  open_scan st.
  destruct a; unfold_rows; simpl; split_ifs; simpl;
    unfold set_integers_kept; simpl; zero_or_not; tauto.
Qed.

Lemma update_attribute_keeps_set_integers (k : string) (v : json_object)
    (st : scan) :
  set_integers_kept (sc_cfg st) (sc_cfg (update_attribute k v st)).
Proof.
  rewrite update_attribute_dispatch.
  destruct (attribute_of_key k).
  - apply apply_attribute_keeps_set_integers.
  - apply set_integers_kept_refl.
Qed.

Lemma scan_attributes_keeps_set_integers (l : list (string * json_object))
    (st : scan) :
  set_integers_kept (sc_cfg st) (sc_cfg (scan_attributes l st)).
Proof.
  revert l st.
  apply (scan_attributes_ind
           (fun a b => set_integers_kept (sc_cfg a) (sc_cfg b))).
  - intros. apply set_integers_kept_refl.
  - intros *. apply set_integers_kept_trans.
  - apply update_attribute_keeps_set_integers.
Qed.

Lemma json_import_nvme_tls_key_keeps_set_integers (hn sn : option string)
    (c : nvme_ctrl) (kr : option string) (enc : string) (ks : keystore) :
  set_integers_kept (cfg c)
    (cfg (fst (json_import_nvme_tls_key hn sn c kr enc ks))).
Proof.
  destruct (json_import_nvme_tls_key_cfg hn sn c kr enc ks) as [->|(id & _ & ->)].
  - apply set_integers_kept_refl.
  - unfold set_integers_kept. simpl. tauto.
Qed.

Lemma json_update_attributes_set_integers_kept
    (hn sn : option string) (c : nvme_ctrl) (ctrl_obj : json_object)
    (ks : keystore) :
  set_integers_kept (cfg c)
    (cfg (fst (json_update_attributes hn sn c ctrl_obj ks))).
Proof.
  unfold json_update_attributes.
  set (st0 := {| sc_ctrl := c; sc_keys := ks;
                 keyring_str := None; encoded_key := None |}).
  pose proof (scan_attributes_keeps_set_integers
                (json_object_get_object ctrl_obj) st0) as Hscan.
  destruct (encoded_key _) as [enc|].
  - eapply set_integers_kept_trans; [exact Hscan|].
    apply json_import_nvme_tls_key_keeps_set_integers.
  - exact Hscan.
Qed.

(** C4: a live integer with sentinel 0 that is already non-zero keeps its
    value through [json_update_attributes], whatever the record holds:
    [nr_io_queues], [nr_write_queues], [nr_poll_queues], [queue_size],
    [keep_alive_tmo], [reconnect_delay] and [fast_io_fail_tmo].  So a
    controller with [queue_size] 64 keeps 64 when the record says 128. *)
Theorem json_update_attributes_keeps_set_integers
    (hn sn : option string) (c : nvme_ctrl) (ctrl_obj : json_object)
    (ks : keystore) (c' : nvme_ctrl) (ks' : keystore) :
  json_update_attributes hn sn c ctrl_obj ks = (c', ks') ->
  (nr_io_queues (cfg c) <> 0 -> nr_io_queues (cfg c') = nr_io_queues (cfg c)) /\
  (nr_write_queues (cfg c) <> 0 ->
   nr_write_queues (cfg c') = nr_write_queues (cfg c)) /\
  (nr_poll_queues (cfg c) <> 0 ->
   nr_poll_queues (cfg c') = nr_poll_queues (cfg c)) /\
  (queue_size (cfg c) <> 0 -> queue_size (cfg c') = queue_size (cfg c)) /\
  (keep_alive_tmo (cfg c) <> 0 ->
   keep_alive_tmo (cfg c') = keep_alive_tmo (cfg c)) /\
  (reconnect_delay (cfg c) <> 0 ->
   reconnect_delay (cfg c') = reconnect_delay (cfg c)) /\
  (fast_io_fail_tmo (cfg c) <> 0 ->
   fast_io_fail_tmo (cfg c') = fast_io_fail_tmo (cfg c)).
Proof.
  intros H.
  change (set_integers_kept (cfg c) (cfg c')).
  replace c' with (fst (json_update_attributes hn sn c ctrl_obj ks))
    by now rewrite H.
  apply json_update_attributes_set_integers_kept.
Qed.

(** ** The classification flags *)

Lemma apply_attribute_flags_stay (a : attribute) (v : json_object) (st : scan) :
  (persistent (sc_ctrl st) = true ->
   persistent (sc_ctrl (apply_attribute a v st)) = true) /\
  (discovery_ctrl (sc_ctrl st) = true ->
   discovery_ctrl (sc_ctrl (apply_attribute a v st)) = true).
Proof.
  open_scan st.
  destruct a; unfold_rows; simpl; split_ifs; simpl; auto.
Qed.

Lemma scan_attributes_flags_stay (l : list (string * json_object)) (st : scan) :
  (persistent (sc_ctrl st) = true ->
   persistent (sc_ctrl (scan_attributes l st)) = true) /\
  (discovery_ctrl (sc_ctrl st) = true ->
   discovery_ctrl (sc_ctrl (scan_attributes l st)) = true).
Proof.
  revert l st.
  apply (scan_attributes_ind (fun a b =>
           (persistent (sc_ctrl a) = true -> persistent (sc_ctrl b) = true) /\
           (discovery_ctrl (sc_ctrl a) = true ->
            discovery_ctrl (sc_ctrl b) = true))).
  - tauto.
  - tauto.
  - intros k v st. rewrite update_attribute_dispatch.
    destruct (attribute_of_key k); [apply apply_attribute_flags_stay|tauto].
Qed.

Lemma update_attribute_persistent (v : json_object) (st : scan) :
  persistent (sc_ctrl (update_attribute "persistent" v st)) = true.
Proof.
  rewrite (update_attribute_name Persistent).
  open_scan st. unfold_rows. simpl.
  split_ifs; simpl; [reflexivity|now apply negb_false_iff].
Qed.

Lemma update_attribute_discovery (v : json_object) (st : scan) :
  discovery_ctrl (sc_ctrl (update_attribute "discovery" v st)) = true.
Proof.
  rewrite (update_attribute_name Discovery).
  open_scan st. unfold_rows. simpl.
  split_ifs; simpl; [reflexivity|now apply negb_false_iff].
Qed.

Lemma json_import_nvme_tls_key_flags (hn sn : option string) (c : nvme_ctrl)
    (kr : option string) (enc : string) (ks : keystore) :
  persistent (fst (json_import_nvme_tls_key hn sn c kr enc ks)) = persistent c /\
  discovery_ctrl (fst (json_import_nvme_tls_key hn sn c kr enc ks))
  = discovery_ctrl c.
Proof.
  destruct (json_import_nvme_tls_key_cfg hn sn c kr enc ks)
    as [->|(id & _ & ->)]; auto.
Qed.

(** The flags of the controller [json_update_attributes] leaves are the
    flags after the scan. *)
Lemma json_update_attributes_flags (hn sn : option string) (c : nvme_ctrl)
    (ctrl_obj : json_object) (ks : keystore) :
  let st := scan_attributes (json_object_get_object ctrl_obj)
              {| sc_ctrl := c; sc_keys := ks;
                 keyring_str := None; encoded_key := None |} in
  persistent (fst (json_update_attributes hn sn c ctrl_obj ks))
  = persistent (sc_ctrl st) /\
  discovery_ctrl (fst (json_update_attributes hn sn c ctrl_obj ks))
  = discovery_ctrl (sc_ctrl st).
Proof.
  unfold json_update_attributes. simpl.
  destruct (encoded_key _); [apply json_import_nvme_tls_key_flags|auto].
Qed.

(** C10: the importer does not read the value of "persistent" and
    "discovery".  A record that has the key, with any value, leaves the
    flag true; and the controller it leaves is the same for any two values
    of the key. *)
Theorem json_update_attributes_flag_by_presence
    (hn sn : option string) (c : nvme_ctrl)
    (l1 l2 : list (string * json_object)) (v v' : json_object)
    (ks : keystore) :
  persistent (fst (json_update_attributes hn sn c
                     (json_obj (l1 ++ ("persistent", v) :: l2)) ks)) = true
  /\ discovery_ctrl (fst (json_update_attributes hn sn c
                     (json_obj (l1 ++ ("discovery", v) :: l2)) ks)) = true
  /\ json_update_attributes hn sn c
       (json_obj (l1 ++ ("persistent", v) :: l2)) ks
     = json_update_attributes hn sn c
         (json_obj (l1 ++ ("persistent", v') :: l2)) ks
  /\ json_update_attributes hn sn c
       (json_obj (l1 ++ ("discovery", v) :: l2)) ks
     = json_update_attributes hn sn c
         (json_obj (l1 ++ ("discovery", v') :: l2)) ks.
Proof.
  repeat split.
  - rewrite (proj1 (json_update_attributes_flags _ _ _ _ _)). simpl.
    rewrite scan_attributes_app, scan_attributes_cons.
    apply scan_attributes_flags_stay, update_attribute_persistent.
  - rewrite (proj2 (json_update_attributes_flags _ _ _ _ _)). simpl.
    rewrite scan_attributes_app, scan_attributes_cons.
    apply scan_attributes_flags_stay, update_attribute_discovery.
  - unfold json_update_attributes. simpl.
    rewrite !scan_attributes_app, !scan_attributes_cons.
    now rewrite !(update_attribute_name Persistent).
  - unfold json_update_attributes. simpl.
    rewrite !scan_attributes_app, !scan_attributes_cons.
    now rewrite !(update_attribute_name Discovery).
Qed.

(** ** The two integers with a sentinel of their own *)

Lemma apply_attribute_sentinels_stay (a : attribute) (v : json_object)
    (st : scan) :
  (tos (sc_cfg st) = -1 -> tos (sc_cfg (apply_attribute a v st)) = -1) /\
  (ctrl_loss_tmo (sc_cfg st) = NVMF_DEF_CTRL_LOSS_TMO ->
   ctrl_loss_tmo (sc_cfg (apply_attribute a v st)) = NVMF_DEF_CTRL_LOSS_TMO).
Proof.
  open_scan st.
  destruct a; unfold_rows; simpl; split_ifs; simpl; zero_or_not;
    split; intros; subst; try congruence; try lia.
Qed.

(** A [tos] or [ctrl_loss_tmo] that is at its sentinel is never filled by
    [json_update_attributes]: the two tests read [!=] where the macro for
    the other integers reads [!]. *)
Lemma json_update_attributes_sentinels_stay (hn sn : option string)
    (c : nvme_ctrl) (ctrl_obj : json_object) (ks : keystore) :
  (tos (cfg c) = -1 ->
   tos (cfg (fst (json_update_attributes hn sn c ctrl_obj ks))) = -1) /\
  (ctrl_loss_tmo (cfg c) = NVMF_DEF_CTRL_LOSS_TMO ->
   ctrl_loss_tmo (cfg (fst (json_update_attributes hn sn c ctrl_obj ks)))
   = NVMF_DEF_CTRL_LOSS_TMO).
Proof.
  unfold json_update_attributes.
  set (st0 := {| sc_ctrl := c; sc_keys := ks;
                 keyring_str := None; encoded_key := None |}).
  assert (Hscan :
    (tos (sc_cfg st0) = -1 ->
     tos (sc_cfg (scan_attributes (json_object_get_object ctrl_obj) st0)) = -1) /\
    (ctrl_loss_tmo (sc_cfg st0) = NVMF_DEF_CTRL_LOSS_TMO ->
     ctrl_loss_tmo (sc_cfg (scan_attributes (json_object_get_object ctrl_obj) st0))
     = NVMF_DEF_CTRL_LOSS_TMO)).
  { generalize (json_object_get_object ctrl_obj) st0.
    apply (scan_attributes_ind (fun a b =>
      (tos (sc_cfg a) = -1 -> tos (sc_cfg b) = -1) /\
      (ctrl_loss_tmo (sc_cfg a) = NVMF_DEF_CTRL_LOSS_TMO ->
       ctrl_loss_tmo (sc_cfg b) = NVMF_DEF_CTRL_LOSS_TMO))).
    - tauto.
    - tauto.
    - intros k v st. rewrite update_attribute_dispatch.
      destruct (attribute_of_key k);
        [apply apply_attribute_sentinels_stay|tauto]. }
  destruct (encoded_key _) as [enc|]; [|exact Hscan].
  destruct (json_import_nvme_tls_key_cfg hn sn
              (sc_ctrl (scan_attributes (json_object_get_object ctrl_obj) st0))
              (keyring_str (scan_attributes (json_object_get_object ctrl_obj) st0))
              enc
              (sc_keys (scan_attributes (json_object_get_object ctrl_obj) st0)))
    as [->|(id & _ & ->)]; [exact Hscan|].
  simpl. exact Hscan.
Qed.

(** And one that is not at its sentinel is overwritten. *)
Lemma json_update_attributes_set_overwritten (hn sn : option string)
    (c : nvme_ctrl) (v : json_object) (ks : keystore) :
  (tos (cfg c) <> -1 ->
   tos (cfg (fst (json_update_attributes hn sn c (json_obj [("tos", v)]) ks)))
   = json_object_get_int v) /\
  (ctrl_loss_tmo (cfg c) <> NVMF_DEF_CTRL_LOSS_TMO ->
   ctrl_loss_tmo (cfg (fst (json_update_attributes hn sn c
                              (json_obj [("ctrl_loss_tmo", v)]) ks)))
   = json_object_get_int v).
Proof.
  unfold json_update_attributes, json_object_get_object, scan_attributes.
  cbn [fold_left fst snd].
  rewrite (update_attribute_name Tos), (update_attribute_name Ctrl_loss_tmo).
  destruct c as [? ? ? ? ? ? ? ? c ? ?]; destruct c.
  unfold_rows; simpl. split; intros H.
  - apply Z.eqb_neq in H. rewrite H. reflexivity.
  - apply Z.eqb_neq in H. rewrite H. reflexivity.
Qed.


(** ** Order of the fields *)

(** Two different rows of the table commute: each reads and writes its own
    field, and only the "keyring" row touches the keyrings. *)
Lemma apply_attribute_comm (a b : attribute) (v v' : json_object) (st : scan) :
  a <> b ->
  apply_attribute a v (apply_attribute b v' st)
  = apply_attribute b v' (apply_attribute a v st).
Proof.
  intros Hab. open_scan st.
  destruct a, b; try congruence; clear Hab;
    unfold apply_attribute, update_keyring, update_tls_key;
    rewrite ?strcmp_eqb;
    cbv - [Z.eqb json_object_get_int json_object_get_boolean
           json_object_get_string nvme_lookup_keyring nvme_set_keyring
           NVMF_DEF_CTRL_LOSS_TMO];
    repeat (inner_if; cbv beta iota); first [reflexivity | congruence].
Qed.


Lemma update_attribute_comm (k k' : string) (v v' : json_object) (st : scan) :
  k <> k' ->
  update_attribute k v (update_attribute k' v' st)
  = update_attribute k' v' (update_attribute k v st).
Proof.
  intros Hk. rewrite !update_attribute_dispatch.
  destruct (attribute_of_key k) as [a|] eqn:Ea;
    destruct (attribute_of_key k') as [b|] eqn:Eb; try reflexivity.
  apply apply_attribute_comm. intros ->.
  apply attribute_of_key_Some in Ea, Eb. congruence.
Qed.

(** Records with the same fields in another order scan alike, as long as
    no key comes twice (json-c objects hold a key once). *)
Lemma scan_attributes_Permutation (l l' : list (string * json_object)) :
  Permutation l l' -> List.NoDup (map fst l) ->
  forall st, scan_attributes l st = scan_attributes l' st.
Proof.
  induction 1 as [|[k v] l l' Hp IH|[k v] [k' v'] l|l l' l'' Hp1 IH1 Hp2 IH2];
    intros Hnd st.
  - reflexivity.
  - rewrite !scan_attributes_cons. apply IH. now inversion Hnd.
  - rewrite !scan_attributes_cons. f_equal.
    apply update_attribute_comm.
    simpl in Hnd. inversion Hnd as [|? ? Hnotin _]; subst.
    intros ->. apply Hnotin. now left.
  - rewrite IH1 by assumption. apply IH2.
    eapply Permutation_NoDup; [|exact Hnd]. now apply Permutation_map.
Qed.

(** A field that is not "keyring" leaves the keyring, its description and
    the keyrings alone; one that is not "tls_key" leaves the key and the
    key string alone. *)
Lemma update_attribute_not_keyring (k : string) (v : json_object) (st : scan) :
  k <> "keyring" ->
  keyring_str (update_attribute k v st) = keyring_str st /\
  keyring (sc_cfg (update_attribute k v st)) = keyring (sc_cfg st) /\
  sc_keys (update_attribute k v st) = sc_keys st.
Proof.
  intros Hk. rewrite update_attribute_dispatch.
  destruct (attribute_of_key k) as [a|] eqn:Ea; [|auto].
  apply attribute_of_key_Some in Ea.
  open_scan st.
  destruct a; try (simpl in Ea; congruence);
    unfold_rows; simpl; split_ifs; auto.
Qed.

Lemma update_attribute_not_tls_key (k : string) (v : json_object) (st : scan) :
  k <> "tls_key" ->
  encoded_key (update_attribute k v st) = encoded_key st /\
  tls_key (sc_cfg (update_attribute k v st)) = tls_key (sc_cfg st).
Proof.
  intros Hk. rewrite update_attribute_dispatch.
  destruct (attribute_of_key k) as [a|] eqn:Ea; [|auto].
  apply attribute_of_key_Some in Ea.
  open_scan st.
  destruct a; try (simpl in Ea; congruence);
    unfold_rows; simpl; split_ifs; auto.
Qed.

Lemma scan_attributes_not_keyring (l : list (string * json_object)) (st : scan) :
  ~ In "keyring" (map fst l) ->
  keyring_str (scan_attributes l st) = keyring_str st /\
  keyring (sc_cfg (scan_attributes l st)) = keyring (sc_cfg st) /\
  sc_keys (scan_attributes l st) = sc_keys st.
Proof.
  revert st. induction l as [|[k v] l IH]; intros st Hn; [auto|].
  rewrite scan_attributes_cons.
  destruct (IH (update_attribute k v st)) as (A & B & C).
  { intros H. apply Hn. now right. }
  destruct (update_attribute_not_keyring k v st) as (A' & B' & C').
  { intros ->. apply Hn. now left. }
  rewrite A, B, C. auto.
Qed.

Lemma scan_attributes_not_tls_key (l : list (string * json_object)) (st : scan) :
  ~ In "tls_key" (map fst l) ->
  encoded_key (scan_attributes l st) = encoded_key st /\
  tls_key (sc_cfg (scan_attributes l st)) = tls_key (sc_cfg st).
Proof.
  revert st. induction l as [|[k v] l IH]; intros st Hn; [auto|].
  rewrite scan_attributes_cons.
  destruct (IH (update_attribute k v st)) as (A & B).
  { intros H. apply Hn. now right. }
  destruct (update_attribute_not_tls_key k v st) as (A' & B').
  { intros ->. apply Hn. now left. }
  rewrite A, B. auto.
Qed.

Lemma In_Permutation_cons {A : Type} (x : A) (l : list A) :
  In x l -> exists l', Permutation l (x :: l').
Proof.
  intros H. apply in_split in H as (l1 & l2 & ->).
  exists (l1 ++ l2). symmetry. apply Permutation_middle.
Qed.

(** What the scan leaves when the record has both "keyring" and "tls_key",
    wherever they stand. *)
Lemma scan_attributes_keyring_and_key (fields : list (string * json_object))
    (c : nvme_ctrl) (ks : keystore) (kv tv : json_object) :
  List.NoDup (map fst fields) ->
  In ("keyring", kv) fields -> In ("tls_key", tv) fields ->
  keyring (cfg c) = 0 -> tls_key (cfg c) = 0 ->
  let st := scan_attributes fields
              {| sc_ctrl := c; sc_keys := ks;
                 keyring_str := None; encoded_key := None |} in
  keyring_str st = json_object_get_string kv /\
  encoded_key st = json_object_get_string tv /\
  keyring (sc_cfg st) = nvme_lookup_keyring ks (json_object_get_string kv).
Proof.
  intros Hnd Hk Ht Hk0 Ht0.
  destruct (In_Permutation_cons _ _ Hk) as (l1 & Hp1).
  assert (Ht1 : In ("tls_key", tv) l1).
  { eapply Permutation_in in Ht; [|exact Hp1].
    destruct Ht as [Heq|]; [discriminate Heq|assumption]. }
  destruct (In_Permutation_cons _ _ Ht1) as (rest & Hp2).
  assert (Hp : Permutation fields (("keyring", kv) :: ("tls_key", tv) :: rest)).
  { etransitivity; [exact Hp1|]. now constructor. }
  assert (Hnd' : List.NoDup ("keyring" :: "tls_key" :: map fst rest)).
  { eapply Permutation_NoDup; [|exact Hnd].
    apply (Permutation_map fst) in Hp. exact Hp. }
  inversion Hnd' as [|? ? Hn1 Hnd'']; subst.
  inversion Hnd'' as [|? ? Hn2 _]; subst.
  cbv zeta. rewrite (scan_attributes_Permutation _ _ Hp Hnd).
  rewrite !scan_attributes_cons.
  set (st2 := update_attribute "tls_key" tv (update_attribute "keyring" kv _)).
  destruct (scan_attributes_not_keyring rest st2) as (A & B & _).
  { intros H. apply Hn1. now right. }
  destruct (scan_attributes_not_tls_key rest st2) as (C & _).
  { exact Hn2. }
  rewrite A, B, C. subst st2.
  rewrite (update_attribute_name Tls_key), (update_attribute_name Keyring).
  destruct c as [? ? ? ? ? ? ? ? c ? ?]; destruct c. simpl in Hk0, Ht0. subst.
  unfold apply_attribute, update_keyring, update_tls_key. rewrite !strcmp_eqb.
  cbv - [Z.eqb json_object_get_string nvme_lookup_keyring nvme_set_keyring].
  destruct (nvme_lookup_keyring ks (json_object_get_string kv) =? 0) eqn:E;
    cbv beta iota; repeat split.
  now apply Z.eqb_eq in E.
Qed.

(** C5: the import of the TLS key does not depend on the order of the
    fields.  Two records with the same fields, in any two orders, leave the
    same controller and keyrings.  When the record has "keyring" and
    "tls_key", in either order, the scan resolves the keyring description
    into [cfg->keyring], and the key is imported after the scan, on the
    controller the scan left, with that description. *)
Theorem json_update_attributes_field_order
    (hn sn : option string) (c : nvme_ctrl)
    (fields fields' : list (string * json_object)) (ks : keystore) :
  List.NoDup (map fst fields) ->
  Permutation fields fields' ->
  json_update_attributes hn sn c (json_obj fields) ks
  = json_update_attributes hn sn c (json_obj fields') ks
  /\ forall kv tv enc,
      In ("keyring", kv) fields -> In ("tls_key", tv) fields ->
      keyring (cfg c) = 0 -> tls_key (cfg c) = 0 ->
      json_object_get_string tv = Some enc ->
      exists c1 ks1,
        json_update_attributes hn sn c (json_obj fields') ks
        = json_import_nvme_tls_key hn sn c1 (json_object_get_string kv) enc ks1
        /\ keyring (cfg c1)
           = nvme_lookup_keyring ks (json_object_get_string kv).
Proof.
  intros Hnd Hp.
  assert (Heq : json_update_attributes hn sn c (json_obj fields) ks
                = json_update_attributes hn sn c (json_obj fields') ks).
  { unfold json_update_attributes. simpl.
    now rewrite (scan_attributes_Permutation _ _ Hp Hnd). }
  split; [exact Heq|].
  intros kv tv enc Hk Ht Hk0 Ht0 Henc.
  rewrite <- Heq.
  destruct (scan_attributes_keyring_and_key fields c ks kv tv Hnd Hk Ht Hk0 Ht0)
    as (A & B & C).
  unfold json_update_attributes. simpl json_object_get_object.
  rewrite B, Henc, A.
  eexists _, _. split; [reflexivity|exact C].
Qed.

End ImportFacts.

(** ** What a record on export holds *)

Section ExportFacts.
Context {FB : Fabrics} {SS : SecretStore}.

Local Abbreviation json_fields := (list (string * json_object)).

Lemma lookup_if (b : bool) (x y : json_fields) (k : string) :
  lh_table_lookup (if b then x else y) k
  = if b then lh_table_lookup x k else lh_table_lookup y k.
Proof. now destruct b. Qed.

Lemma lookup_add_string_if_set (obj : json_fields) (k' : string)
    (val : option string) (k : string) :
  lh_table_lookup (add_string_if_set obj k' val) k =
  if String.eqb k' k
  then match val with
       | Some s => Some (json_string s)
       | None => lh_table_lookup obj k
       end
  else lh_table_lookup obj k.
Proof.
  unfold add_string_if_set. destruct val as [s|].
  - apply lh_table_lookup_insert.
  - now destruct (String.eqb k' k).
Qed.

Lemma lookup_JSON_INT_OPTION (v : Z) (p : json_fields) (o : string) (d : Z)
    (k : string) :
  lh_table_lookup (JSON_INT_OPTION v p o d) k =
  if String.eqb o k
  then (if v =? d then lh_table_lookup p k else Some (json_int v))
  else lh_table_lookup p k.
Proof.
  unfold JSON_INT_OPTION. destruct (v =? d); simpl.
  - now destruct (String.eqb o k).
  - apply lh_table_lookup_insert.
Qed.

Lemma lookup_JSON_BOOL_OPTION (v : bool) (p : json_fields) (o : string)
    (k : string) :
  lh_table_lookup (JSON_BOOL_OPTION v p o) k =
  if String.eqb o k
  then (if v then Some (json_boolean true) else lh_table_lookup p k)
  else lh_table_lookup p k.
Proof.
  unfold JSON_BOOL_OPTION. destruct v.
  - apply lh_table_lookup_insert.
  - now destruct (String.eqb o k).
Qed.

Lemma lookup_json_export_nvme_tls_key (ks : keystore) (kr tk : Z)
    (obj : json_fields) (k : string) :
  lh_table_lookup (json_export_nvme_tls_key ks kr tk obj) k =
  if String.eqb "tls_key" k
  then match nvme_read_key ks kr tk with
       | Some (key_data, key_len) =>
           match nvme_export_tls_key key_data key_len with
           | Some tls_str => Some (json_string tls_str)
           | None => lh_table_lookup obj k
           end
       | None => lh_table_lookup obj k
       end
  else lh_table_lookup obj k.
Proof.
  unfold json_export_nvme_tls_key.
  destruct (nvme_read_key ks kr tk) as [[key_data key_len]|].
  - destruct (nvme_export_tls_key key_data key_len).
    + apply lh_table_lookup_insert.
    + now destruct (String.eqb _ k).
  - now destruct (String.eqb _ k).
Qed.

Lemma lookup_if_frame (b : bool) (y x : json_fields) (k : string) :
  lh_table_lookup y k = lh_table_lookup x k ->
  lh_table_lookup (if b then y else x) k = lh_table_lookup x k.
Proof. now destruct b. Qed.

Lemma lookup_insert_other (obj : json_fields) (k' k : string) (v : json_object) :
  String.eqb k' k = false ->
  lh_table_lookup (json_object_object_add obj k' v) k = lh_table_lookup obj k.
Proof. intros H. now rewrite lh_table_lookup_insert, H. Qed.

Lemma lookup_insert_same (obj : json_fields) (k : string) (v : json_object) :
  lh_table_lookup (json_object_object_add obj k v) k = Some v.
Proof. now rewrite lh_table_lookup_insert, String.eqb_refl. Qed.

Lemma lookup_string_other (obj : json_fields) (k' k : string)
    (val : option string) :
  String.eqb k' k = false ->
  lh_table_lookup (add_string_if_set obj k' val) k = lh_table_lookup obj k.
Proof. intros H. now rewrite lookup_add_string_if_set, H. Qed.

Lemma lookup_int_other (v : Z) (p : json_fields) (o : string) (d : Z)
    (k : string) :
  String.eqb o k = false ->
  lh_table_lookup (JSON_INT_OPTION v p o d) k = lh_table_lookup p k.
Proof. intros H. now rewrite lookup_JSON_INT_OPTION, H. Qed.

Lemma lookup_int_same (v : Z) (p : json_fields) (k : string) (d : Z) :
  lh_table_lookup (JSON_INT_OPTION v p k d) k =
  if v =? d then lh_table_lookup p k else Some (json_int v).
Proof. now rewrite lookup_JSON_INT_OPTION, String.eqb_refl. Qed.

Lemma lookup_bool_other (v : bool) (p : json_fields) (o k : string) :
  String.eqb o k = false ->
  lh_table_lookup (JSON_BOOL_OPTION v p o) k = lh_table_lookup p k.
Proof. intros H. now rewrite lookup_JSON_BOOL_OPTION, H. Qed.

Lemma lookup_bool_same (v : bool) (p : json_fields) (k : string) :
  lh_table_lookup (JSON_BOOL_OPTION v p k) k =
  if v then Some (json_boolean true) else lh_table_lookup p k.
Proof. now rewrite lookup_JSON_BOOL_OPTION, String.eqb_refl. Qed.

Lemma lookup_export_other (ks : keystore) (kr tk : Z) (obj : json_fields)
    (k : string) :
  String.eqb "tls_key" k = false ->
  lh_table_lookup (json_export_nvme_tls_key ks kr tk obj) k
  = lh_table_lookup obj k.
Proof. intros H. now rewrite lookup_json_export_nvme_tls_key, H. Qed.

End ExportFacts.

(** Looking a key up in a record under construction: step over what is
    added under other keys, stop at what is added under this one. *)
Ltac peel :=
  first
    [ rewrite lookup_int_other by reflexivity
    | rewrite lookup_bool_other by reflexivity
    | rewrite lookup_string_other by reflexivity
    | rewrite lookup_export_other by reflexivity
    | rewrite lookup_insert_other by reflexivity
    | rewrite lookup_if_frame by (repeat peel; reflexivity)
    | rewrite lookup_int_same
    | rewrite lookup_bool_same
    | rewrite lookup_insert_same
    | rewrite lookup_if ].

(** The records are built by a chain of [let]s: name each link, then walk
    the chain back from the last. *)
Ltac open_lets :=
  repeat match goal with
  | |- lh_table_lookup (let x := ?A in @?B x) ?k = ?R =>
      let a := fresh "obj" in
      pose (a := A); change (lh_table_lookup (B a) k = R); cbv beta
  end.

Ltac unfold_link :=
  match goal with
  | |- context [lh_table_lookup ?x _] => is_var x; subst x
  | |- context [lh_table_lookup (match ?o with Some _ => _ | None => _ end) _] =>
      destruct o
  end.

Ltac lookup_record :=
  cbv beta delta [port_record ctrl_record]; open_lets;
  repeat (peel || unfold_link);
  cbn [lh_table_lookup];
  repeat match goal with x := _ |- _ => subst x end.

Section RecordFacts.
Context {FB : Fabrics} {SS : SecretStore}.

(** The integers of a port record: there with the live value when it
    differs from the sentinel, else not there. *)
Lemma port_record_integers (ks : keystore) (c : nvme_ctrl) :
  let r := port_record ks c in
  let emitted (v d : Z) := if v =? d then None else Some (json_int v) in
  lh_table_lookup r "nr_io_queues" = emitted (nr_io_queues (cfg c)) 0 /\
  lh_table_lookup r "nr_write_queues" = emitted (nr_write_queues (cfg c)) 0 /\
  lh_table_lookup r "nr_poll_queues" = emitted (nr_poll_queues (cfg c)) 0 /\
  lh_table_lookup r "queue_size" = emitted (queue_size (cfg c)) 0 /\
  lh_table_lookup r "keep_alive_tmo" = emitted (keep_alive_tmo (cfg c)) 0 /\
  lh_table_lookup r "reconnect_delay" = emitted (reconnect_delay (cfg c)) 0 /\
  lh_table_lookup r "tos" = emitted (tos (cfg c)) (-1).
Proof.
  cbv zeta. repeat split; lookup_record; reflexivity.
Qed.


Lemma strcmp_same (a : string) : (strcmp a a =? 0) = true.
Proof. now rewrite strcmp_eqb, String.eqb_refl. Qed.

Lemma strcmp_differ (a b : string) : a <> b -> (strcmp a b =? 0) = false.
Proof. intros H. rewrite strcmp_eqb. now apply String.eqb_neq. Qed.

(** The two timeouts of a port record, off the "loop" transport. *)
Lemma port_record_timeouts (ks : keystore) (c : nvme_ctrl) :
  transport c <> "loop" ->
  lh_table_lookup (port_record ks c) "ctrl_loss_tmo"
  = (if ctrl_loss_tmo (cfg c) =? NVMF_DEF_CTRL_LOSS_TMO then None
     else Some (json_int (ctrl_loss_tmo (cfg c)))) /\
  lh_table_lookup (port_record ks c) "fast_io_fail_tmo"
  = (if fast_io_fail_tmo (cfg c) =? 0 then None
     else Some (json_int (fast_io_fail_tmo (cfg c)))).
Proof.
  intros H. split; lookup_record; now rewrite (strcmp_differ _ _ H).
Qed.

(** On "loop", neither exporter writes the two timeouts. *)
Lemma port_record_loop (ks : keystore) (c : nvme_ctrl) :
  transport c = "loop" ->
  lh_table_lookup (port_record ks c) "ctrl_loss_tmo" = None /\
  lh_table_lookup (port_record ks c) "fast_io_fail_tmo" = None.
Proof.
  intros H. split; lookup_record; now rewrite H.
Qed.

Lemma ctrl_record_loop (ks : keystore) (c : nvme_ctrl) :
  transport c = "loop" ->
  lh_table_lookup (ctrl_record ks c) "ctrl_loss_tmo" = None /\
  lh_table_lookup (ctrl_record ks c) "fast_io_fail_tmo" = None.
Proof.
  intros H. split; lookup_record; now rewrite H.
Qed.

(** Off "tcp", the dump writes neither "tls" nor "tls_key". *)
Lemma ctrl_record_not_tcp (ks : keystore) (c : nvme_ctrl) :
  transport c <> "tcp" ->
  lh_table_lookup (ctrl_record ks c) "tls" = None /\
  lh_table_lookup (ctrl_record ks c) "tls_key" = None.
Proof.
  intros H. split; lookup_record; now rewrite (strcmp_differ _ _ H).
Qed.

(** The config export writes "tls" on every transport. *)
Lemma port_record_tls (ks : keystore) (c : nvme_ctrl) :
  lh_table_lookup (port_record ks c) "tls"
  = if tls (cfg c) then Some (json_boolean true) else None.
Proof. lookup_record. reflexivity. Qed.

Lemma JSON_INT_OPTION_emits (v : Z) (p : list (string * json_object))
    (o : string) (d : Z) :
  lh_table_lookup p o = None ->
  (lh_table_lookup (JSON_INT_OPTION v p o d) o = Some (json_int v) <-> v <> d)
  /\ (lh_table_lookup (JSON_INT_OPTION v p o d) o = None <-> v = d).
Proof.
  intros Hp. rewrite lookup_int_same, Hp.
  destruct (Z.eqb_spec v d); split; split; congruence.
Qed.

(** C7, amended: in the record [json_update_port] emits, "tos" is absent
    at -1 and present with value 0 at 0; [JSON_INT_OPTION] adds its key with
    the live value exactly when that value is not the sentinel; each of
    "nr_io_queues", "nr_write_queues", "nr_poll_queues", "queue_size",
    "keep_alive_tmo", "reconnect_delay" and "tos" is there with the live
    value when it differs from the sentinel and not there otherwise; so are
    "ctrl_loss_tmo" and "fast_io_fail_tmo" off the "loop" transport, and on
    "loop" the two are not there whatever their values. *)
Theorem json_update_port_integer_emitted_iff_set
    (ks : keystore) (ctrl_array : list json_object) (c : nvme_ctrl) :
  transport c <> "pcie" ->
  let r := port_record ks c in
  let emitted (v d : Z) := if v =? d then None else Some (json_int v) in
  json_update_port ks ctrl_array c = ctrl_array ++ [json_obj r]
  /\ (tos (cfg c) = -1 -> lh_table_lookup r "tos" = None)
  /\ (tos (cfg c) = 0 -> lh_table_lookup r "tos" = Some (json_int 0))
  /\ (forall v p o d, lh_table_lookup p o = None ->
        (lh_table_lookup (JSON_INT_OPTION v p o d) o = Some (json_int v)
         <-> v <> d)
        /\ (lh_table_lookup (JSON_INT_OPTION v p o d) o = None <-> v = d))
  /\ lh_table_lookup r "nr_io_queues" = emitted (nr_io_queues (cfg c)) 0
  /\ lh_table_lookup r "nr_write_queues" = emitted (nr_write_queues (cfg c)) 0
  /\ lh_table_lookup r "nr_poll_queues" = emitted (nr_poll_queues (cfg c)) 0
  /\ lh_table_lookup r "queue_size" = emitted (queue_size (cfg c)) 0
  /\ lh_table_lookup r "keep_alive_tmo" = emitted (keep_alive_tmo (cfg c)) 0
  /\ lh_table_lookup r "reconnect_delay" = emitted (reconnect_delay (cfg c)) 0
  /\ lh_table_lookup r "tos" = emitted (tos (cfg c)) (-1)
  /\ (transport c <> "loop" ->
      lh_table_lookup r "ctrl_loss_tmo"
      = emitted (ctrl_loss_tmo (cfg c)) NVMF_DEF_CTRL_LOSS_TMO
      /\ lh_table_lookup r "fast_io_fail_tmo"
         = emitted (fast_io_fail_tmo (cfg c)) 0)
  /\ (transport c = "loop" ->
      lh_table_lookup r "ctrl_loss_tmo" = None
      /\ lh_table_lookup r "fast_io_fail_tmo" = None).
Proof.
  intros Hpcie. cbv zeta.
  destruct (port_record_integers ks c) as (I1 & I2 & I3 & I4 & I5 & I6 & I7).
  cbv zeta in I1, I2, I3, I4, I5, I6, I7.
  split; [|split; [|split; [|split]]].
  - unfold json_update_port. now rewrite (strcmp_differ _ _ Hpcie).
  - intros H. now rewrite I7, H.
  - intros H. now rewrite I7, H.
  - intros. now apply JSON_INT_OPTION_emits.
  - repeat split; try assumption;
      solve [now apply port_record_timeouts | now apply port_record_loop].
Qed.

End RecordFacts.

(** ** The config export walks what the spec says it persists *)

Section ConfigExport.
Context {FB : Fabrics} {SS : SecretStore}.

Lemma existsb_filter {A : Type} (p : A -> bool) (l : list A) :
  existsb p l = negb (length (List.filter p l) =? 0)%nat.
Proof.
  induction l as [|x l IH]; simpl; [reflexivity|].
  destruct (p x); simpl; [reflexivity|exact IH].
Qed.

Lemma json_update_port_fold (ks : keystore) (l : list nvme_ctrl)
    (acc : list json_object) :
  fold_left (json_update_port ks) l acc
  = acc ++ map (fun c => json_obj (port_record ks c))
             (List.filter ctrl_persisted l).
Proof.
  revert acc. induction l as [|c l IH]; intros acc; simpl.
  - now rewrite app_nil_r.
  - rewrite IH. unfold json_update_port, ctrl_persisted.
    rewrite strcmp_eqb. destruct (String.eqb (transport c) "pcie"); simpl.
    + reflexivity.
    + now rewrite <- app_assoc.
Qed.

Lemma json_update_subsys_persisted (ks : keystore) (arr : list json_object)
    (s : nvme_subsystem) :
  is_set (subsysnqn s) = true ->
  json_update_subsys ks arr s
  = Ret (arr ++ if subsys_persisted s then [subsys_record ks s] else []).
Proof.
  unfold json_update_subsys, subsys_persisted, subsys_record, persisted_ports.
  destruct (subsysnqn s) as [nqn|]; [intros _|discriminate].
  rewrite strcmp_eqb.
  destruct (String.eqb nqn NVME_DISC_SUBSYS_NAME); simpl.
  { now rewrite app_nil_r. }
  rewrite (json_update_port_fold ks (ctrls s) []). simpl.
  rewrite existsb_filter, length_map.
  destruct (negb _); [|now rewrite app_nil_r].
  now destruct (application s).
Qed.

Lemma json_update_subsys_for_each (ks : keystore) (l : list nvme_subsystem)
    (acc : list json_object) :
  forallb (fun s => is_set (subsysnqn s)) l = true ->
  for_each (fun s arr => json_update_subsys ks arr s) l acc
  = Ret (acc ++ map (subsys_record ks) (List.filter subsys_persisted l)).
Proof.
  revert acc. induction l as [|s l IH]; intros acc H; simpl.
  - now rewrite app_nil_r.
  - simpl in H. apply andb_true_iff in H as [Hs Hl].
    rewrite (json_update_subsys_persisted ks acc s Hs). simpl.
    rewrite (IH _ Hl).
    destruct (subsys_persisted s); simpl.
    + now rewrite <- app_assoc.
    + now rewrite app_nil_r.
Qed.

Lemma json_update_host_persisted (ks : keystore) (h : nvme_host)
    (json_root : list json_object) :
  is_set (hostnqn h) = true ->
  forallb (fun s => is_set (subsysnqn s)) (subsystems h) = true ->
  json_update_host ks h json_root
  = Ret (json_root ++ if host_persisted h then [host_record ks h] else []).
Proof.
  unfold json_update_host, host_persisted, host_record, persisted_subsystems.
  destruct (hostnqn h) as [nqn|]; [intros _ Hs|discriminate].
  rewrite (json_update_subsys_for_each ks _ [] Hs). simpl.
  rewrite existsb_filter, length_map.
  destruct (negb _); [|now rewrite app_nil_r].
  destruct (hostid h), (host_dhchap_key h), (hostsymname h),
    (pdc_enabled_valid h); reflexivity.
Qed.

Lemma json_update_host_for_each (ks : keystore) (l : list nvme_host)
    (acc : list json_object) :
  forallb (fun h =>
             is_set (hostnqn h)
             && forallb (fun s => is_set (subsysnqn s)) (subsystems h)) l
  = true ->
  for_each (json_update_host ks) l acc
  = Ret (acc ++ map (host_record ks) (List.filter host_persisted l)).
Proof.
  revert acc. induction l as [|h l IH]; intros acc H; simpl.
  - now rewrite app_nil_r.
  - simpl in H. apply andb_true_iff in H as [Hh Hl].
    apply andb_true_iff in Hh as [Hn Hs].
    rewrite (json_update_host_persisted ks h acc Hn Hs). simpl.
    rewrite (IH _ Hl).
    destruct (host_persisted h); simpl.
    + now rewrite <- app_assoc.
    + now rewrite app_nil_r.
Qed.

(** C6: the document of the config export is the persisted part of the
    topology: the hosts with a persisted subsystem, under each the
    subsystems that are not the discovery subsystem and have a persisted
    endpoint, under each the endpoints off "pcie".  A discovery subsystem
    adds nothing whatever its endpoints, a "pcie" endpoint adds nothing, a
    subsystem whose port array stays empty is dropped, and so is a host
    whose subsystem array stays empty.  (The NQNs are read through, so
    every host and subsystem has one.) *)
Theorem json_update_config_persisted (ks : keystore) (r : nvme_root) :
  all_named r = true ->
  json_update_config_root ks r = Ret (persisted_config ks r)
  /\ (forall arr s,
        subsysnqn s = Some NVME_DISC_SUBSYS_NAME ->
        json_update_subsys ks arr s = Ret arr)
  /\ (forall arr c, transport c = "pcie" -> json_update_port ks arr c = arr)
  /\ (forall arr s,
        is_set (subsysnqn s) = true ->
        fold_left (json_update_port ks) (ctrls s) [] = [] ->
        json_update_subsys ks arr s = Ret arr)
  /\ (forall json_root h,
        is_set (hostnqn h) = true ->
        for_each (fun s arr => json_update_subsys ks arr s) (subsystems h) []
        = Ret [] ->
        json_update_host ks h json_root = Ret json_root).
Proof.
  intros Hnamed. repeat split.
  - unfold json_update_config_root, persisted_config.
    now rewrite (json_update_host_for_each ks (hosts r) [] Hnamed).
  - intros arr s Hs. unfold json_update_subsys. rewrite Hs.
    now rewrite strcmp_same.
  - intros arr c Hc. unfold json_update_port. rewrite Hc. reflexivity.
  - intros arr s Hs Hports. unfold json_update_subsys.
    destruct (subsysnqn s) as [nqn|]; [|discriminate].
    destruct (strcmp nqn NVME_DISC_SUBSYS_NAME =? 0); [reflexivity|].
    cbv zeta. now rewrite Hports.
  - intros json_root h Hh Hsub. unfold json_update_host.
    destruct (hostnqn h) as [nqn|]; [|discriminate].
    cbv zeta. now rewrite Hsub.
Qed.

End ConfigExport.

(** ** The walk of the importer *)

Section ImporterFacts.
Context {JC : JsonC} {FB : Fabrics} {SS : SecretStore} {RS : Resolver}
        {PX : Posix}.

(** A record the body passes over is as good as absent from the array. *)
Lemma for_each_skip {A S : Type} (body : A -> S -> outcome S) (x : A)
    (l1 l2 : list A) (s : S) :
  (forall s, body x s = Ret s) ->
  for_each body (l1 ++ x :: l2) s = for_each body (l1 ++ l2) s.
Proof.
  intros Hx. revert s. induction l1 as [|y l1 IH]; intros s; simpl.
  - now rewrite Hx.
  - destruct (body y s) as [s'|]; simpl; [apply IH|reflexivity].
Qed.

Lemma array_for_each_skip {S : Type} (body : json_object -> S -> outcome S)
    (x : json_object) (l1 l2 : list json_object) (s : S) :
  (forall s, body x s = Ret s) ->
  array_for_each body (json_array (l1 ++ x :: l2)) s
  = array_for_each body (json_array (l1 ++ l2)) s.
Proof.
  intros Hx. unfold array_for_each. simpl.
  apply for_each_skip. intros s'. destruct (is_null x); auto.
Qed.

(** A record without its identity field is passed over, at each level. *)
Lemma json_parse_host_no_hostnqn (host_obj : json_object) (w : world) :
  json_object_object_get host_obj "hostnqn" = None ->
  json_parse_host host_obj w = Ret w.
Proof. unfold json_parse_host. now intros ->. Qed.

Lemma json_parse_subsys_no_nqn (h : option nvme_host_t)
    (subsys_obj : json_object) (w : world) :
  json_object_object_get subsys_obj "nqn" = None ->
  json_parse_subsys h subsys_obj w = Ret w.
Proof. unfold json_parse_subsys. now intros ->. Qed.

Lemma json_parse_port_no_transport (s : nvme_subsystem_t)
    (port_obj : json_object) (w : world) :
  json_object_object_get port_obj "transport" = None ->
  json_parse_port s port_obj w = Ret w.
Proof. unfold json_parse_port. now intros ->. Qed.

(** A subsystem or a port the resolver does not deliver is passed over:
    what is left is what the resolver left. *)
Lemma json_parse_subsys_lookup_fails (h : option nvme_host_t)
    (subsys_obj nqn_obj : json_object) (w : world) (r : nvme_root) :
  json_object_object_get subsys_obj "nqn" = Some nqn_obj ->
  nvme_lookup_subsystem (w_root w) h None (json_object_get_string nqn_obj)
  = Ret (r, None) ->
  json_parse_subsys h subsys_obj w = Ret (set_root r w).
Proof. unfold json_parse_subsys. now intros -> ->. Qed.

Lemma json_parse_port_lookup_fails (s : nvme_subsystem_t)
    (port_obj attr_obj : json_object) (w : world) (r : nvme_root) :
  json_object_object_get port_obj "transport" = Some attr_obj ->
  nvme_lookup_ctrl (w_root w) s (json_object_get_string attr_obj)
    (get_string_field port_obj "traddr")
    (get_string_field port_obj "host_traddr")
    (get_string_field port_obj "host_iface")
    (get_string_field port_obj "trsvcid") = (r, None) ->
  json_parse_port s port_obj w = Ret (set_root r w).
Proof. unfold json_parse_port. now intros -> ->. Qed.

(** Not so a host: [json_parse_host] does not test what
    [nvme_lookup_host] returns.  With a NULL host, the first attribute of
    the record ends the run. *)
Lemma json_parse_host_lookup_fails (host_obj attr_obj : json_object)
    (w : world) (r : nvme_root) :
  json_object_object_get host_obj "hostnqn" = Some attr_obj ->
  nvme_lookup_host (w_root w) (json_object_get_string attr_obj)
    (get_string_field host_obj "hostid") = (r, None) ->
  is_set (json_object_object_get host_obj "dhchap_key")
  || is_set (json_object_object_get host_obj "hostsymname")
  || is_set (json_object_object_get host_obj "persistent_discovery_ctrl")
  = true ->
  json_parse_host host_obj w = Fault.
Proof.
  unfold json_parse_host. intros -> -> H.
  destruct (json_object_object_get host_obj "dhchap_key"); [reflexivity|].
  destruct (json_object_object_get host_obj "hostsymname"); [reflexivity|].
  destruct (json_object_object_get host_obj "persistent_discovery_ctrl");
    [reflexivity|discriminate].
Qed.

(** ** A record for a controller that is there *)

Lemma ctrl_at_update_ctrl (f : nvme_ctrl -> nvme_ctrl) (c : nvme_ctrl_t)
    (r : nvme_root) :
  ctrl_at (update_ctrl f c r) c = f <$> ctrl_at r c.
Proof.
  destruct c as [[i j] k].
  unfold ctrl_at, subsys_at, host_at, update_ctrl, update_subsys, update_host,
    nvme_host_t.
  simpl. rewrite list_lookup_alter_eq.
  destruct (hosts r !! i) as [hst|]; simpl; [|reflexivity].
  rewrite list_lookup_alter_eq.
  destruct (subsystems hst !! j) as [ss|]; simpl; [|reflexivity].
  apply list_lookup_alter_eq.
Qed.

(** Fill-only-if-unset, seen from the walk: when the resolver delivers the
    live controller for the record, the record leaves each of its set
    integers as it was. *)
Lemma json_parse_port_keeps_set_integers (s : nvme_subsystem_t)
    (port_obj attr_obj : json_object) (w : world) (r : nvme_root)
    (c : nvme_ctrl_t) (node : nvme_ctrl) :
  json_object_object_get port_obj "transport" = Some attr_obj ->
  nvme_lookup_ctrl (w_root w) s (json_object_get_string attr_obj)
    (get_string_field port_obj "traddr")
    (get_string_field port_obj "host_traddr")
    (get_string_field port_obj "host_iface")
    (get_string_field port_obj "trsvcid") = (r, Some c) ->
  ctrl_at r c = Some node ->
  exists w' node',
    json_parse_port s port_obj w = Ret w'
    /\ ctrl_at (w_root w') c = Some node'
    /\ set_integers_kept (cfg node) (cfg node').
Proof.
  intros Ht Hl Hc. unfold json_parse_port. rewrite Ht, Hl, Hc.
  destruct (json_update_attributes _ _ node port_obj (w_keys w))
    as [node1 ks1] eqn:E.
  eexists _, _. split; [reflexivity|]. simpl.
  rewrite ctrl_at_update_ctrl, Hc. simpl. split; [reflexivity|].
  pose proof (json_update_attributes_set_integers_kept
                (hst ← host_at r (fst (fst c)); hostnqn hst)
                (ss ← subsys_at r (fst c); subsysnqn ss)
                node port_obj (w_keys w)) as K.
  rewrite E in K. simpl in K.
  destruct (json_object_object_get port_obj "dhchap_key"),
    (json_object_object_get port_obj "dhchap_ctrl_key"); exact K.
Qed.

End ImporterFacts.

(** ** The walk gets through *)

Lemma host_at_update_host (f : nvme_host -> nvme_host) (h h' : nvme_host_t)
    (r : nvme_root) :
  is_Some (host_at r h') -> is_Some (host_at (update_host f h r) h').
Proof.
  unfold host_at, update_host, nvme_host_t. simpl. intros [x Hx].
  destruct (decide (h = h')) as [->|Hne].
  - rewrite list_lookup_alter_eq, Hx. simpl. eauto.
  - rewrite list_lookup_alter_ne, Hx by exact Hne. eauto.
Qed.

Lemma subsys_at_update_host (g : list nvme_subsystem -> list nvme_subsystem)
    (h : nvme_host_t) (s : nvme_subsystem_t) (r : nvme_root) :
  (forall l j, is_Some (l !! j) -> is_Some (g l !! j)) ->
  is_Some (subsys_at r s) ->
  is_Some (subsys_at (update_host (with_subsystems g) h r) s).
Proof.
  intros Hg. destruct s as [i j].
  unfold subsys_at, host_at, update_host, nvme_host_t. simpl.
  destruct (decide (h = i)) as [->|Hne].
  - rewrite list_lookup_alter_eq.
    destruct (hosts r !! i) as [hst|]; simpl; [apply Hg|auto].
  - now rewrite list_lookup_alter_ne by exact Hne.
Qed.

Lemma lookup_alter_is_Some {A : Type} (f : A -> A) (k : nat) (l : list A)
    (j : nat) :
  is_Some (l !! j) -> is_Some (alter f k l !! j).
Proof.
  intros [x Hx]. destruct (decide (k = j)) as [->|Hne].
  - rewrite list_lookup_alter_eq, Hx. simpl. eauto.
  - rewrite list_lookup_alter_ne, Hx by exact Hne. eauto.
Qed.

Lemma host_at_update_subsys (g : nvme_subsystem -> nvme_subsystem)
    (s : nvme_subsystem_t) (h : nvme_host_t) (r : nvme_root) :
  is_Some (host_at r h) -> is_Some (host_at (update_subsys g s r) h).
Proof. apply host_at_update_host. Qed.

Lemma subsys_at_update_subsys (g : nvme_subsystem -> nvme_subsystem)
    (s s' : nvme_subsystem_t) (r : nvme_root) :
  is_Some (subsys_at r s') -> is_Some (subsys_at (update_subsys g s r) s').
Proof.
  apply subsys_at_update_host. intros l j. apply lookup_alter_is_Some.
Qed.

(** A loop gets through when each turn does and keeps what the next turn
    needs. *)
Lemma for_each_total {A S : Type} (I : S -> Prop) (P : A -> Prop)
    (body : A -> S -> outcome S) (l : list A) :
  (forall x s, P x -> I s -> exists s', body x s = Ret s' /\ I s') ->
  Forall P l ->
  forall s, I s -> exists s', for_each body l s = Ret s' /\ I s'.
Proof.
  intros Hbody Hl. induction Hl as [|x l Hx _ IH]; intros s Hs; simpl.
  - eauto.
  - destruct (Hbody x s Hx Hs) as (s1 & -> & Hs1). simpl. now apply IH.
Qed.

Section WalkTotal.
Context {JC : JsonC} {FB : Fabrics} {SS : SecretStore} {RS : Resolver}
        {PX : Posix}.
Hypothesis sound : resolver_sound RS.

Lemma json_parse_port_total (s : nvme_subsystem_t) (h : nvme_host_t)
    (port_obj : json_object) (w : world) :
  is_Some (subsys_at (w_root w) s) /\ is_Some (host_at (w_root w) h) ->
  exists w', json_parse_port s port_obj w = Ret w'
    /\ is_Some (subsys_at (w_root w') s) /\ is_Some (host_at (w_root w') h).
Proof.
  intros [Hs Hh]. unfold json_parse_port.
  destruct (json_object_object_get port_obj "transport") as [attr_obj|];
    [|eauto].
  destruct (nvme_lookup_ctrl _ _ _ _ _ _ _) as [r c] eqn:El.
  destruct (lookup_ctrl_sound sound _ _ _ _ _ _ _ _ _ El) as (Kh & Ks & Kc).
  destruct c as [c|]; [|eexists; split; [reflexivity|]; simpl; auto].
  destruct (Kc c eq_refl) as [node ->].
  destruct (json_update_attributes _ _ node port_obj (w_keys w)) as [n1 ks1].
  eexists. split; [reflexivity|]. simpl. split.
  - apply subsys_at_update_subsys. auto.
  - apply host_at_update_subsys. auto.
Qed.

Lemma json_parse_subsys_total (h : nvme_host_t) (subsys_obj : json_object)
    (w : world) :
  shaped_subsys subsys_obj = true ->
  is_Some (host_at (w_root w) h) ->
  exists w', json_parse_subsys (Some h) subsys_obj w = Ret w'
    /\ is_Some (host_at (w_root w') h).
Proof.
  intros Hshape Hh. unfold json_parse_subsys.
  destruct (json_object_object_get subsys_obj "nqn") as [nqn_obj|]; [|eauto].
  destruct (lookup_subsystem_sound sound (w_root w) h
              (json_object_get_string nqn_obj) Hh) as (r & s & -> & Kh & Ks).
  simpl. destruct s as [s|]; [|eexists; split; [reflexivity|]; simpl; auto].
  assert (Happ : exists w1,
    match json_object_object_get subsys_obj "application" with
    | Some app_obj =>
        on_root (nvme_subsystem_set_application s
                   (json_object_get_string app_obj)) (set_root r w)
    | None => Ret (set_root r w)
    end = Ret w1
    /\ is_Some (subsys_at (w_root w1) s) /\ is_Some (host_at (w_root w1) h)).
  { destruct (json_object_object_get subsys_obj "application").
    - unfold on_root, nvme_subsystem_set_application. simpl.
      destruct (Ks s eq_refl) as [ss ->]. simpl.
      eexists. split; [reflexivity|]. simpl. split.
      + apply subsys_at_update_subsys. apply Ks. reflexivity.
      + apply host_at_update_subsys. auto.
    - eexists. split; [reflexivity|]. simpl. auto. }
  destruct Happ as (w1 & -> & Hs1 & Hh1). simpl.
  unfold shaped_subsys in Hshape.
  destruct (json_object_object_get subsys_obj "ports") as [port_array|];
    [|eauto].
  destruct port_array; try discriminate.
  unfold array_for_each. simpl.
  destruct (for_each_total
              (fun w => is_Some (subsys_at (w_root w) s)
                        /\ is_Some (host_at (w_root w) h))
              (fun _ => True)
              (fun o w => if is_null o then Ret w else json_parse_port s o w)
              elems) with (s := w1) as (w2 & -> & _ & Hh2); eauto.
  - intros o w0 _ Hw0. destruct (is_null o); [eauto|].
    now apply json_parse_port_total.
  - now apply List.Forall_forall.
Qed.


Lemma on_root_host_store (f : nvme_host -> nvme_host) (h : nvme_host_t)
    (w : world) :
  is_Some (host_at (w_root w) h) ->
  exists w', on_root (host_store f (Some h)) w = Ret w'
    /\ is_Some (host_at (w_root w') h).
Proof.
  intros Hh. unfold on_root, host_store.
  destruct Hh as [hst Hh]. rewrite Hh. simpl.
  eexists. split; [reflexivity|]. simpl.
  apply host_at_update_host. rewrite Hh. eauto.
Qed.

Lemma on_root_and_keys_set_dhchap_key (h : nvme_host_t)
    (key : option string) (w : world) :
  is_Some (host_at (w_root w) h) ->
  exists w',
    on_root_and_keys (nvme_host_set_dhchap_key (Some h) key) w = Ret w'
    /\ is_Some (host_at (w_root w') h).
Proof.
  intros Hh. unfold on_root_and_keys, nvme_host_set_dhchap_key, host_store.
  destruct Hh as [hst Hh]. rewrite Hh. simpl.
  eexists. split; [reflexivity|]. simpl.
  apply host_at_update_host. rewrite Hh. eauto.
Qed.

Lemma json_object_object_get_string (obj : json_object) (key : string)
    (v : json_object) :
  json_object_object_get obj key = Some v ->
  exists str, json_object_get_string v = Some str.
Proof.
  destruct obj; simpl; try discriminate.
  destruct (lh_table_lookup fields key) as [x|]; [|discriminate].
  destruct x; simpl; try discriminate; intros [= <-]; simpl; eauto.
Qed.

Lemma json_parse_host_total (host_obj : json_object) (w : world) :
  shaped_host host_obj = true ->
  exists w', json_parse_host host_obj w = Ret w'.
Proof.
  intros Hshape. unfold json_parse_host.
  destruct (json_object_object_get host_obj "hostnqn") as [attr_obj|] eqn:Ea;
    [|eauto].
  destruct (json_object_object_get_string _ _ _ Ea) as [nqn ->].
  destruct (lookup_host_sound sound (w_root w) nqn
              (get_string_field host_obj "hostid")) as (r & h & -> & Hh).
  assert (H0 : is_Some (host_at (w_root (set_root r w)) h)) by exact Hh.
  revert H0. generalize (set_root r w). clear w Hh. intros w Hh.
  assert (H1 : exists w1,
    match json_object_object_get host_obj "dhchap_key" with
    | Some attr_obj =>
        on_root_and_keys (nvme_host_set_dhchap_key (Some h)
                            (json_object_get_string attr_obj)) w
    | None => Ret w
    end = Ret w1 /\ is_Some (host_at (w_root w1) h)).
  { destruct (json_object_object_get host_obj "dhchap_key");
      [apply on_root_and_keys_set_dhchap_key; exact Hh|eauto]. }
  destruct H1 as (w1 & -> & Hh1). simpl.
  assert (H2 : exists w2,
    match json_object_object_get host_obj "hostsymname" with
    | Some attr_obj =>
        on_root (nvme_host_set_hostsymname (Some h)
                   (json_object_get_string attr_obj)) w1
    | None => Ret w1
    end = Ret w2 /\ is_Some (host_at (w_root w2) h)).
  { destruct (json_object_object_get host_obj "hostsymname");
      [apply on_root_host_store; exact Hh1|eauto]. }
  destruct H2 as (w2 & -> & Hh2). simpl.
  assert (H3 : exists w3,
    match json_object_object_get host_obj "persistent_discovery_ctrl" with
    | Some attr_obj =>
        on_root (nvme_host_set_pdc_enabled (Some h)
                   (json_object_get_boolean attr_obj)) w2
    | None => Ret w2
    end = Ret w3 /\ is_Some (host_at (w_root w3) h)).
  { destruct (json_object_object_get host_obj "persistent_discovery_ctrl");
      [apply on_root_host_store; exact Hh2|eauto]. }
  destruct H3 as (w3 & -> & Hh3). simpl.
  unfold shaped_host in Hshape.
  destruct (json_object_object_get host_obj "subsystems") as [subsys_array|];
    [|eauto].
  destruct subsys_array; try discriminate.
  unfold array_for_each. simpl.
  destruct (for_each_total
              (fun w => is_Some (host_at (w_root w) h))
              (fun o => shaped_subsys o = true)
              (fun o w => if is_null o then Ret w
                          else json_parse_subsys (Some h) o w)
              elems) with (s := w3) as (w4 & -> & _); eauto.
  - intros o w0 Ho Hw0. destruct (is_null o); [eauto|].
    now apply json_parse_subsys_total.
  - apply List.Forall_forall. intros o Ho.
    now apply (proj1 (forallb_forall _ _) Hshape).
Qed.

(** A document whose arrays are arrays is walked to the end. *)
Lemma json_parse_hosts_total (elems : list json_object) (w : world) :
  forallb shaped_host elems = true ->
  exists w', array_for_each json_parse_host (json_array elems) w = Ret w'.
Proof.
  intros Hshape. unfold array_for_each. simpl.
  destruct (for_each_total (fun _ => True) (fun o => shaped_host o = true)
              (fun o w => if is_null o then Ret w else json_parse_host o w)
              elems) with (s := w) as (w' & -> & _); eauto.
  - intros o w0 Ho _. destruct (is_null o); [eauto|].
    destruct (json_parse_host_total o w0 Ho) as [w1 ->]. eauto.
  - apply List.Forall_forall. intros o Ho.
    now apply (proj1 (forallb_forall _ _) Hshape).
Qed.

End WalkTotal.


(** ** json_read_config *)

Section ReadConfig.
Context {JC : JsonC} {FB : Fabrics} {SS : SecretStore} {RS : Resolver}
        {PX : Posix}.

Lemma parse_json_from_tokener (fd : file) (j : json_object) :
  parse_json fd = Some j -> exists str, json_tokener_parse_ex str = Some j.
Proof.
  unfold parse_json.
  destruct (read_all _ _ _) as [[ret str]|]; [|discriminate].
  destruct (_ || _); [discriminate|].
  destruct (negb _); [discriminate|]. eauto.
Qed.

Lemma parse_json_strict (fd : file) (ret : Z) (str : string) :
  read_all (f_reads fd) (f_read_error fd) "" = Some (ret, str) ->
  json_tokener_parse_ex str = None ->
  parse_json fd = None.
Proof.
  unfold parse_json. intros -> H.
  destruct (_ || _); [reflexivity|].
  destruct (negb _); [reflexivity|exact H].
Qed.


End ReadConfig.

(** * The code at work *)

Import Demo.

(** ** The resolvers of the small system are sound *)

Lemma find_index_is_Some {A : Type} (p : A -> bool) (l : list A) (i : nat) :
  find_index p l = Some i -> is_Some (l !! i).
Proof.
  revert i. induction l as [|x l IH]; intros i; simpl; [discriminate|].
  destruct (p x).
  - intros [= <-]. simpl. eauto.
  - destruct (find_index p l) as [j|]; [|discriminate].
    intros [= <-]. simpl. now apply IH.
Qed.

Lemma lookup_snoc {A : Type} (l : list A) (x : A) :
  (l ++ [x]) !! length l = Some x.
Proof. induction l; simpl; auto. Qed.

Lemma subsys_at_update_subsys_eq (g : nvme_subsystem -> nvme_subsystem)
    (s : nvme_subsystem_t) (r : nvme_root) :
  subsys_at (update_subsys g s r) s = g <$> subsys_at r s.
Proof.
  destruct s as [i j].
  unfold subsys_at, host_at, update_subsys, update_host, nvme_host_t. simpl.
  rewrite list_lookup_alter_eq.
  destruct (hosts r !! i) as [hst|]; simpl; [|reflexivity].
  apply list_lookup_alter_eq.
Qed.

Lemma demo_lookup_host_sound (r : nvme_root) (nqn : string)
    (id : option string) :
  exists r' h, lookup_host r (Some nqn) id = (r', Some h)
               /\ is_Some (host_at r' h).
Proof.
  unfold lookup_host.
  destruct (find_index _ (hosts r)) as [i|] eqn:E.
  - eexists _, _. split; [reflexivity|]. now apply find_index_is_Some in E.
  - eexists _, _. split; [reflexivity|].
    unfold host_at. simpl. rewrite lookup_snoc. eauto.
Qed.

Lemma demo_lookup_subsystem_sound (r : nvme_root) (h : nvme_host_t)
    (nqn : option string) :
  is_Some (host_at r h) ->
  exists r' s,
    lookup_subsystem r (Some h) None nqn = Ret (r', s)
    /\ (forall h', is_Some (host_at r h') -> is_Some (host_at r' h'))
    /\ (forall s0, s = Some s0 -> is_Some (subsys_at r' s0)).
Proof.
  intros [hst Hh]. unfold lookup_subsystem. rewrite Hh.
  destruct (find_index _ (subsystems hst)) as [i|] eqn:E.
  - eexists _, _. split; [reflexivity|]. split; [auto|].
    intros s0 [= <-]. unfold subsys_at. simpl. rewrite Hh. simpl.
    now apply find_index_is_Some in E.
  - eexists _, _. split; [reflexivity|]. split.
    + intros h'. apply host_at_update_host.
    + intros s0 [= <-].
      unfold subsys_at, host_at, update_host, nvme_host_t in *. simpl.
      rewrite list_lookup_alter_eq, Hh. simpl. rewrite lookup_snoc. eauto.
Qed.

Lemma demo_lookup_ctrl_sound (r : nvme_root) (s : nvme_subsystem_t)
    (tr ta hta hif ts : option string) (r' : nvme_root)
    (c : option nvme_ctrl_t) :
  lookup_ctrl r s tr ta hta hif ts = (r', c) ->
  (forall h, is_Some (host_at r h) -> is_Some (host_at r' h))
  /\ (forall s', is_Some (subsys_at r s') -> is_Some (subsys_at r' s'))
  /\ (forall c0, c = Some c0 -> is_Some (ctrl_at r' c0)).
Proof.
  unfold lookup_ctrl.
  destruct tr as [tr|]; [|intros [= <- <-]; repeat split; auto; discriminate].
  destruct (subsys_at r s) as [ss|] eqn:Es;
    [|intros [= <- <-]; repeat split; auto; discriminate].
  destruct (_ && _); [intros [= <- <-]; repeat split; auto; discriminate|].
  destruct (find_index _ (ctrls ss)) as [i|] eqn:E; intros [= <- <-].
  - repeat split; auto. intros c0 [= <-].
    unfold ctrl_at. simpl. rewrite Es. simpl.
    now apply find_index_is_Some in E.
  - split; [|split].
    + intros h. apply host_at_update_subsys.
    + intros s'. apply subsys_at_update_subsys.
    + intros c0 [= <-]. unfold ctrl_at. simpl.
      rewrite subsys_at_update_subsys_eq, Es. simpl.
      rewrite lookup_snoc. eauto.
Qed.

Lemma demo_resolver_sound : resolver_sound resolver.
Proof.
  constructor.
  - exact demo_lookup_host_sound.
  - exact demo_lookup_subsystem_sound.
  - exact demo_lookup_ctrl_sound.
Qed.


Example import_then_export :
  (w ← (r ← json_read_config empty_world "/etc/nvme/config.json"; Ret (snd r));
   json_update_config_root (w_keys w) (w_root w))
  = Ret [json_obj
           [("hostnqn", json_string host1_nqn);
            ("hostsymname", json_string "alpha");
            ("subsystems",
             json_array
               [json_obj
                  [("nqn", json_string subsys1_nqn);
                   ("ports",
                    json_array
                      [json_obj
                         [("transport", json_string "tcp");
                          ("traddr", json_string "192.168.1.10");
                          ("trsvcid", json_string "4420");
                          ("queue_size", json_int 128);
                          ("tls", json_boolean true);
                          ("persistent", json_boolean true);
                          ("keyring", json_string ".nvme");
                          ("tls_key",
                           json_string "NVMeTLSkey-1:01:c2VjcmV0")]])]])]].
Proof. vm_compute. reflexivity. Qed.

(** Three subsystem records, the second without "nqn": the first and the
    third are imported, the second is passed over. *)
Example partial_failure_isolation :
  (r ← json_read_config empty_world "/etc/nvme/config.json";
   Ret (fst r, map (fun h => map subsysnqn (subsystems h))
                 (hosts (w_root (snd r)))))
  = Ret (0, [[Some subsys1_nqn; Some subsys3_nqn]]).
Proof. vm_compute. reflexivity. Qed.

(** C1, as the code has it: the tests on "ctrl_loss_tmo" and "tos" are
    the wrong way round.  A controller whose [tos] and [ctrl_loss_tmo] are
    at their sentinels (-1 and NVMF_DEF_CTRL_LOSS_TMO) keeps the sentinels
    when the record supplies 4 and 30; a controller whose live values are 8
    and 100 has them overwritten with 4 and 30. *)
Theorem json_update_attributes_tos_ctrl_loss_tmo_inverted :
  let doc := json_obj [("ctrl_loss_tmo", json_int 30); ("tos", json_int 4)] in
  let unset := tcp_ctrl in
  let live := with_cfg (fun c => set_tos 8 (set_ctrl_loss_tmo 100 c)) tcp_ctrl in
  let after c :=
    cfg (fst (json_update_attributes (Some host1_nqn) (Some subsys1_nqn)
                c doc [])) in
  (tos (cfg unset) = -1 /\ ctrl_loss_tmo (cfg unset) = NVMF_DEF_CTRL_LOSS_TMO)
  /\ (tos (after unset) = -1 /\ ctrl_loss_tmo (after unset) = 600)
  /\ (tos (cfg live) = 8 /\ ctrl_loss_tmo (cfg live) = 100)
  /\ (tos (after live) = 4 /\ ctrl_loss_tmo (after live) = 30).
Proof. vm_compute. repeat split. Qed.

(** C2, as the code has it: [json_update_port] has the test on "loop" but
    not the test on "tcp" that [json_dump_ctrl] has.  For an "rdma"
    controller with the TLS flag and a TLS key, the config export writes
    "tls" and "tls_key"; the dump writes neither. *)
Theorem json_update_port_emits_tls_off_tcp :
  transport rdma_ctrl <> "tcp"
  /\ json_update_port one_key [] rdma_ctrl
     = [json_obj
          [("transport", json_string "rdma");
           ("traddr", json_string "192.168.1.11");
           ("trsvcid", json_string "4420");
           ("tls", json_boolean true);
           ("keyring", json_string ".nvme");
           ("tls_key", json_string "NVMeTLSkey-1:01:c2VjcmV0")]]
  /\ json_dump_ctrl one_key [] rdma_ctrl
     = [json_obj
          [("transport", json_string "rdma");
           ("traddr", json_string "192.168.1.11");
           ("trsvcid", json_string "4420")]].
Proof. split; [discriminate|]. vm_compute. split; reflexivity. Qed.

(** C3, as the code has it: [json_parse_host] goes on with the host
    [nvme_lookup_host] returned without testing it, where
    [json_parse_subsys] and [json_parse_port] test and return.  When no host
    can be created, the record is not passed over: its "hostsymname" is
    stored through the NULL host and the load ends there. *)
Theorem json_read_config_host_lookup_unchecked :
  @nvme_lookup_host resolver_enomem (w_root empty_world) (Some host1_nqn) None
  = (w_root empty_world, None)
  /\ @json_read_config json fabrics store resolver_enomem posix
       empty_world "/etc/nvme/config.json" = Fault
  /\ @json_parse_subsys json fabrics store resolver_enomem None
       (json_obj [("nqn", json_string subsys1_nqn)]) empty_world = Fault.
Proof. vm_compute. repeat split. Qed.

(** ** The theorems at concrete inputs *)

Lemma json_update_attributes_keeps_set_integers_witness :
  let c := with_cfg (set_queue_size 64) tcp_ctrl in
  let doc := json_obj [("queue_size", json_int 128)] in
  queue_size (cfg c) <> 0
  /\ queue_size (cfg (fst (json_update_attributes (Some host1_nqn)
                             (Some subsys1_nqn) c doc []))) = 64.
Proof.
  cbv zeta.
  assert (H : queue_size (cfg (with_cfg (set_queue_size 64) tcp_ctrl)) <> 0)
    by (vm_compute; discriminate).
  split; [exact H|].
  exact (proj1 (proj2 (proj2 (proj2
           (json_update_attributes_keeps_set_integers
              (Some host1_nqn) (Some subsys1_nqn)
              (with_cfg (set_queue_size 64) tcp_ctrl)
              (json_obj [("queue_size", json_int 128)]) []
              _ _ (surjective_pairing _))))) H).
Defined.

Lemma json_update_attributes_field_order_witness :
  let fields := json_object_get_object port_doc in
  List.NoDup (map fst fields)
  /\ Permutation fields (rev fields)
  /\ json_update_attributes (Some host1_nqn) (Some subsys1_nqn) tcp_ctrl
       (json_obj fields) []
     = json_update_attributes (Some host1_nqn) (Some subsys1_nqn) tcp_ctrl
         (json_obj (rev fields)) []
  /\ tls_key (cfg (fst (json_update_attributes (Some host1_nqn)
                          (Some subsys1_nqn) tcp_ctrl (json_obj fields) [])))
     = 1000.
Proof.
  cbv zeta.
  assert (Hnd : List.NoDup (map fst (json_object_get_object port_doc))).
  { simpl. repeat constructor; simpl; intuition discriminate. }
  split; [exact Hnd|]. split; [apply Permutation_rev|].
  split; [|vm_compute; reflexivity].
  exact (proj1 (json_update_attributes_field_order
                  (Some host1_nqn) (Some subsys1_nqn) tcp_ctrl
                  (json_object_get_object port_doc)
                  (rev (json_object_get_object port_doc)) []
                  Hnd (Permutation_rev _))).
Defined.

Lemma json_update_config_persisted_witness :
  all_named export_root = true
  /\ json_update_config_root [] export_root
     = Ret (persisted_config [] export_root)
  /\ persisted_config [] export_root
     = [json_obj
          [("hostnqn", json_string host1_nqn);
           ("subsystems",
            json_array
              [json_obj
                 [("nqn", json_string subsys1_nqn);
                  ("ports",
                   json_array
                     [json_obj
                        [("transport", json_string "tcp");
                         ("traddr", json_string "192.168.1.10");
                         ("trsvcid", json_string "4420")]])]])]].
Proof.
  split; [reflexivity|].
  split; [|vm_compute; reflexivity].
  exact (proj1 (json_update_config_persisted [] export_root eq_refl)).
Defined.

(** C7, as stated, fails on "loop": the controller has [fast_io_fail_tmo]
    5 and [ctrl_loss_tmo] 100, neither at its sentinel, and the record
    [json_update_port] emits has neither key. *)
Lemma json_update_port_integer_not_emitted_on_loop :
  let r := port_record [] loop_ctrl in
  json_update_port [] [] loop_ctrl = [json_obj r]
  /\ ~ (lh_table_lookup r "fast_io_fail_tmo" <> None
        <-> fast_io_fail_tmo (cfg loop_ctrl) <> 0)
  /\ ~ (lh_table_lookup r "ctrl_loss_tmo" <> None
        <-> ctrl_loss_tmo (cfg loop_ctrl) <> NVMF_DEF_CTRL_LOSS_TMO).
Proof.
  cbv zeta. split; [reflexivity|].
  split; intros [_ H]; apply H; [discriminate|reflexivity|discriminate|reflexivity].
Qed.

Lemma json_update_port_integer_emitted_iff_set_witness :
  let c := with_cfg (set_tos 0) tcp_ctrl in
  (transport c <> "pcie" /\ transport loop_ctrl <> "pcie")
  /\ lh_table_lookup (port_record [] c) "tos" = Some (json_int 0)
  /\ lh_table_lookup (port_record [] tcp_ctrl) "tos" = None
  /\ lh_table_lookup (port_record [] loop_ctrl) "fast_io_fail_tmo" = None.
Proof.
  cbv zeta.
  assert (H : transport (with_cfg (set_tos 0) tcp_ctrl) <> "pcie")
    by discriminate.
  assert (H' : transport tcp_ctrl <> "pcie") by discriminate.
  assert (H'' : transport loop_ctrl <> "pcie") by discriminate.
  split; [split; assumption|]. split; [|split].
  - exact (proj1 (proj2 (proj2
             (json_update_port_integer_emitted_iff_set [] []
                (with_cfg (set_tos 0) tcp_ctrl) H))) eq_refl).
  - exact (proj1 (proj2
             (json_update_port_integer_emitted_iff_set [] [] tcp_ctrl H'))
             eq_refl).
  - destruct (@json_update_port_integer_emitted_iff_set fabrics store
                [] [] loop_ctrl H'')
      as (_ & _ & _ & _ & _ & _ & _ & _ & _ & _ & _ & _ & Hloop).
    exact (proj2 (Hloop eq_refl)).
Defined.

Lemma json_import_nvme_tls_key_all_or_nothing_witness :
  let good := "NVMeTLSkey-1:01:c2VjcmV0" in
  let empty := "NVMeTLSkey-1:" in
  let after hn enc :=
    fst (json_import_nvme_tls_key hn (Some subsys1_nqn) tcp_ctrl
           (Some ".nvme") enc []) in
  (tls_key (cfg (after (Some host1_nqn) good)) = 1000
   /\ tls (cfg (after (Some host1_nqn) good)) = true)
  /\ after None good = tcp_ctrl
  /\ after (Some host1_nqn) "garbage" = tcp_ctrl
  /\ after (Some host1_nqn) empty = tcp_ctrl.
Proof.
  cbv zeta. split; [split|split; [|split]].
  - exact (proj1 (proj1 (json_import_nvme_tls_key_all_or_nothing
             (Some host1_nqn) (Some subsys1_nqn) tcp_ctrl (Some ".nvme")
             "NVMeTLSkey-1:01:c2VjcmV0" [])
             host1_nqn subsys1_nqn (list_byte_of_string "01:c2VjcmV0") 11 1
             [(1000, list_byte_of_string "01:c2VjcmV0")] 1000
             eq_refl eq_refl eq_refl eq_refl eq_refl)).
  - exact (proj1 (proj2 (proj1 (json_import_nvme_tls_key_all_or_nothing
             (Some host1_nqn) (Some subsys1_nqn) tcp_ctrl (Some ".nvme")
             "NVMeTLSkey-1:01:c2VjcmV0" [])
             host1_nqn subsys1_nqn (list_byte_of_string "01:c2VjcmV0") 11 1
             [(1000, list_byte_of_string "01:c2VjcmV0")] 1000
             eq_refl eq_refl eq_refl eq_refl eq_refl))).
  - exact (proj1 (proj2 (json_import_nvme_tls_key_all_or_nothing
             None (Some subsys1_nqn) tcp_ctrl (Some ".nvme")
             "NVMeTLSkey-1:01:c2VjcmV0" [])) (or_introl eq_refl)).
  - exact (proj1 (proj2 (proj2 (json_import_nvme_tls_key_all_or_nothing
             (Some host1_nqn) (Some subsys1_nqn) tcp_ctrl (Some ".nvme")
             "garbage" []))) eq_refl).
  - exact (proj2 (proj2 (proj2 (json_import_nvme_tls_key_all_or_nothing
             (Some host1_nqn) (Some subsys1_nqn) tcp_ctrl (Some ".nvme")
             "NVMeTLSkey-1:" [])))
             host1_nqn subsys1_nqn [] 0 1 [] (-1)
             eq_refl eq_refl eq_refl eq_refl ltac:(lia)).
Defined.



Lemma json_update_attributes_flag_by_presence_witness :
  persistent tcp_ctrl = false
  /\ persistent (fst (json_update_attributes (Some host1_nqn)
                        (Some subsys1_nqn) tcp_ctrl
                        (json_obj [("persistent", json_boolean false)]) []))
     = true.
Proof.
  split; [reflexivity|].
  exact (proj1 (json_update_attributes_flag_by_presence
                  (Some host1_nqn) (Some subsys1_nqn) tcp_ctrl [] []
                  (json_boolean false) (json_boolean false) [])).
Defined.

(** * Further properties *)

(** ** Import: what a record can and cannot do to a controller *)

(** Run a row of the table on an opened state, test by test. *)
Ltac run_rows :=
  unfold apply_attribute, update_keyring, update_tls_key;
  rewrite ?strcmp_eqb;
  cbv - [Z.eqb json_object_get_int json_object_get_boolean
         json_object_get_string nvme_lookup_keyring nvme_set_keyring
         NVMF_DEF_CTRL_LOSS_TMO];
  repeat (inner_if; cbv beta iota).

Section ImportMore.
Context {JC : JsonC} {FB : Fabrics} {SS : SecretStore}.

Lemma scan_attributes_unknown (fields : list (string * json_object))
    (st : scan) :
  (forall k v, In (k, v) fields -> attribute_of_key k = None) ->
  scan_attributes fields st = st.
Proof.
  revert st. induction fields as [|[k v] l IH]; intros st H; [reflexivity|].
  rewrite scan_attributes_cons, (update_attribute_other k v st).
  - apply IH. intros k' v' Hin. apply (H k' v'). now right.
  - apply (H k v). now left.
Qed.

(** X1: a record none of whose keys is one of the nineteen attribute names
    leaves the controller and the keyrings as they were.  The fields that
    name the controller and the two DH-CHAP keys are such keys:
    [json_update_attributes] passes over them. *)
Theorem json_update_attributes_unknown_keys
    (hn sn : option string) (c : nvme_ctrl)
    (fields : list (string * json_object)) (ks : keystore) :
  (forall k v, In (k, v) fields -> attribute_of_key k = None) ->
  json_update_attributes hn sn c (json_obj fields) ks = (c, ks)
  /\ Forall (fun k => attribute_of_key k = None)
       ["transport"; "traddr"; "host_traddr"; "host_iface"; "trsvcid";
        "dhchap_key"; "dhchap_ctrl_key"].
Proof.
  intros H. split.
  - unfold json_update_attributes. simpl json_object_get_object.
    now rewrite (scan_attributes_unknown fields _ H).
  - repeat constructor.
Qed.

Lemma same_identity_refl (c : nvme_ctrl) : same_identity c c.
Proof. unfold same_identity. tauto. Qed.

Lemma same_identity_trans (a b c : nvme_ctrl) :
  same_identity a b -> same_identity b c -> same_identity a c.
Proof. unfold same_identity. intuition congruence. Qed.

Lemma apply_attribute_same_identity (a : attribute) (v : json_object)
    (st : scan) :
  same_identity (sc_ctrl st) (sc_ctrl (apply_attribute a v st)).
Proof.
  open_scan st.
  destruct a; unfold_rows; simpl; split_ifs; simpl;
    unfold same_identity; simpl; tauto.
Qed.

Lemma scan_attributes_same_identity (l : list (string * json_object))
    (st : scan) :
  same_identity (sc_ctrl st) (sc_ctrl (scan_attributes l st)).
Proof.
  revert l st.
  apply (scan_attributes_ind
           (fun a b => same_identity (sc_ctrl a) (sc_ctrl b))).
  - intros. apply same_identity_refl.
  - intros *. apply same_identity_trans.
  - intros k v st. rewrite update_attribute_dispatch.
    destruct (attribute_of_key k);
      [apply apply_attribute_same_identity|apply same_identity_refl].
Qed.

(** Whatever the record holds, [json_update_attributes] leaves the name,
    the transport, the four addresses and the two DH-CHAP keys of the
    controller as they were: it writes [cfg] and the two classification
    flags only. *)
Lemma json_update_attributes_identity_kept
    (hn sn : option string) (c : nvme_ctrl) (ctrl_obj : json_object)
    (ks : keystore) :
  same_identity c (fst (json_update_attributes hn sn c ctrl_obj ks)).
Proof.
  unfold json_update_attributes.
  set (st0 := {| sc_ctrl := c; sc_keys := ks;
                 keyring_str := None; encoded_key := None |}).
  pose proof (scan_attributes_same_identity
                (json_object_get_object ctrl_obj) st0) as Hscan.
  destruct (encoded_key _) as [enc|]; [|exact Hscan].
  eapply same_identity_trans; [exact Hscan|].
  destruct (json_import_nvme_tls_key_cfg hn sn
              (sc_ctrl (scan_attributes (json_object_get_object ctrl_obj) st0))
              (keyring_str (scan_attributes (json_object_get_object ctrl_obj) st0))
              enc
              (sc_keys (scan_attributes (json_object_get_object ctrl_obj) st0)))
    as [->|(id & _ & ->)].
  - apply same_identity_refl.
  - unfold same_identity. simpl. tauto.
Qed.

(** ** Import: the keyrings *)

Lemma apply_attribute_keyed (a : attribute) (v : json_object) (st : scan) :
  keyring (sc_cfg st) <> 0 -> tls_key (sc_cfg st) <> 0 ->
  keyring (sc_cfg (apply_attribute a v st)) = keyring (sc_cfg st)
  /\ tls_key (sc_cfg (apply_attribute a v st)) = tls_key (sc_cfg st)
  /\ sc_keys (apply_attribute a v st) = sc_keys st
  /\ encoded_key (apply_attribute a v st) = encoded_key st.
Proof.
  open_scan st.
  destruct a; unfold_rows; rewrite ?strcmp_eqb; simpl; intros Hk Ht;
    split_ifs; simpl; zero_or_not; auto; contradiction.
Qed.

Lemma scan_attributes_keyed (l : list (string * json_object)) (st : scan) :
  keyring (sc_cfg st) <> 0 -> tls_key (sc_cfg st) <> 0 ->
  keyring (sc_cfg (scan_attributes l st)) = keyring (sc_cfg st)
  /\ tls_key (sc_cfg (scan_attributes l st)) = tls_key (sc_cfg st)
  /\ sc_keys (scan_attributes l st) = sc_keys st
  /\ encoded_key (scan_attributes l st) = encoded_key st.
Proof.
  revert st. induction l as [|[k v] l IH]; intros st Hk Ht; [auto|].
  rewrite scan_attributes_cons.
  assert (Hstep :
    keyring (sc_cfg (update_attribute k v st)) = keyring (sc_cfg st)
    /\ tls_key (sc_cfg (update_attribute k v st)) = tls_key (sc_cfg st)
    /\ sc_keys (update_attribute k v st) = sc_keys st
    /\ encoded_key (update_attribute k v st) = encoded_key st).
  { rewrite update_attribute_dispatch.
    destruct (attribute_of_key k); [now apply apply_attribute_keyed|auto]. }
  destruct Hstep as (A & B & C & D).
  destruct (IH (update_attribute k v st)) as (A' & B' & C' & D');
    [congruence|congruence|].
  repeat split; congruence.
Qed.

(** X2: the keyrings are touched by the "keyring" and "tls_key" fields only,
    and only for a controller that lacks them: a record with neither field
    leaves the keyrings, [cfg->keyring] and [cfg->tls_key] as they were, and
    so does any record at all for a controller that has its keyring and its
    key. *)
Theorem json_update_attributes_keyrings_untouched
    (hn sn : option string) (c : nvme_ctrl)
    (fields : list (string * json_object)) (ks : keystore) :
  (~ In "keyring" (map fst fields) /\ ~ In "tls_key" (map fst fields))
  \/ (keyring (cfg c) <> 0 /\ tls_key (cfg c) <> 0) ->
  let c' := fst (json_update_attributes hn sn c (json_obj fields) ks) in
  snd (json_update_attributes hn sn c (json_obj fields) ks) = ks
  /\ keyring (cfg c') = keyring (cfg c)
  /\ tls_key (cfg c') = tls_key (cfg c).
Proof.
  intros H. cbv zeta. unfold json_update_attributes.
  simpl json_object_get_object.
  set (st0 := {| sc_ctrl := c; sc_keys := ks;
                 keyring_str := None; encoded_key := None |}).
  assert (Hscan :
    keyring (sc_cfg (scan_attributes fields st0)) = keyring (cfg c)
    /\ tls_key (sc_cfg (scan_attributes fields st0)) = tls_key (cfg c)
    /\ sc_keys (scan_attributes fields st0) = ks
    /\ encoded_key (scan_attributes fields st0) = None).
  { destruct H as [[Hk Ht]|[Hk Ht]].
    - destruct (scan_attributes_not_keyring fields st0 Hk) as (_ & A & B).
      destruct (scan_attributes_not_tls_key fields st0 Ht) as (C & D).
      auto.
    - apply (scan_attributes_keyed fields st0); assumption. }
  destruct Hscan as (A & B & C & D). rewrite D. simpl. auto.
Qed.


(** ** Import: the same record again *)

Lemma apply_attribute_idempotent (a : attribute) (v : json_object) (st : scan) :
  apply_attribute a v (apply_attribute a v st) = apply_attribute a v st.
Proof.
  open_scan st.
  destruct a; run_rows; first [reflexivity | congruence].
Qed.

Lemma update_attribute_idempotent (k : string) (v : json_object) (st : scan) :
  update_attribute k v (update_attribute k v st) = update_attribute k v st.
Proof.
  rewrite !update_attribute_dispatch.
  destruct (attribute_of_key k); [apply apply_attribute_idempotent|reflexivity].
Qed.

(** What a turn of the loop leaves of the controller and the keyrings
    depends on the controller and the keyrings only, not on the two locals. *)
Lemma apply_attribute_locals (a : attribute) (v : json_object) (st st' : scan) :
  sc_ctrl st = sc_ctrl st' -> sc_keys st = sc_keys st' ->
  sc_ctrl (apply_attribute a v st) = sc_ctrl (apply_attribute a v st')
  /\ sc_keys (apply_attribute a v st) = sc_keys (apply_attribute a v st').
Proof.
  destruct st as [c ks kr ek], st' as [c' ks' kr' ek']. simpl.
  intros <- <-. destruct c as [? ? ? ? ? ? ? ? c ? ?]; destruct c.
  destruct a; run_rows; split; first [reflexivity | congruence].
Qed.

Lemma scan_attributes_locals (l : list (string * json_object)) (st st' : scan) :
  sc_ctrl st = sc_ctrl st' -> sc_keys st = sc_keys st' ->
  sc_ctrl (scan_attributes l st) = sc_ctrl (scan_attributes l st')
  /\ sc_keys (scan_attributes l st) = sc_keys (scan_attributes l st').
Proof.
  revert st st'. induction l as [|[k v] l IH]; intros st st' Hc Hk; [auto|].
  rewrite !scan_attributes_cons. apply IH.
  - rewrite !update_attribute_dispatch.
    destruct (attribute_of_key k); [|exact Hc].
    now apply apply_attribute_locals.
  - rewrite !update_attribute_dispatch.
    destruct (attribute_of_key k); [|exact Hk].
    now apply apply_attribute_locals.
Qed.

Lemma scan_attributes_step_comm (k : string) (v : json_object)
    (l : list (string * json_object)) (st : scan) :
  ~ In k (map fst l) ->
  update_attribute k v (scan_attributes l st)
  = scan_attributes l (update_attribute k v st).
Proof.
  revert st. induction l as [|[k' v'] l IH]; intros st Hn; [reflexivity|].
  rewrite !scan_attributes_cons, IH.
  - f_equal. apply update_attribute_comm. intros ->. apply Hn. now left.
  - intros H. apply Hn. now right.
Qed.

Lemma scan_attributes_idempotent (l : list (string * json_object)) (st : scan) :
  List.NoDup (map fst l) ->
  scan_attributes l (scan_attributes l st) = scan_attributes l st.
Proof.
  revert st. induction l as [|[k v] l IH]; intros st Hnd; [reflexivity|].
  inversion Hnd as [|? ? Hn Hnd']; subst.
  rewrite !scan_attributes_cons.
  rewrite (scan_attributes_step_comm k v l _ Hn).
  rewrite update_attribute_idempotent. now apply IH.
Qed.

(** X3: importing a record a second time changes nothing: for a record with
    each key once and no "tls_key", [json_update_attributes] on the
    controller and keyrings it left gives them back. *)
Theorem json_update_attributes_idempotent
    (hn sn : option string) (c : nvme_ctrl)
    (fields : list (string * json_object)) (ks : keystore)
    (c' : nvme_ctrl) (ks' : keystore) :
  List.NoDup (map fst fields) ->
  ~ In "tls_key" (map fst fields) ->
  json_update_attributes hn sn c (json_obj fields) ks = (c', ks') ->
  json_update_attributes hn sn c' (json_obj fields) ks' = (c', ks').
Proof.
  intros Hnd Ht. unfold json_update_attributes. simpl json_object_get_object.
  set (st0 := {| sc_ctrl := c; sc_keys := ks;
                 keyring_str := None; encoded_key := None |}).
  set (st1 := {| sc_ctrl := c'; sc_keys := ks';
                 keyring_str := None; encoded_key := None |}).
  rewrite (proj1 (scan_attributes_not_tls_key fields st0 Ht)),
    (proj1 (scan_attributes_not_tls_key fields st1 Ht)). simpl.
  intros [= Hc Hk].
  destruct (scan_attributes_locals fields st1 (scan_attributes fields st0))
    as [A B]; [now rewrite Hc|now rewrite Hk|].
  rewrite A, B, (scan_attributes_idempotent fields st0 Hnd).
  now rewrite Hc, Hk.
Qed.

End ImportMore.

(** ** Export: the records *)

Lemma lh_table_lookup_In (obj : list (string * json_object)) (k : string)
    (v : json_object) :
  lh_table_lookup obj k = Some v -> In (k, v) obj.
Proof.
  induction obj as [|[k0 v0] obj IH]; simpl; [discriminate|].
  destruct (String.eqb_spec k0 k) as [->|].
  - intros [= ->]. now left.
  - intros H. right. now apply IH.
Qed.

Lemma lh_table_lookup_None (obj : list (string * json_object)) (k : string) :
  lh_table_lookup obj k = None -> ~ In k (map fst obj).
Proof.
  induction obj as [|[k0 v0] obj IH]; simpl; [tauto|].
  destruct (String.eqb_spec k0 k) as [->|Hne]; [discriminate|].
  intros H [Heq|Hin]; [contradiction|]. now apply IH.
Qed.

Lemma json_object_object_add_keys (obj : list (string * json_object))
    (k : string) (v : json_object) :
  map fst (json_object_object_add obj k v)
  = match lh_table_lookup obj k with
    | Some _ => map fst obj
    | None => map fst obj ++ [k]
    end.
Proof.
  unfold json_object_object_add.
  induction obj as [|[k0 v0] obj IH]; simpl; [reflexivity|].
  destruct (String.eqb_spec k0 k) as [->|Hne]; simpl; [reflexivity|].
  rewrite IH. now destruct (lh_table_lookup obj k).
Qed.

Lemma NoDup_snoc {A : Type} (l : list A) (x : A) :
  List.NoDup l -> ~ In x l -> List.NoDup (l ++ [x]).
Proof.
  induction 1 as [|y l Hy Hl IH]; intros Hx; simpl.
  - constructor; [tauto|constructor].
  - constructor.
    + rewrite in_app_iff. simpl. intros [H|[H|[]]]; [tauto|].
      apply Hx. now left.
    + apply IH. intros H. apply Hx. now right.
Qed.

(** An object keeps holding each key once when a field is added. *)
Lemma json_object_object_add_NoDup (obj : list (string * json_object))
    (k : string) (v : json_object) :
  List.NoDup (map fst obj) ->
  List.NoDup (map fst (json_object_object_add obj k v)).
Proof.
  intros H. rewrite json_object_object_add_keys.
  destruct (lh_table_lookup obj k) eqn:E; [exact H|].
  apply NoDup_snoc; [exact H|]. now apply lh_table_lookup_None.
Qed.

Section ExportMore.
Context {FB : Fabrics} {SS : SecretStore}.

Lemma add_string_if_set_NoDup (obj : list (string * json_object))
    (k : string) (val : option string) :
  List.NoDup (map fst obj) ->
  List.NoDup (map fst (add_string_if_set obj k val)).
Proof.
  destruct val; simpl; [apply json_object_object_add_NoDup|auto].
Qed.

Lemma JSON_INT_OPTION_NoDup (v : Z) (p : list (string * json_object))
    (o : string) (d : Z) :
  List.NoDup (map fst p) -> List.NoDup (map fst (JSON_INT_OPTION v p o d)).
Proof.
  unfold JSON_INT_OPTION.
  destruct (negb _); [apply json_object_object_add_NoDup|auto].
Qed.

Lemma JSON_BOOL_OPTION_NoDup (v : bool) (p : list (string * json_object))
    (o : string) :
  List.NoDup (map fst p) -> List.NoDup (map fst (JSON_BOOL_OPTION v p o)).
Proof.
  unfold JSON_BOOL_OPTION.
  destruct v; [apply json_object_object_add_NoDup|auto].
Qed.

Lemma json_export_nvme_tls_key_NoDup (ks : keystore) (kr tk : Z)
    (obj : list (string * json_object)) :
  List.NoDup (map fst obj) ->
  List.NoDup (map fst (json_export_nvme_tls_key ks kr tk obj)).
Proof.
  unfold json_export_nvme_tls_key.
  destruct (nvme_read_key ks kr tk) as [[d l]|]; [|auto].
  destruct (nvme_export_tls_key d l); [apply json_object_object_add_NoDup|auto].
Qed.

Lemma if_NoDup (b : bool) (x y : list (string * json_object)) :
  List.NoDup (map fst x) -> List.NoDup (map fst y) ->
  List.NoDup (map fst (if b then x else y)).
Proof. now destruct b. Qed.

Ltac keys_once :=
  repeat first
    [ assumption
    | apply json_export_nvme_tls_key_NoDup
    | apply JSON_INT_OPTION_NoDup
    | apply JSON_BOOL_OPTION_NoDup
    | apply add_string_if_set_NoDup
    | apply json_object_object_add_NoDup
    | apply if_NoDup
    | constructor ].

(** A record of the config export holds each key once. *)
Lemma port_record_NoDup (ks : keystore) (c : nvme_ctrl) :
  List.NoDup (map fst (port_record ks c)).
Proof.
  cbv beta delta [port_record].
  repeat match goal with
  | |- List.NoDup (map fst (let x := ?A in @?B x)) =>
      let a := fresh "obj" in
      pose (a := A); change (List.NoDup (map fst (B a))); cbv beta
  end.
  repeat match goal with
  | x := _ : list (string * json_object) |- _ =>
      lazymatch goal with
      | H : List.NoDup (map fst x) |- _ => fail
      | _ => idtac
      end;
      assert (List.NoDup (map fst x)) by (subst x; keys_once)
  end.
  keys_once.
Qed.


(** The booleans and the two flags of a port record: there, and true, when
    set; not there otherwise. *)
Lemma port_record_booleans (ks : keystore) (c : nvme_ctrl) :
  let r := port_record ks c in
  let emitted (v : bool) := if v then Some (json_boolean true) else None in
  lh_table_lookup r "duplicate_connect" = emitted (duplicate_connect (cfg c)) /\
  lh_table_lookup r "disable_sqflow" = emitted (disable_sqflow (cfg c)) /\
  lh_table_lookup r "hdr_digest" = emitted (hdr_digest (cfg c)) /\
  lh_table_lookup r "data_digest" = emitted (data_digest (cfg c)) /\
  lh_table_lookup r "tls" = emitted (tls (cfg c)) /\
  lh_table_lookup r "concat" = emitted (concat (cfg c)) /\
  lh_table_lookup r "persistent" = emitted (persistent c) /\
  lh_table_lookup r "discovery" = emitted (discovery_ctrl c).
Proof.
  cbv zeta. repeat split; lookup_record; reflexivity.
Qed.

Lemma ctrl_record_booleans (ks : keystore) (c : nvme_ctrl) :
  let r := ctrl_record ks c in
  let emitted (v : bool) := if v then Some (json_boolean true) else None in
  lh_table_lookup r "duplicate_connect" = emitted (duplicate_connect (cfg c)) /\
  lh_table_lookup r "disable_sqflow" = emitted (disable_sqflow (cfg c)) /\
  lh_table_lookup r "hdr_digest" = emitted (hdr_digest (cfg c)) /\
  lh_table_lookup r "data_digest" = emitted (data_digest (cfg c)) /\
  lh_table_lookup r "tls"
  = (if strcmp (transport c) "tcp" =? 0 then emitted (tls (cfg c)) else None) /\
  lh_table_lookup r "concat" = emitted (concat (cfg c)) /\
  lh_table_lookup r "persistent" = emitted (persistent c) /\
  lh_table_lookup r "discovery" = emitted (discovery_ctrl c).
Proof.
  cbv zeta. repeat split; lookup_record; reflexivity.
Qed.

Lemma ctrl_record_integers (ks : keystore) (c : nvme_ctrl) :
  let r := ctrl_record ks c in
  let emitted (v d : Z) := if v =? d then None else Some (json_int v) in
  let off_loop (o : option json_object) :=
    if negb (strcmp (transport c) "loop" =? 0) then o else None in
  lh_table_lookup r "nr_io_queues" = emitted (nr_io_queues (cfg c)) 0 /\
  lh_table_lookup r "nr_write_queues" = emitted (nr_write_queues (cfg c)) 0 /\
  lh_table_lookup r "nr_poll_queues" = emitted (nr_poll_queues (cfg c)) 0 /\
  lh_table_lookup r "queue_size" = emitted (queue_size (cfg c)) 0 /\
  lh_table_lookup r "keep_alive_tmo" = emitted (keep_alive_tmo (cfg c)) 0 /\
  lh_table_lookup r "reconnect_delay" = emitted (reconnect_delay (cfg c)) 0 /\
  lh_table_lookup r "ctrl_loss_tmo"
  = off_loop (emitted (ctrl_loss_tmo (cfg c)) NVMF_DEF_CTRL_LOSS_TMO) /\
  lh_table_lookup r "fast_io_fail_tmo"
  = off_loop (emitted (fast_io_fail_tmo (cfg c)) 0) /\
  lh_table_lookup r "tos" = emitted (tos (cfg c)) (-1).
Proof.
  cbv zeta. repeat split; lookup_record; reflexivity.
Qed.

Lemma lookup_string_same (obj : list (string * json_object)) (k : string)
    (val : option string) :
  lh_table_lookup (add_string_if_set obj k val) k
  = match val with
    | Some s => Some (json_string s)
    | None => lh_table_lookup obj k
    end.
Proof. now rewrite lookup_add_string_if_set, String.eqb_refl. Qed.

(** What names the controller, in a port record. *)
Lemma port_record_identity (ks : keystore) (c : nvme_ctrl) :
  let r := port_record ks c in
  lh_table_lookup r "transport" = Some (json_string (transport c)) /\
  lh_table_lookup r "traddr" = option_map json_string (traddr c) /\
  lh_table_lookup r "host_traddr" = option_map json_string (host_traddr c) /\
  lh_table_lookup r "host_iface" = option_map json_string (host_iface c) /\
  lh_table_lookup r "trsvcid" = option_map json_string (trsvcid c) /\
  lh_table_lookup r "dhchap_key" = option_map json_string (dhchap_key c) /\
  lh_table_lookup r "dhchap_ctrl_key"
  = option_map json_string (dhchap_ctrl_key c).
Proof.
  cbv zeta.
  repeat split; cbv beta delta [port_record]; open_lets;
    repeat (peel || rewrite lookup_string_same || unfold_link);
    cbn [lh_table_lookup];
    repeat match goal with x := _ |- _ => subst x end;
    unfold nvme_ctrl_get_dhchap_host_key, nvme_ctrl_get_dhchap_key;
    try reflexivity;
    match goal with |- context [match ?o with _ => _ end] => now destruct o end.
Qed.

End ExportMore.

(** ** Export, then import *)

Lemma clamp_int32_is_int (v : Z) : is_int v -> clamp_int32 v = v.
Proof.
  unfold is_int, clamp_int32, INT32_MIN, INT32_MAX. intros H.
  repeat match goal with
  | |- context [if ?b then _ else _] => destruct b eqn:?
  end; lia.
Qed.

(** One attribute of the read-back: [Hrow] reads the scan off the row of
    the attribute, [L] is the lookup in the record, [U] the value the
    receiving controller starts with. *)
Ltac read_row A L U :=
  match goal with
  | Hrow : forall a : attribute, _ |- _ =>
      let R := fresh "R" in
      pose proof (Hrow A ltac:(discriminate) ltac:(discriminate)
                    ltac:(discriminate)) as R;
      simpl in R; rewrite L in R;
      unfold fill_int, fill_bool, sc_cfg, nvme_ctrl_is_persistent,
        nvme_ctrl_is_discovery_ctrl in R;
      simpl in R; rewrite U in R; simpl in R
  end.

Ltac read_int A L U I :=
  read_row A L U;
  match goal with
  | R : context [?v =? 0] |- _ =>
      destruct (Z.eqb_spec v 0);
      simpl in R; injection R as R; rewrite R;
      [congruence | now apply clamp_int32_is_int]
  end.

Ltac read_bool A L U :=
  read_row A L U;
  match goal with
  | R : context [if ?b then _ else _] |- _ =>
      destruct b; simpl in R; injection R as R; congruence
  end.

Section RoundTrip.
Context {JC : JsonC} {FB : Fabrics} {SS : SecretStore}.

(** A row leaves what the other rows write as it was. *)
Lemma apply_attribute_frame (a b : attribute) (v : json_object) (st : scan) :
  a <> b ->
  attribute_value a (sc_ctrl (apply_attribute b v st))
  = attribute_value a (sc_ctrl st).
Proof.
  intros Hne. open_scan st.
  destruct a, b; try congruence; clear Hne;
    run_rows; reflexivity.
Qed.

(** What a row leaves of its attribute depends on that attribute only;
    the "keyring" row alone reads the keyrings as well. *)
Lemma apply_attribute_local (a : attribute) (v : json_object) (st st' : scan) :
  a <> Keyring ->
  attribute_value a (sc_ctrl st) = attribute_value a (sc_ctrl st') ->
  attribute_value a (sc_ctrl (apply_attribute a v st))
  = attribute_value a (sc_ctrl (apply_attribute a v st')).
Proof.
  intros Hne.
  destruct st as [c ks kr ek], st' as [c' ks' kr' ek'].
  destruct c as [? ? ? ? ? ? ? ? c ? ?]; destruct c.
  destruct c' as [? ? ? ? ? ? ? ? c' ? ?]; destruct c'.
  destruct a; try congruence; clear Hne; simpl; intros [= ->];
    run_rows; reflexivity.
Qed.

(** The scan of a record with each key once: an attribute ends as its own
    row leaves it, the other fields of the record notwithstanding. *)
Lemma scan_attributes_reads (a : attribute)
    (l : list (string * json_object)) (st : scan) :
  a <> Keyring ->
  List.NoDup (map fst l) ->
  attribute_value a (sc_ctrl (scan_attributes l st))
  = match lh_table_lookup l (attribute_name a) with
    | Some v => attribute_value a (sc_ctrl (apply_attribute a v st))
    | None => attribute_value a (sc_ctrl st)
    end.
Proof.
  intros Ha. revert st.
  induction l as [|[k v] l IH]; intros st Hnd; [reflexivity|].
  inversion Hnd as [|? ? Hn Hnd']; subst.
  rewrite scan_attributes_cons, (IH _ Hnd'). cbn [lh_table_lookup].
  destruct (String.eqb_spec k (attribute_name a)) as [->|Hk].
  - rewrite update_attribute_name.
    destruct (lh_table_lookup l (attribute_name a)) as [v'|] eqn:E;
      [|reflexivity].
    exfalso. apply Hn. apply lh_table_lookup_In in E.
    apply (in_map fst) in E. exact E.
  - assert (Hstep : attribute_value a (sc_ctrl (update_attribute k v st))
                    = attribute_value a (sc_ctrl st)).
    { rewrite update_attribute_dispatch.
      destruct (attribute_of_key k) as [b|] eqn:E; [|reflexivity].
      apply apply_attribute_frame. intros ->.
      apply attribute_of_key_Some in E. congruence. }
    destruct (lh_table_lookup l (attribute_name a)) as [v'|];
      [|exact Hstep].
    now apply apply_attribute_local.
Qed.

(** The same of [json_update_attributes], for the attributes that the
    deferred key import does not write. *)
Lemma json_update_attributes_reads (a : attribute) (hn sn : option string)
    (c : nvme_ctrl) (fields : list (string * json_object)) (ks : keystore) :
  a <> Keyring -> a <> Tls_key -> a <> Tls ->
  List.NoDup (map fst fields) ->
  attribute_value a (fst (json_update_attributes hn sn c (json_obj fields) ks))
  = match lh_table_lookup fields (attribute_name a) with
    | Some v =>
        attribute_value a
          (sc_ctrl (apply_attribute a v
                      {| sc_ctrl := c; sc_keys := ks;
                         keyring_str := None; encoded_key := None |}))
    | None => attribute_value a c
    end.
Proof.
  intros Hk Ht Hl Hnd. unfold json_update_attributes.
  simpl json_object_get_object.
  set (st0 := {| sc_ctrl := c; sc_keys := ks;
                 keyring_str := None; encoded_key := None |}).
  transitivity (attribute_value a (sc_ctrl (scan_attributes fields st0)));
    [|exact (scan_attributes_reads a fields st0 Hk Hnd)].
  destruct (encoded_key _) as [enc|]; [|reflexivity].
  destruct (json_import_nvme_tls_key_cfg hn sn
              (sc_ctrl (scan_attributes fields st0))
              (keyring_str (scan_attributes fields st0))
              enc (sc_keys (scan_attributes fields st0)))
    as [->|(id & _ & ->)]; [reflexivity|].
  destruct a; try congruence; reflexivity.
Qed.



Lemma port_record_no_tls_key (ks : keystore) (c : nvme_ctrl) :
  tls_key (cfg c) = 0 -> ~ In "tls_key" (map fst (port_record ks c)).
Proof.
  intros H. apply lh_table_lookup_None.
  lookup_record. now rewrite H.
Qed.

(** What the config export writes for a controller, read back by
    [json_update_attributes] into a controller with nothing set. *)
Lemma port_record_read_back
    (hn sn : option string) (ks ks0 : keystore) (c c0 : nvme_ctrl) :
  integers_are_int (cfg c) ->
  attributes_unset c0 ->
  let c' := fst (json_update_attributes hn sn c0
                   (json_obj (port_record ks c)) ks0) in
  nr_io_queues (cfg c') = nr_io_queues (cfg c) /\
  nr_write_queues (cfg c') = nr_write_queues (cfg c) /\
  nr_poll_queues (cfg c') = nr_poll_queues (cfg c) /\
  queue_size (cfg c') = queue_size (cfg c) /\
  keep_alive_tmo (cfg c') = keep_alive_tmo (cfg c) /\
  reconnect_delay (cfg c') = reconnect_delay (cfg c) /\
  (transport c <> "loop" ->
   fast_io_fail_tmo (cfg c') = fast_io_fail_tmo (cfg c)) /\
  duplicate_connect (cfg c') = duplicate_connect (cfg c) /\
  disable_sqflow (cfg c') = disable_sqflow (cfg c) /\
  hdr_digest (cfg c') = hdr_digest (cfg c) /\
  data_digest (cfg c') = data_digest (cfg c) /\
  concat (cfg c') = concat (cfg c) /\
  (tls (cfg c) = true \/ tls_key (cfg c) = 0 ->
   tls (cfg c') = tls (cfg c)) /\
  persistent c' = persistent c /\
  discovery_ctrl c' = discovery_ctrl c.
Proof.
  intros Hint Hunset.
  cbv zeta.
  destruct Hint as (I1 & I2 & I3 & I4 & I5 & I6 & I7).
  destruct Hunset as
    (U1 & U2 & U3 & U4 & U5 & U6 & U7 & B1 & B2 & B3 & B4 & B5 & B6 & F1 & F2).
  pose proof (port_record_NoDup ks c) as Hnd.
  pose proof (port_record_integers ks c) as Hints. cbv zeta in Hints.
  destruct Hints as (L1 & L2 & L3 & L4 & L5 & L6 & _).
  pose proof (port_record_booleans ks c) as Hbools. cbv zeta in Hbools.
  destruct Hbools as (M1 & M2 & M3 & M4 & M5 & M6 & M7 & M8).
  assert (Hrow : forall a, a <> Keyring -> a <> Tls_key -> a <> Tls ->
    attribute_value a
      (fst (json_update_attributes hn sn c0 (json_obj (port_record ks c)) ks0))
    = match lh_table_lookup (port_record ks c) (attribute_name a) with
      | Some v =>
          attribute_value a
            (sc_ctrl (apply_attribute a v
                        {| sc_ctrl := c0; sc_keys := ks0;
                           keyring_str := None; encoded_key := None |}))
      | None => attribute_value a c0
      end).
  { intros a H1 H2 H3. now apply json_update_attributes_reads. }
  repeat match goal with
  | |- _ /\ _ => split
  end.
  - read_int Nr_io_queues L1 U1 I1.
  - read_int Nr_write_queues L2 U2 I2.
  - read_int Nr_poll_queues L3 U3 I3.
  - read_int Queue_size L4 U4 I4.
  - read_int Keep_alive_tmo L5 U5 I5.
  - read_int Reconnect_delay L6 U6 I6.
  - intros Hloop.
    destruct (port_record_timeouts ks c Hloop) as [_ L7].
    read_int Fast_io_fail_tmo L7 U7 I7.
  - read_bool Duplicate_connect M1 B1.
  - read_bool Disable_sqflow M2 B2.
  - read_bool Hdr_digest M3 B3.
  - read_bool Data_digest M4 B4.
  - read_bool Concat M6 B6.
  - intros Htls.
    unfold json_update_attributes. simpl json_object_get_object.
    set (st0 := {| sc_ctrl := c0; sc_keys := ks0;
                   keyring_str := None; encoded_key := None |}).
    assert (Hscan :
      tls (cfg (sc_ctrl (scan_attributes (port_record ks c) st0)))
      = tls (cfg c)).
    { pose proof (scan_attributes_reads Tls (port_record ks c) st0
                    ltac:(discriminate) Hnd) as R.
      simpl in R. rewrite M5 in R. unfold fill_bool, sc_cfg in R.
      simpl in R. rewrite B5 in R.
      destruct (tls (cfg c)); simpl in R; injection R as R; congruence. }
    destruct Htls as [Htls|Hkey].
    + destruct (encoded_key _) as [enc|]; [|exact Hscan].
      destruct (json_import_nvme_tls_key_cfg hn sn
                  (sc_ctrl (scan_attributes (port_record ks c) st0))
                  (keyring_str (scan_attributes (port_record ks c) st0))
                  enc (sc_keys (scan_attributes (port_record ks c) st0)))
        as [->|(id & _ & ->)]; [exact Hscan|].
      simpl. now rewrite Htls.
    + rewrite (proj1 (scan_attributes_not_tls_key (port_record ks c) st0
                        (port_record_no_tls_key ks c Hkey))).
      exact Hscan.
  - read_bool Persistent M7 F1.
  - read_bool Discovery M8 F2.
Qed.
End RoundTrip.

(** ** Import: what is set stays set *)

Section ImportMonotone.
Context {JC : JsonC} {FB : Fabrics} {SS : SecretStore}.

Lemma booleans_kept_refl (c : nvme_ctrl) : booleans_kept c c.
Proof.
  unfold booleans_kept.
  repeat split; match goal with |- Bool.le ?b _ => now destruct b end.
Qed.

Lemma le_trans (a b c : bool) : Bool.le a b -> Bool.le b c -> Bool.le a c.
Proof. destruct a, b, c; simpl; auto. Qed.

Lemma booleans_kept_trans (a b c : nvme_ctrl) :
  booleans_kept a b -> booleans_kept b c -> booleans_kept a c.
Proof.
  unfold booleans_kept.
  intros (A1 & A2 & A3 & A4 & A5 & A6 & A7 & A8)
         (B1 & B2 & B3 & B4 & B5 & B6 & B7 & B8).
  repeat split; eapply le_trans; eassumption.
Qed.

Lemma apply_attribute_booleans_kept (a : attribute) (v : json_object)
    (st : scan) :
  booleans_kept (sc_ctrl st) (sc_ctrl (apply_attribute a v st)).
Proof.
  open_scan st.
  destruct a; run_rows; unfold booleans_kept; simpl;
    repeat split;
    repeat match goal with
    | H : negb _ = _ |- _ => apply negb_true_iff in H || apply negb_false_iff in H
    end;
    subst;
    match goal with |- Bool.le ?b _ => now destruct b end.
Qed.

Lemma scan_attributes_booleans_kept (l : list (string * json_object))
    (st : scan) :
  booleans_kept (sc_ctrl st) (sc_ctrl (scan_attributes l st)).
Proof.
  revert l st.
  apply (scan_attributes_ind
           (fun a b => booleans_kept (sc_ctrl a) (sc_ctrl b))).
  - intros. apply booleans_kept_refl.
  - intros *. apply booleans_kept_trans.
  - intros k v st. rewrite update_attribute_dispatch.
    destruct (attribute_of_key k);
      [apply apply_attribute_booleans_kept|apply booleans_kept_refl].
Qed.

(** X4: fill-only-if-unset holds of the booleans as well: whatever the record
    holds, a boolean option or flag of the controller that is set stays
    set.  No record turns one off, not with [false] under its name
    either. *)
Theorem json_update_attributes_booleans_never_cleared
    (hn sn : option string) (c : nvme_ctrl) (ctrl_obj : json_object)
    (ks : keystore) :
  booleans_kept c (fst (json_update_attributes hn sn c ctrl_obj ks)).
Proof.
  unfold json_update_attributes.
  set (st0 := {| sc_ctrl := c; sc_keys := ks;
                 keyring_str := None; encoded_key := None |}).
  pose proof (scan_attributes_booleans_kept
                (json_object_get_object ctrl_obj) st0) as Hscan.
  destruct (encoded_key _) as [enc|]; [|exact Hscan].
  eapply booleans_kept_trans; [exact Hscan|].
  destruct (json_import_nvme_tls_key_cfg hn sn
              (sc_ctrl (scan_attributes (json_object_get_object ctrl_obj) st0))
              (keyring_str (scan_attributes (json_object_get_object ctrl_obj) st0))
              enc
              (sc_keys (scan_attributes (json_object_get_object ctrl_obj) st0)))
    as [->|(id & _ & ->)].
  - apply booleans_kept_refl.
  - unfold booleans_kept. simpl.
    repeat split; match goal with |- Bool.le ?b _ => now destruct b end.
Qed.

End ImportMonotone.

(** ** The config export: what it returns *)

Section ConfigExportResult.
Context {FB : Fabrics} {SS : SecretStore} {PX : Posix}.

(** X10: [json_update_config] hands the persisted part of the topology to the
    writer, the one of the file when it is given a name and the one of
    standard output when it is not, and returns what the writer returned,
    or -1 with [errno] at [EIO] when that is negative; [errno] is left
    alone otherwise. *)
Theorem json_update_config_result (ks : keystore) (r : nvme_root)
    (errno : Z) (config_file : option string) :
  all_named r = true ->
  let doc := json_array (persisted_config ks r) in
  let ret :=
    match config_file with
    | None => json_object_to_fd 1 doc
    | Some config_file => json_object_to_file_ext config_file doc
    end in
  json_update_config ks r errno config_file
  = Ret (if ret <? 0 then (-1, EIO, doc) else (ret, errno, doc)).
Proof.
  intros Hnamed. cbv zeta.
  unfold json_update_config, json_update_config_root, persisted_config.
  rewrite (json_update_host_for_each ks (hosts r) [] Hnamed). simpl.
  now destruct (_ <? 0).
Qed.

End ConfigExportResult.

(** ** The two exporters, side by side *)

(** Stepping over what is added under keys known to differ from the one
    looked up. *)
Ltac step_over :=
  first
    [ rewrite lookup_int_other by assumption
    | rewrite lookup_bool_other by assumption
    | rewrite lookup_string_other by assumption
    | rewrite lookup_export_other by assumption
    | rewrite lookup_insert_other by assumption
    | rewrite lookup_if_frame by (repeat step_over; reflexivity) ].

Ltac lookup_absent :=
  cbv beta delta [port_record ctrl_record]; open_lets;
  repeat (step_over || unfold_link);
  reflexivity.

Section SideBySide.
Context {FB : Fabrics} {SS : SecretStore}.

(** What names the controller, in a dump record. *)
Lemma ctrl_record_identity (ks : keystore) (c : nvme_ctrl) :
  let r := ctrl_record ks c in
  lh_table_lookup r "transport" = Some (json_string (transport c)) /\
  lh_table_lookup r "traddr" = option_map json_string (traddr c) /\
  lh_table_lookup r "host_traddr" = option_map json_string (host_traddr c) /\
  lh_table_lookup r "host_iface" = option_map json_string (host_iface c) /\
  lh_table_lookup r "trsvcid" = option_map json_string (trsvcid c) /\
  lh_table_lookup r "dhchap_key" = option_map json_string (dhchap_key c) /\
  lh_table_lookup r "dhchap_ctrl_key"
  = option_map json_string (dhchap_ctrl_key c).
Proof.
  cbv zeta.
  repeat split; cbv beta delta [ctrl_record]; open_lets;
    repeat (peel || rewrite lookup_string_same || unfold_link);
    cbn [lh_table_lookup];
    repeat match goal with x := _ |- _ => subst x end;
    unfold nvme_ctrl_get_dhchap_host_key, nvme_ctrl_get_dhchap_key;
    try reflexivity;
    repeat match goal with
    | |- context [match ?o with _ => _ end] => destruct o
    end; reflexivity.
Qed.

Lemma port_record_timeouts_off_loop (ks : keystore) (c : nvme_ctrl) :
  let r := port_record ks c in
  let emitted (v d : Z) := if v =? d then None else Some (json_int v) in
  let off_loop (o : option json_object) :=
    if negb (strcmp (transport c) "loop" =? 0) then o else None in
  lh_table_lookup r "ctrl_loss_tmo"
  = off_loop (emitted (ctrl_loss_tmo (cfg c)) NVMF_DEF_CTRL_LOSS_TMO) /\
  lh_table_lookup r "fast_io_fail_tmo"
  = off_loop (emitted (fast_io_fail_tmo (cfg c)) 0).
Proof.
  cbv zeta. split; lookup_record; reflexivity.
Qed.

(** X6: the dump and the config export write the same thing under every key
    but four: "name", which the dump alone writes, "keyring", which the
    export alone writes, and "tls" and "tls_key", which the dump writes on
    "tcp" only. *)
Theorem json_dump_ctrl_agrees_with_json_update_port
    (ks : keystore) (c : nvme_ctrl) (k : string) :
  k <> "name" -> k <> "keyring" -> k <> "tls" -> k <> "tls_key" ->
  lh_table_lookup (ctrl_record ks c) k = lh_table_lookup (port_record ks c) k.
Proof.
  intros N1 N2 N3 N4.
  pose proof (ctrl_record_identity ks c) as A. cbv zeta in A.
  pose proof (port_record_identity ks c) as A'. cbv zeta in A'.
  pose proof (ctrl_record_integers ks c) as B. cbv zeta in B.
  pose proof (port_record_integers ks c) as B'. cbv zeta in B'.
  pose proof (port_record_timeouts_off_loop ks c) as T'. cbv zeta in T'.
  pose proof (ctrl_record_booleans ks c) as D. cbv zeta in D.
  pose proof (port_record_booleans ks c) as D'. cbv zeta in D'.
  destruct A as (A1 & A2 & A3 & A4 & A5 & A6 & A7).
  destruct A' as (A1' & A2' & A3' & A4' & A5' & A6' & A7').
  destruct B as (B1 & B2 & B3 & B4 & B5 & B6 & B7 & B8 & B9).
  destruct B' as (B1' & B2' & B3' & B4' & B5' & B6' & B9').
  destruct T' as (B7' & B8').
  destruct D as (D1 & D2 & D3 & D4 & _ & D6 & D7 & D8).
  destruct D' as (D1' & D2' & D3' & D4' & _ & D6' & D7' & D8').
  repeat match goal with
  | |- lh_table_lookup _ ?k = _ =>
      is_var k;
      lazymatch goal with
      | H : lh_table_lookup (ctrl_record ks c) ?s = _ |- _ =>
          destruct (String.eqb_spec s k) as [<-|];
          [congruence | clear H]
      end
  end.
  apply not_eq_sym, String.eqb_neq in N1, N2, N3, N4.
  repeat match goal with
  | H : _ <> k |- _ => apply String.eqb_neq in H
  end.
  transitivity (@None json_object); [|symmetry]; lookup_absent.
Qed.


(** X7: a boolean option or flag is in the record of either exporter exactly
    when it is set, and always as [true]: [false] is never written.  The
    dump writes "tls" on "tcp" only. *)
Theorem exported_boolean_emitted_iff_set
    (ks : keystore) (c : nvme_ctrl) (a : attribute) :
  In a [Duplicate_connect; Disable_sqflow; Hdr_digest; Data_digest; Tls;
        Concat; Persistent; Discovery] ->
  exists b : bool,
    attribute_value a c = json_boolean b
    /\ lh_table_lookup (port_record ks c) (attribute_name a)
       = (if b then Some (json_boolean true) else None)
    /\ lh_table_lookup (ctrl_record ks c) (attribute_name a)
       = (if b && (negb (String.eqb (attribute_name a) "tls")
                   || (strcmp (transport c) "tcp" =? 0))
          then Some (json_boolean true) else None).
Proof.
  intros Hin.
  pose proof (ctrl_record_booleans ks c) as D. cbv zeta in D.
  pose proof (port_record_booleans ks c) as D'. cbv zeta in D'.
  destruct D as (D1 & D2 & D3 & D4 & D5 & D6 & D7 & D8).
  destruct D' as (D1' & D2' & D3' & D4' & D5' & D6' & D7' & D8').
  simpl in Hin.
  repeat (destruct Hin as [<-|Hin];
          [eexists; split; [reflexivity|]; simpl attribute_name;
           split; [eassumption|]|]);
    try contradiction.
  all: match goal with
       | H : lh_table_lookup (ctrl_record _ _) _ = _ |- _ = _ =>
           rewrite H
       end.
  all: simpl; rewrite ?andb_true_r; try reflexivity.
  match goal with
  | |- context [tls ?x] =>
      destruct (tls x); destruct (strcmp _ "tcp" =? 0); reflexivity
  end.
Qed.

(** X8: the secrets of a port record.  "keyring" is there when [cfg->keyring]
    is set and the keyring can be described, with the description;
    "tls_key" is there when [cfg->tls_key] is set, the key can be read from
    the keyring and it can be encoded, with the encoded key.  Nothing else
    is written under either name, and a failure leaves the field out. *)
Theorem json_update_port_secrets (ks : keystore) (c : nvme_ctrl) :
  let r := port_record ks c in
  lh_table_lookup r "keyring"
  = (if keyring (cfg c) =? 0 then None
     else option_map json_string
            (nvme_describe_key_serial ks (keyring (cfg c))))
  /\ lh_table_lookup r "tls_key"
     = (if tls_key (cfg c) =? 0 then None
        else match nvme_read_key ks (keyring (cfg c)) (tls_key (cfg c)) with
             | Some (key_data, key_len) =>
                 option_map json_string (nvme_export_tls_key key_data key_len)
             | None => None
             end).
Proof.
  cbv zeta. split.
  - cbv beta delta [port_record]; open_lets.
    repeat (peel || rewrite lookup_string_same || unfold_link);
      cbn [lh_table_lookup];
      repeat match goal with x := _ |- _ => subst x end.
    destruct (keyring (cfg c) =? 0); simpl; [reflexivity|].
    now destruct (nvme_describe_key_serial _ _).
  - cbv beta delta [port_record]; open_lets.
    repeat (peel || rewrite lookup_json_export_nvme_tls_key || unfold_link);
      cbn [lh_table_lookup String.eqb Ascii.eqb Bool.eqb];
      repeat match goal with x := _ |- _ => subst x end.
    destruct (tls_key (cfg c) =? 0); simpl; [reflexivity|].
    destruct (nvme_read_key _ _ _) as [[d l]|]; [|reflexivity].
    now destruct (nvme_export_tls_key d l).
Qed.

End SideBySide.

(** ** The diagnostic dump *)

Section DumpFacts.
Context {FB : Fabrics} {SS : SecretStore} {PX : Posix}.
Variable get_name : nvme_subsystem -> option string.

Lemma json_dump_ctrl_fold (ks : keystore) (l : list nvme_ctrl)
    (acc : list json_object) :
  fold_left (json_dump_ctrl ks) l acc
  = acc ++ map (fun c => json_obj (ctrl_record ks c)) l.
Proof.
  revert acc. induction l as [|c l IH]; intros acc; simpl.
  - now rewrite app_nil_r.
  - rewrite IH. unfold json_dump_ctrl. now rewrite <- app_assoc.
Qed.

Lemma json_dump_subsys_dumped (ks : keystore) (arr : list json_object)
    (s : nvme_subsystem) :
  is_set (get_name s) = true -> is_set (subsysnqn s) = true ->
  json_dump_subsys get_name ks arr s
  = Ret (arr ++ [dumped_subsys get_name ks s]).
Proof.
  unfold json_dump_subsys, dumped_subsys.
  destruct (get_name s) as [name|]; [intros _|discriminate].
  destruct (subsysnqn s) as [nqn|]; [intros _|discriminate].
  cbv zeta. rewrite (json_dump_ctrl_fold ks (ctrls s) []). simpl.
  now destruct (ctrls s).
Qed.

Lemma json_dump_subsys_for_each (ks : keystore) (l : list nvme_subsystem)
    (acc : list json_object) :
  forallb (fun s => is_set (get_name s)) l = true ->
  forallb (fun s => is_set (subsysnqn s)) l = true ->
  for_each (fun s arr => json_dump_subsys get_name ks arr s) l acc
  = Ret (acc ++ map (dumped_subsys get_name ks) l).
Proof.
  revert acc. induction l as [|s l IH]; intros acc; simpl.
  - intros _ _. now rewrite app_nil_r.
  - intros [Hs Hl]%andb_true_iff [Hs' Hl']%andb_true_iff.
    rewrite (json_dump_subsys_dumped ks acc s Hs Hs'). simpl.
    rewrite (IH _ Hl Hl'). now rewrite <- app_assoc.
Qed.

Lemma json_dump_host_dumped (ks : keystore) (h : nvme_host)
    (host_array : list json_object) :
  is_set (hostnqn h) = true ->
  forallb (fun s => is_set (get_name s)) (subsystems h) = true ->
  forallb (fun s => is_set (subsysnqn s)) (subsystems h) = true ->
  json_dump_host get_name ks h host_array
  = Ret (host_array ++ [dumped_host get_name ks h]).
Proof.
  unfold json_dump_host, dumped_host.
  destruct (hostnqn h) as [nqn|]; [intros _ Hs Hs'|discriminate].
  rewrite (json_dump_subsys_for_each ks _ [] Hs Hs'). simpl.
  destruct (subsystems h), (hostid h), (host_dhchap_key h),
    (pdc_enabled_valid h); reflexivity.
Qed.

Lemma json_dump_host_for_each (ks : keystore) (l : list nvme_host)
    (acc : list json_object) :
  forallb (fun h =>
             is_set (hostnqn h)
             && forallb (fun s => is_set (subsysnqn s)) (subsystems h)) l
  = true ->
  forallb (fun h => forallb (fun s => is_set (get_name s)) (subsystems h)) l
  = true ->
  for_each (json_dump_host get_name ks) l acc
  = Ret (acc ++ map (dumped_host get_name ks) l).
Proof.
  revert acc. induction l as [|h l IH]; intros acc; simpl.
  - intros _ _. now rewrite app_nil_r.
  - intros [[Hh Hs]%andb_true_iff Hl]%andb_true_iff [Hn Hl']%andb_true_iff.
    rewrite (json_dump_host_dumped ks h acc Hh Hn Hs). simpl.
    rewrite (IH _ Hl Hl'). now rewrite <- app_assoc.
Qed.

(** X9: the dump leaves nothing out: the document [json_dump_tree] hands to
    the writer has one record per host under "hosts", in each one record
    per subsystem, in each one record per controller, "pcie" controllers
    and discovery subsystems among them; only an array that would be empty
    is not written.  It returns what the writer returned, or -1 with
    [errno] at [EIO] when that is negative.  (The names and NQNs are read
    through, so every host and subsystem has them.) *)
Theorem json_dump_tree_whole_topology (ks : keystore) (r : nvme_root)
    (errno log_fd : Z) :
  all_named r = true ->
  all_subsystems_named get_name r = true ->
  let doc :=
    json_obj [("hosts", json_array (map (dumped_host get_name ks) (hosts r)))]
  in
  let ret := json_object_to_fd log_fd doc in
  json_dump_tree get_name ks r errno log_fd
  = Ret (if ret <? 0 then (-1, EIO, doc) else (ret, errno, doc)).
Proof.
  intros Hnamed Hnames. cbv zeta.
  unfold json_dump_tree, json_dump_tree_root.
  rewrite (json_dump_host_for_each ks (hosts r) [] Hnamed Hnames). simpl.
  now destruct (_ <? 0).
Qed.

End DumpFacts.

(** ** The reader *)

Lemma append_nil_r (s : string) : (s ++ "")%string = s.
Proof. induction s as [|a s IH]; simpl; [reflexivity|now rewrite IH]. Qed.

Lemma append_assoc (a b c : string) :
  ((a ++ b) ++ c)%string = (a ++ (b ++ c))%string.
Proof. induction a as [|x a IH]; simpl; [reflexivity|now rewrite IH]. Qed.

Lemma length_zero_iff_empty (s : string) :
  (0 <? String.length s)%nat = false <-> s = "".
Proof.
  destruct s; simpl; split; intros H; first [reflexivity | discriminate].
Qed.

Section ReaderFacts.
Context {JC : JsonC} {FB : Fabrics} {SS : SecretStore} {RS : Resolver}
        {PX : Posix}.

(** The [read] loop gathers the chunks in order, however the text is cut
    into them. *)
Lemma read_all_gathers (reads : list string) (err : bool) (str : string) :
  (forall n, realloc_ok n = true) ->
  Forall (fun buf => buf <> "") reads ->
  read_all reads err str
  = Some (if err then -1 else 0,
          (str ++ fold_right String.append "" reads)%string).
Proof.
  intros Hmem Hl. revert str.
  induction Hl as [|buf rest Hbuf _ IH]; intros str; simpl.
  - now rewrite append_nil_r.
  - destruct (0 <? String.length buf)%nat eqn:E.
    + now rewrite Hmem, IH, append_assoc.
    + apply length_zero_iff_empty in E. contradiction.
Qed.

Lemma read_all_error (reads : list string) (str : string) :
  Forall (fun buf => buf <> "") reads ->
  match read_all reads true str with
  | Some (ret, _) => ret = -1
  | None => True
  end.
Proof.
  intros Hl. revert str.
  induction Hl as [|buf rest Hbuf _ IH]; intros str; simpl; [reflexivity|].
  destruct (0 <? String.length buf)%nat eqn:E.
  - destruct (realloc_ok _); [apply IH|exact I].
  - apply length_zero_iff_empty in E. contradiction.
Qed.

(** X11: [parse_json] hands the tokener the whole text of the file, whatever the
    chunks [read] delivered it in, when memory is granted: two files with
    the same text parse alike.  A failing [read] and a file without text
    give NULL without the tokener being asked. *)
Theorem parse_json_reads_whole_file (reads : list string) (err : bool) :
  (forall n, realloc_ok n = true) ->
  Forall (fun buf => buf <> "") reads ->
  let str := fold_right String.append "" reads in
  parse_json {| f_reads := reads; f_read_error := err |}
  = if err || (String.length str =? 0)%nat then None
    else if json_tokener_new_ex_ok then json_tokener_parse_ex str
    else None.
Proof.
  intros Hmem Hl. cbv zeta. unfold parse_json. simpl.
  rewrite (read_all_gathers reads err "" Hmem Hl). simpl.
  destruct err; simpl; [reflexivity|].
  destruct (_ =? 0)%nat; [reflexivity|].
  now destruct json_tokener_new_ex_ok.
Qed.

(** The turn of the [read] loop at which [realloc] fails ends the loop
    with NULL, whichever turn it is. *)
Lemma read_all_realloc_fails (pre : list string) (buf : string)
    (rest : list string) (err : bool) (str : string) :
  Forall (fun b => b <> "") pre ->
  buf <> "" ->
  realloc_ok (String.length (str ++ fold_right String.append "" pre)
              + String.length buf) = false ->
  read_all (pre ++ buf :: rest) err str = None.
Proof.
  intros Hpre Hbuf. revert str.
  induction Hpre as [|p pre Hp _ IH]; intros str Hmem; simpl in *.
  - rewrite append_nil_r in Hmem.
    destruct (0 <? String.length buf)%nat eqn:E.
    + now rewrite Hmem.
    + apply length_zero_iff_empty in E. contradiction.
  - destruct (0 <? String.length p)%nat eqn:E.
    + destruct (realloc_ok (String.length str + String.length p));
        [|reflexivity].
      apply IH. now rewrite append_assoc.
    + apply length_zero_iff_empty in E. contradiction.
Qed.

(** X12: a configuration file that cannot be read to the end, or has no text,
    or for which memory runs out, is reported like a malformed one:
    [json_read_config] returns -1 with [errno] at [EPROTO], whatever [read]
    or [realloc] left there, and the topology and the keyrings are as they
    were.  Memory runs out when [realloc] fails at some turn of the [read]
    loop, the first or a later one, or when [json_tokener_new_ex] does. *)
Theorem json_read_config_unreadable (w : world) (config_file : string)
    (fd : file) :
  sys_open config_file = inr fd ->
  (f_read_error fd = true /\ Forall (fun buf => buf <> "") (f_reads fd))
  \/ f_reads fd = []
  \/ (exists pre buf rest,
        f_reads fd = pre ++ buf :: rest
        /\ Forall (fun b => b <> "") pre /\ buf <> ""
        /\ realloc_ok (String.length (fold_right String.append "" pre)
                       + String.length buf) = false)
  \/ json_tokener_new_ex_ok = false ->
  json_read_config w config_file = Ret (-1, set_errno EPROTO w)
  /\ w_root (set_errno EPROTO w) = w_root w
  /\ w_keys (set_errno EPROTO w) = w_keys w.
Proof.
  intros Hopen Hcase. split; [|split; reflexivity].
  unfold json_read_config. rewrite Hopen.
  assert (Hnull : parse_json fd = None); [|now rewrite Hnull].
  unfold parse_json.
  destruct Hcase
    as [[Herr Hl]|[Hnil|[(pre & buf & rest & Hr & Hpre & Hbuf & Hmem)|Htok]]].
  - rewrite Herr. pose proof (read_all_error (f_reads fd) "" Hl) as H.
    destruct (read_all _ true "") as [[ret str]|]; [|reflexivity].
    now rewrite H.
  - rewrite Hnil. simpl. now destruct (f_read_error fd).
  - rewrite Hr.
    now rewrite (read_all_realloc_fails pre buf rest _ "" Hpre Hbuf Hmem).
  - destruct (read_all _ _ _) as [[ret str]|]; [|reflexivity].
    destruct (_ || _); [reflexivity|]. now rewrite Htok.
Qed.

End ReaderFacts.

(** ** The walk: what a record overwrites *)

Section WalkFacts.
Context {JC : JsonC} {FB : Fabrics} {SS : SecretStore} {RS : Resolver}
        {PX : Posix}.

Lemma host_at_update_host_eq (f : nvme_host -> nvme_host) (h : nvme_host_t)
    (r : nvme_root) :
  host_at (update_host f h r) h = f <$> host_at r h.
Proof.
  unfold host_at, update_host, nvme_host_t. simpl.
  apply list_lookup_alter_eq.
Qed.

(** X13: unlike the attributes, the two DH-CHAP keys of a controller are not
    filled only if unset: when the resolver delivers the controller for a
    port record, [json_parse_port] replaces each key by the record's
    whenever the record has the field, whatever the controller held, and
    keeps it otherwise.  The name, the transport and the addresses of the
    controller stay as they were. *)
Theorem json_parse_port_overwrites_dhchap_keys (s : nvme_subsystem_t)
    (port_obj attr_obj : json_object) (w : world) (r : nvme_root)
    (c : nvme_ctrl_t) (node : nvme_ctrl) :
  json_object_object_get port_obj "transport" = Some attr_obj ->
  nvme_lookup_ctrl (w_root w) s (json_object_get_string attr_obj)
    (get_string_field port_obj "traddr")
    (get_string_field port_obj "host_traddr")
    (get_string_field port_obj "host_iface")
    (get_string_field port_obj "trsvcid") = (r, Some c) ->
  ctrl_at r c = Some node ->
  exists w' node',
    json_parse_port s port_obj w = Ret w'
    /\ ctrl_at (w_root w') c = Some node'
    /\ dhchap_key node'
       = replaced_by port_obj "dhchap_key" (dhchap_key node)
    /\ dhchap_ctrl_key node'
       = replaced_by port_obj "dhchap_ctrl_key" (dhchap_ctrl_key node)
    /\ c_name node' = c_name node /\ transport node' = transport node
    /\ traddr node' = traddr node /\ host_traddr node' = host_traddr node
    /\ host_iface node' = host_iface node /\ trsvcid node' = trsvcid node.
Proof.
  intros Ht Hl Hc. unfold json_parse_port. rewrite Ht, Hl, Hc.
  destruct (json_update_attributes _ _ node port_obj (w_keys w))
    as [node1 ks1] eqn:E.
  eexists _, _. split; [reflexivity|]. simpl.
  rewrite ctrl_at_update_ctrl, Hc. simpl. split; [reflexivity|].
  pose proof (json_update_attributes_identity_kept
                (hst ← host_at r (fst (fst c)); hostnqn hst)
                (ss ← subsys_at r (fst c); subsysnqn ss)
                node port_obj (w_keys w)) as K.
  rewrite E in K. simpl in K.
  destruct K as (K1 & K2 & K3 & K4 & K5 & K6 & K7 & K8).
  unfold replaced_by.
  destruct (json_object_object_get port_obj "dhchap_key"),
    (json_object_object_get port_obj "dhchap_ctrl_key"); simpl;
    repeat split; assumption.
Qed.


End WalkFacts.

(** ** Export, then the walk *)

Section ExportedRecord.
Context {JC : JsonC} {FB : Fabrics} {SS : SecretStore} {RS : Resolver}
        {PX : Posix}.

Lemma get_exported_string (fields : list (string * json_object))
    (key : string) (value : option string) :
  lh_table_lookup fields key = option_map json_string value ->
  get_string_field (json_obj fields) key = value.
Proof.
  unfold get_string_field, json_object_object_get. intros ->.
  now destruct value.
Qed.

Lemma get_exported_field (fields : list (string * json_object))
    (key : string) (value : option string) :
  lh_table_lookup fields key = option_map json_string value ->
  json_object_object_get (json_obj fields) key = option_map json_string value.
Proof.
  unfold json_object_object_get. intros ->. now destruct value.
Qed.

(** X5: a port record of the config export, taken in again by
    [json_parse_port].  The controller is looked up under the transport
    and the four addresses of the controller exported.  When the resolver
    delivers a controller with nothing set, that controller ends with the
    six queue and timer integers, the booleans, the two flags and the
    DH-CHAP keys of the controller exported; with its [fast_io_fail_tmo]
    too off "loop", and with its [tls] unless the record carries a key for
    a controller without the flag.  (A DH-CHAP key that the controller
    exported lacks is not in the record, and stays as it was.) *)
Theorem json_parse_port_reads_back_exported_record
    (ks : keystore) (c : nvme_ctrl) (port_obj : json_object)
    (s : nvme_subsystem_t) (w : world) (r : nvme_root) (id : nvme_ctrl_t)
    (node : nvme_ctrl) :
  json_update_port ks [] c = [port_obj] ->
  integers_are_int (cfg c) ->
  nvme_lookup_ctrl (w_root w) s (Some (transport c)) (traddr c)
    (host_traddr c) (host_iface c) (trsvcid c) = (r, Some id) ->
  ctrl_at r id = Some node ->
  attributes_unset node ->
  exists w' node',
    json_parse_port s port_obj w = Ret w'
    /\ ctrl_at (w_root w') id = Some node'
    /\ nr_io_queues (cfg node') = nr_io_queues (cfg c)
    /\ nr_write_queues (cfg node') = nr_write_queues (cfg c)
    /\ nr_poll_queues (cfg node') = nr_poll_queues (cfg c)
    /\ queue_size (cfg node') = queue_size (cfg c)
    /\ keep_alive_tmo (cfg node') = keep_alive_tmo (cfg c)
    /\ reconnect_delay (cfg node') = reconnect_delay (cfg c)
    /\ (transport c <> "loop" ->
        fast_io_fail_tmo (cfg node') = fast_io_fail_tmo (cfg c))
    /\ duplicate_connect (cfg node') = duplicate_connect (cfg c)
    /\ disable_sqflow (cfg node') = disable_sqflow (cfg c)
    /\ hdr_digest (cfg node') = hdr_digest (cfg c)
    /\ data_digest (cfg node') = data_digest (cfg c)
    /\ concat (cfg node') = concat (cfg c)
    /\ (tls (cfg c) = true \/ tls_key (cfg c) = 0 ->
        tls (cfg node') = tls (cfg c))
    /\ persistent node' = persistent c
    /\ discovery_ctrl node' = discovery_ctrl c
    /\ dhchap_key node'
       = match dhchap_key c with
         | Some key => Some key
         | None => dhchap_key node
         end
    /\ dhchap_ctrl_key node'
       = match dhchap_ctrl_key c with
         | Some key => Some key
         | None => dhchap_ctrl_key node
         end.
Proof.
  intros Hport Hint Hl Hc Hunset.
  unfold json_update_port in Hport.
  destruct (strcmp (transport c) "pcie" =? 0); [discriminate|].
  injection Hport as <-.
  pose proof (port_record_identity ks c) as A. cbv zeta in A.
  destruct A as (A1 & A2 & A3 & A4 & A5 & A6 & A7).
  unfold json_parse_port.
  rewrite (get_exported_field _ "transport" (Some (transport c)) A1).
  simpl option_map. cbv iota beta. simpl json_object_get_string.
  rewrite (get_exported_string _ _ _ A2), (get_exported_string _ _ _ A3),
    (get_exported_string _ _ _ A4), (get_exported_string _ _ _ A5).
  cbv zeta. rewrite Hl, Hc.
  rewrite (get_exported_field _ _ _ A6), (get_exported_field _ _ _ A7).
  pose proof (port_record_read_back
                (hst ← host_at r (fst (fst id)); hostnqn hst)
                (ss ← subsys_at r (fst id); subsysnqn ss)
                ks (w_keys w) c node Hint Hunset) as R.
  cbv zeta in R.
  pose proof (json_update_attributes_identity_kept
                (hst ← host_at r (fst (fst id)); hostnqn hst)
                (ss ← subsys_at r (fst id); subsysnqn ss)
                node (json_obj (port_record ks c)) (w_keys w)) as K.
  destruct (json_update_attributes _ _ node _ (w_keys w)) as [node1 ks1].
  simpl in R, K.
  destruct K as (_ & _ & _ & _ & _ & _ & K7 & K8).
  eexists _, _. split; [reflexivity|]. simpl.
  rewrite ctrl_at_update_ctrl, Hc. simpl. split; [reflexivity|].
  destruct (dhchap_key c), (dhchap_ctrl_key c); simpl;
    repeat match goal with
    | |- _ /\ _ => split
    end; first [apply R | assumption | reflexivity].
Qed.

End ExportedRecord.

(** ** The theorems at concrete inputs, again *)

Lemma json_update_attributes_unknown_keys_witness :
  let fields := [("transport", json_string "rdma");
                 ("traddr", json_string "192.168.1.99");
                 ("dhchap_key", json_string "DHHC-1:00:bmV3:");
                 ("comment", json_int 1)] in
  (forall k v, In (k, v) fields -> attribute_of_key k = None)
  /\ json_update_attributes (Some host1_nqn) (Some subsys1_nqn) tcp_ctrl
       (json_obj fields) [] = (tcp_ctrl, []).
Proof.
  cbv zeta.
  assert (H : forall k v,
             In (k, v) [("transport", json_string "rdma");
                        ("traddr", json_string "192.168.1.99");
                        ("dhchap_key", json_string "DHHC-1:00:bmV3:");
                        ("comment", json_int 1)] ->
             attribute_of_key k = None).
  { simpl. intros k v [E|[E|[E|[E|[]]]]]; injection E as <- <-; reflexivity. }
  split; [exact H|].
  exact (proj1 (json_update_attributes_unknown_keys
                  (Some host1_nqn) (Some subsys1_nqn) tcp_ctrl _ [] H)).
Defined.

Lemma json_update_attributes_keyrings_untouched_witness :
  let fields := [("queue_size", json_int 128); ("tls", json_boolean true)] in
  let after := json_update_attributes (Some host1_nqn) (Some subsys1_nqn)
                 rdma_ctrl (json_obj fields) one_key in
  (~ In "keyring" (map fst fields) /\ ~ In "tls_key" (map fst fields))
  /\ snd after = one_key
  /\ keyring (cfg (fst after)) = 77
  /\ tls_key (cfg (fst after)) = 1000.
Proof.
  cbv zeta.
  assert (H : ~ In "keyring"
                (map fst [("queue_size", json_int 128);
                          ("tls", json_boolean true)])
              /\ ~ In "tls_key"
                   (map fst [("queue_size", json_int 128);
                             ("tls", json_boolean true)])).
  { simpl. split; intros [E|[E|[]]]; discriminate. }
  split; [exact H|].
  exact (json_update_attributes_keyrings_untouched
           (Some host1_nqn) (Some subsys1_nqn) rdma_ctrl
           [("queue_size", json_int 128); ("tls", json_boolean true)]
           one_key (or_introl H)).
Defined.

Lemma json_update_attributes_idempotent_witness :
  let fields := [("queue_size", json_int 128);
                 ("persistent", json_boolean false);
                 ("keyring", json_string ".nvme")] in
  let after := json_update_attributes (Some host1_nqn) (Some subsys1_nqn)
                 tcp_ctrl (json_obj fields) [] in
  List.NoDup (map fst fields)
  /\ ~ In "tls_key" (map fst fields)
  /\ queue_size (cfg (fst after)) = 128
  /\ json_update_attributes (Some host1_nqn) (Some subsys1_nqn)
       (fst after) (json_obj fields) (snd after) = (fst after, snd after).
Proof.
  cbv zeta.
  assert (Hnd : List.NoDup
                  (map fst [("queue_size", json_int 128);
                            ("persistent", json_boolean false);
                            ("keyring", json_string ".nvme")])).
  { simpl. repeat constructor; simpl; intuition discriminate. }
  assert (Ht : ~ In "tls_key"
                 (map fst [("queue_size", json_int 128);
                           ("persistent", json_boolean false);
                           ("keyring", json_string ".nvme")])).
  { simpl. intuition discriminate. }
  split; [exact Hnd|]. split; [exact Ht|].
  split; [vm_compute; reflexivity|].
  exact (@json_update_attributes_idempotent json fabrics store
           (Some host1_nqn) (Some subsys1_nqn) tcp_ctrl _ [] _ _
           Hnd Ht (surjective_pairing _)).
Defined.

Lemma json_parse_port_reads_back_exported_record_witness :
  let w := {| w_root :=
                {| hosts := [new_host host1_nqn [new_subsys subsys1_nqn []]] |};
              w_keys := []; w_errno := 0 |} in
  let port_obj := json_obj (port_record [] Samples.busy_ctrl) in
  json_update_port [] [] Samples.busy_ctrl = [port_obj]
  /\ integers_are_int (cfg Samples.busy_ctrl)
  /\ exists w' node',
       json_parse_port (0, 0)%nat port_obj w = Ret w'
       /\ ctrl_at (w_root w') (0, 0, 0)%nat = Some node'
       /\ queue_size (cfg node') = 64
       /\ hdr_digest (cfg node') = true
       /\ persistent node' = true
       /\ dhchap_key node' = Some "DHHC-1:00:aG9zdA==:".
Proof.
  cbv zeta.
  assert (Hint : integers_are_int (cfg Samples.busy_ctrl)).
  { repeat split; vm_compute; discriminate. }
  split; [reflexivity|]. split; [exact Hint|].
  destruct (@json_parse_port_reads_back_exported_record
              json fabrics store resolver
              [] Samples.busy_ctrl
              (json_obj (@port_record fabrics store [] Samples.busy_ctrl))
              (0, 0)%nat
              (@Build_world store
                 {| hosts :=
                        [new_host host1_nqn [new_subsys subsys1_nqn []]] |}
                 [] 0)
              {| hosts :=
                   [new_host host1_nqn
                      [new_subsys subsys1_nqn
                         [new_ctrl "tcp" (Some "192.168.1.12")
                            (Some "192.168.1.1") (Some "eth0")
                            (Some "4420")]]] |}
              (0, 0, 0)%nat
              (new_ctrl "tcp" (Some "192.168.1.12") (Some "192.168.1.1")
                 (Some "eth0") (Some "4420"))
              eq_refl Hint eq_refl eq_refl
              ltac:(repeat split))
    as (w' & node' & Hrun & Hat & _ & _ & _ & Hq & _ & _ & _ & _ & _ & Hh
        & _ & _ & _ & Hp & _ & Hk & _).
  exists w', node'.
  split; [exact Hrun|]. split; [exact Hat|]. split; [exact Hq|].
  split; [exact Hh|]. split; [exact Hp|exact Hk].
Defined.

Lemma json_dump_ctrl_agrees_with_json_update_port_witness :
  "queue_size" <> "name"
  /\ lh_table_lookup (ctrl_record [] Samples.busy_ctrl) "queue_size"
     = lh_table_lookup (port_record [] Samples.busy_ctrl) "queue_size"
  /\ lh_table_lookup (ctrl_record [] Samples.busy_ctrl) "comment"
     = lh_table_lookup (port_record [] Samples.busy_ctrl) "comment".
Proof.
  split; [discriminate|]. split.
  - exact (json_dump_ctrl_agrees_with_json_update_port
             [] Samples.busy_ctrl "queue_size"
             ltac:(discriminate) ltac:(discriminate)
             ltac:(discriminate) ltac:(discriminate)).
  - exact (json_dump_ctrl_agrees_with_json_update_port
             [] Samples.busy_ctrl "comment"
             ltac:(discriminate) ltac:(discriminate)
             ltac:(discriminate) ltac:(discriminate)).
Defined.

Lemma exported_boolean_emitted_iff_set_witness :
  exists b : bool,
    attribute_value Hdr_digest Samples.busy_ctrl = json_boolean b
    /\ lh_table_lookup (port_record [] Samples.busy_ctrl) "hdr_digest"
       = (if b then Some (json_boolean true) else None)
    /\ lh_table_lookup (ctrl_record [] Samples.busy_ctrl) "hdr_digest"
       = (if b && (negb (String.eqb "hdr_digest" "tls")
                   || (strcmp "tcp" "tcp" =? 0))
          then Some (json_boolean true) else None).
Proof.
  exact (exported_boolean_emitted_iff_set [] Samples.busy_ctrl Hdr_digest
           ltac:(simpl; tauto)).
Defined.

Lemma json_dump_tree_whole_topology_witness :
  all_named export_root = true
  /\ all_subsystems_named Samples.subsys_name export_root = true
  /\ json_dump_tree Samples.subsys_name [] export_root 0 2
     = Ret (0, 0,
            json_obj
              [("hosts",
                json_array (map (dumped_host Samples.subsys_name [])
                              (hosts export_root)))]).
Proof.
  split; [reflexivity|]. split; [reflexivity|].
  exact (json_dump_tree_whole_topology Samples.subsys_name [] export_root
           0 2 eq_refl eq_refl).
Defined.

Lemma json_update_config_result_witness :
  all_named export_root = true
  /\ json_update_config [] export_root 0 (Some "/etc/nvme/config.json")
     = Ret (0, 0, json_array (persisted_config [] export_root)).
Proof.
  split; [reflexivity|].
  exact (json_update_config_result [] export_root 0
           (Some "/etc/nvme/config.json") eq_refl).
Defined.

Lemma parse_json_reads_whole_file_witness :
  Forall (fun buf => buf <> "") ["CON"; "FIG"]
  /\ parse_json {| f_reads := ["CON"; "FIG"]; f_read_error := false |}
     = Some config_doc
  /\ parse_json {| f_reads := ["C"; "ONF"; "IG"]; f_read_error := false |}
     = Some config_doc
  /\ parse_json {| f_reads := ["CON"; "FIG"]; f_read_error := true |}
     = None.
Proof.
  assert (H2 : Forall (fun buf => buf <> "") ["CON"; "FIG"])
    by (repeat constructor; discriminate).
  assert (H3 : Forall (fun buf => buf <> "") ["C"; "ONF"; "IG"])
    by (repeat constructor; discriminate).
  split; [exact H2|]. split; [|split].
  - exact (parse_json_reads_whole_file ["CON"; "FIG"] false
             (fun _ => eq_refl) H2).
  - exact (parse_json_reads_whole_file ["C"; "ONF"; "IG"] false
             (fun _ => eq_refl) H3).
  - exact (parse_json_reads_whole_file ["CON"; "FIG"] true
             (fun _ => eq_refl) H2).
Defined.

Lemma json_read_config_unreadable_witness :
  @json_read_config json fabrics store resolver Samples.posix
    empty_world "/etc/nvme/broken.json"
  = Ret (-1, set_errno EPROTO empty_world)
  /\ @json_read_config json fabrics store resolver Samples.posix
       empty_world "/etc/nvme/empty.json"
     = Ret (-1, set_errno EPROTO empty_world)
  /\ @realloc_ok Samples.posix_low_memory 3 = true
  /\ @realloc_ok Samples.posix_low_memory (3 + 3) = false
  /\ @json_read_config json fabrics store resolver Samples.posix_low_memory
       empty_world "/etc/nvme/config.json"
     = Ret (-1, set_errno EPROTO empty_world).
Proof.
  assert (H : Forall (fun buf => buf <> "") (f_reads Samples.broken_file))
    by (repeat constructor; discriminate).
  assert (Hpre : Forall (fun buf => buf <> "") ["CON"])
    by (repeat constructor; discriminate).
  assert (Hmem : exists pre buf rest,
            f_reads config_file = pre ++ buf :: rest
            /\ Forall (fun b => b <> "") pre /\ buf <> ""
            /\ @realloc_ok Samples.posix_low_memory
                 (String.length (fold_right String.append "" pre)
                  + String.length buf) = false).
  { exists ["CON"], "FIG", (@nil string).
    split; [reflexivity|]. split; [exact Hpre|].
    split; [discriminate|reflexivity]. }
  split; [|split; [|split; [reflexivity|split; [reflexivity|]]]].
  - exact (proj1 (@json_read_config_unreadable json fabrics store resolver
                    Samples.posix empty_world "/etc/nvme/broken.json"
                    Samples.broken_file eq_refl
                    (or_introl (conj eq_refl H)))).
  - exact (proj1 (@json_read_config_unreadable json fabrics store resolver
                    Samples.posix empty_world "/etc/nvme/empty.json"
                    Samples.empty_file eq_refl
                    (or_intror (or_introl eq_refl)))).
  - exact (proj1 (@json_read_config_unreadable json fabrics store resolver
                    Samples.posix_low_memory empty_world
                    "/etc/nvme/config.json" config_file eq_refl
                    (or_intror (or_intror (or_introl Hmem))))).
Defined.

Lemma json_parse_port_overwrites_dhchap_keys_witness :
  let old := nvme_ctrl_set_dhchap_host_key (Some "DHHC-1:00:b2xk:") tcp_ctrl in
  let w := {| w_root :=
                {| hosts :=
                     [new_host host1_nqn [new_subsys subsys1_nqn [old]]] |};
              w_keys := []; w_errno := 0 |} in
  let port_obj :=
    json_obj [("transport", json_string "tcp");
              ("traddr", json_string "192.168.1.10");
              ("trsvcid", json_string "4420");
              ("dhchap_key", json_string "DHHC-1:00:bmV3:")] in
  ctrl_at (w_root w) (0, 0, 0)%nat = Some old
  /\ exists w' node',
       json_parse_port (0, 0)%nat port_obj w = Ret w'
       /\ ctrl_at (w_root w') (0, 0, 0)%nat = Some node'
       /\ dhchap_key node' = Some "DHHC-1:00:bmV3:"
       /\ dhchap_ctrl_key node' = None
       /\ traddr node' = Some "192.168.1.10".
Proof.
  cbv zeta. split; [reflexivity|].
  destruct (@json_parse_port_overwrites_dhchap_keys
              json fabrics store resolver (0, 0)%nat
              (json_obj [("transport", json_string "tcp");
                         ("traddr", json_string "192.168.1.10");
                         ("trsvcid", json_string "4420");
                         ("dhchap_key", json_string "DHHC-1:00:bmV3:")])
              (json_string "tcp")
              (@Build_world store
                 {| hosts :=
                        [new_host host1_nqn
                           [new_subsys subsys1_nqn
                              [nvme_ctrl_set_dhchap_host_key
                                 (Some "DHHC-1:00:b2xk:") tcp_ctrl]]] |}
                 [] 0)
              {| hosts :=
                   [new_host host1_nqn
                      [new_subsys subsys1_nqn
                         [nvme_ctrl_set_dhchap_host_key
                            (Some "DHHC-1:00:b2xk:") tcp_ctrl]]] |}
              (0, 0, 0)%nat
              (nvme_ctrl_set_dhchap_host_key (Some "DHHC-1:00:b2xk:") tcp_ctrl)
              eq_refl eq_refl eq_refl)
    as (w' & node' & Hrun & Hat & Hk & Hck & _ & _ & Ha & _).
  exists w', node'.
  split; [exact Hrun|]. split; [exact Hat|]. split; [exact Hk|].
  split; [exact Hck|exact Ha].
Defined.

